(** * PEPPER orchestration core: a shallow embedding of the scheduler,
      the retry policy, the timeline estimator and the feedback loop.

    Sources embedded here:
    - [src/core/agent_orchestrator.py]   (TaskDependency, RetryStrategy,
      AgentOrchestrator)
    - [src/core/feedback_system.py]      (TaskCompletion, FeedbackSystem)
    - [src/agents/specialized/timeline_estimation/timeline_estimator_agent.py]

    Conventions of the embedding.
    - Python [float]s and [int]s that take part in arithmetic are
      rationals ([Q]) with the exact operations, and Python's [==] on
      them is [Qeq]: a [float] result stands for the real number that
      Python rounds. What is stated about such values is therefore what
      rounding keeps (order, sign, bounds, the branch taken), the value
      at inputs where the [float] operations are exact, or the structure
      of the result. Where the conversion of an [int] to a [float] can
      raise, the exception is part of the model ([RetryStrategy]).
    - Python [dict]s keyed by strings are [gmap string _] when only lookups
      matter, and lists in insertion order when the iteration order of the
      dict is observable ([AgentOrchestrator.tasks]).
    - A Python call that can raise returns an [outcome]; code that mutates
      [self] before raising returns the mutated state next to the outcome.
    - Time stamps ([datetime]) are integers (seconds); [datetime.now()] is
      an input of the function that reads it. *)

From Stdlib Require Import QArith Qminmax Qpower Qfield Qabs Lqa DecimalString.
From stdpp Require Import gmap strings list fin_maps.

Set Default Proof Using "Type".
Open Scope string_scope.
Open Scope list_scope.
Open Scope Z_scope.

(** ** Python values and exceptions *)

(** The exception classes that occur in the embedded functions.
    [TransientError] and [FatalError] are the repository's own
    ([src/core/exceptions.py]), [ValidationError] is pydantic's, raised
    when the keywords of a model's constructor do not validate (its
    argument names the model); the others are Python built-ins. *)
Inductive exn : Type :=
  | AttributeError (name : string)
  | ZeroDivisionError
  | KeyError (key : string)
  | ValueError (msg : string)
  | TypeError (msg : string)
  | OSError
  | ConnectionError
  | TimeoutError
  | TransientError (msg : string)
  | FatalError (msg : string)
  | OverflowError
  | ValidationError (model : string).

Inductive outcome (A : Type) : Type :=
  | Ok (a : A)
  | Raise (e : exn).
Arguments Ok {A} a.
Arguments Raise {A} e.

Definition is_raise {A} (o : outcome A) : bool :=
  match o with Ok _ => false | Raise _ => true end.

Definition obind {A B} (o : outcome A) (k : A -> outcome B) : outcome B :=
  match o with Ok a => k a | Raise e => Raise e end.

(** Values of the ["priority"] entry of a metadata dictionary: a number
    or a level name. *)
Inductive pyval : Type :=
  | PNum (q : Q)
  | PStr (s : string).

(** Python's [a < b] on numbers. *)
Definition Qltb (a b : Q) : bool := if Qlt_le_dec a b then true else false.

(** Python's [min(a, b)]: the first argument unless the second is smaller. *)
Definition py_min (a b : Q) : Q := if Qltb b a then b else a.

(** Python's [max(a, b)]: the first argument unless the second is larger. *)
Definition py_max (a b : Q) : Q := if Qltb a b then b else a.

(** [max(iterable)] over a non-empty sequence given as head and tail. *)
Definition py_max_list (x : Q) (xs : list Q) : Q := fold_left py_max xs x.

(** ** RetryStrategy ([agent_orchestrator.py], lines 44-89) *)

Module RetryStrategy.

(** [base_delay] is declared [float] and defaults to [1.0], but nothing
    converts the value that is passed in ([from_config] hands over what
    the configuration holds), so it is an [int] or a [float]. The two
    differ when the delay is multiplied by a large [int]: [int * int] is
    exact, [float * int] first converts the [int] to a [float]. *)
Inductive number : Type :=
  | Int (z : Z)
  | Float (q : Q).

Definition value (x : number) : Q :=
  match x with Int z => inject_Z z | Float q => q end.

Record t : Type := make {
  max_retries : Z;
  base_delay : number;
  max_delay : Q;
  strategy : string
}.

(** [RetryStrategy()] with the defaults of [__init__]. *)
Definition default : t :=
  {| max_retries := 3; base_delay := Float 1; max_delay := 32;
     strategy := "exponential" |}.

(** An [int] has a [float] unless the nearest double would be [2 ** 1024]:
    from [2 ** 1024 - 2 ** 970] on (in absolute value) the conversion
    raises [OverflowError]. *)
Definition float_limit : Z := 2 ^ 1024 - 2 ^ 970.

(** [x * i] for an [int] [i]. *)
Definition times_int (x : number) (i : Z) : outcome Q :=
  match x with
  | Int z => Ok (inject_Z z * inject_Z i)%Q
  | Float q =>
      if float_limit <=? Z.abs i then Raise OverflowError
      else Ok (q * inject_Z i)%Q
  end.

(** [2 ** e] for a negative [e]: the reciprocal, a [float]. *)
Definition pow2 (e : Z) : Q := Qpower 2 e.

(** [x * (2 ** e)]: [2 ** e] is an [int] when [e >= 0]. The
    orchestrator's attempts start at 1, so that [e = attempt - 1] is not
    negative; for a negative [e] the value is the exact product. *)
Definition times_pow2 (x : number) (e : Z) : outcome Q :=
  if 0 <=? e then times_int x (2 ^ e) else Ok (value x * pow2 e)%Q.

Definition calculate_delay (self : t) (attempt : Z) : outcome Q :=
  if String.eqb (strategy self) "exponential" then
    obind (times_pow2 (base_delay self) (attempt - 1)) (fun delay =>
    Ok (py_min delay (max_delay self)))
  else if String.eqb (strategy self) "linear" then
    obind (times_int (base_delay self) attempt) (fun delay =>
    Ok (py_min delay (max_delay self)))
  else if String.eqb (strategy self) "fixed" then
    Ok (value (base_delay self))
  else
    (* unknown strategy: a warning is logged, exponential is used *)
    obind (times_pow2 (base_delay self) (attempt - 1)) (fun delay =>
    Ok (py_min delay (max_delay self))).

End RetryStrategy.

(** ** Insertion-ordered dictionaries

    A Python [dict] iterates in insertion order; assigning to an existing
    key keeps the key's position. [AgentOrchestrator.tasks] and the
    estimator's [earliest_completion] are iterated, so they are kept as
    lists of pairs with unique keys. *)

Definition odict (V : Type) : Type := list (string * V).

Definition od_get {V} (k : string) (d : odict V) : option V :=
  snd <$> List.find (fun kv => String.eqb (fst kv) k) d.

Definition od_mem {V} (k : string) (d : odict V) : bool :=
  match od_get k d with Some _ => true | None => false end.

(** [d[k] = v] *)
Fixpoint od_set {V} (k : string) (v : V) (d : odict V) : odict V :=
  match d with
  | [] => [(k, v)]
  | (k', v') :: d' =>
      if String.eqb k' k then (k, v) :: d' else (k', v') :: od_set k v d'
  end.

(** [d.pop(k)]: [None] is Python's [KeyError]. *)
Fixpoint od_pop {V} (k : string) (d : odict V) : option (odict V) :=
  match d with
  | [] => None
  | (k', v') :: d' =>
      if String.eqb k' k then Some d'
      else match od_pop k d' with
           | Some r => Some ((k', v') :: r)
           | None => None
           end
  end.

(** [d.values()] *)
Definition od_values {V} (d : odict V) : list V := List.map snd d.

(** ** Task metadata

    [metadata] is an open [Dict[str, Any]]. The embedding keeps the keys
    the embedded functions read, each absent ([None]) or present with the
    type the reading code needs. *)

Record metadata_t : Type := {
  md_priority : option pyval;            (* "priority" *)
  md_complexity : option Q;              (* "complexity" *)
  md_estimated_duration : option Q;      (* "estimated_duration" *)
  md_milestone_id : option string;       (* "milestone_id" *)
  md_dependencies : option (list string) (* "dependencies" *)
}.

Definition empty_metadata : metadata_t :=
  {| md_priority := None; md_complexity := None;
     md_estimated_duration := None; md_milestone_id := None;
     md_dependencies := None |}.

(** Python truthiness of a string looked up with [.get]. *)
Definition truthy_str (o : option string) : bool :=
  match o with Some s => negb (String.eqb s "") | None => false end.

(** ** Result dictionaries

    What [run_task] and [_execute_task_with_retry] return: a dictionary
    with the keys the orchestrator reads or writes, or some other object. *)

Record new_task_dict : Type := {
  nt_task_id : string;
  nt_agent_id : string;
  nt_description : string;
  nt_depends_on : list string;
  nt_metadata : metadata_t
}.

Record result_dict : Type := {
  r_status : option string;          (* "status" *)
  r_error : option string;           (* "error" *)
  r_error_type : option string;      (* "error_type" *)
  r_attempts : option Z;             (* "attempts" *)
  r_retry_strategy : option string;  (* "retry_strategy" *)
  r_new_tasks : list new_task_dict   (* details["tasks"], read for pm_agent *)
}.

Inductive agent_return : Type :=
  | RetDict (d : result_dict)
  | RetOther.

(** ** TaskDependency ([agent_orchestrator.py], lines 29-42) *)

Module TaskDependency.

Record t : Type := make {
  task_id : string;
  agent_id : string;
  description : string;
  depends_on : list string;
  metadata : metadata_t;
  status : string;
  start_time : option Z;
  end_time : option Z;
  result : option agent_return
}.

(** [TaskDependency(task_id, agent_id, description, depends_on, metadata)] *)
Definition init (task_id agent_id description : string)
    (depends_on : list string) (md : metadata_t) : t :=
  {| task_id := task_id; agent_id := agent_id; description := description;
     depends_on := depends_on; metadata := md; status := "pending";
     start_time := None; end_time := None; result := None |}.

Definition set_status (s : string) (x : t) : t :=
  {| task_id := task_id x; agent_id := agent_id x;
     description := description x; depends_on := depends_on x;
     metadata := metadata x; status := s; start_time := start_time x;
     end_time := end_time x; result := result x |}.

Definition set_result (r : agent_return) (x : t) : t :=
  {| task_id := task_id x; agent_id := agent_id x;
     description := description x; depends_on := depends_on x;
     metadata := metadata x; status := status x; start_time := start_time x;
     end_time := end_time x; result := Some r |}.

Definition set_start_time (n : Z) (x : t) : t :=
  {| task_id := task_id x; agent_id := agent_id x;
     description := description x; depends_on := depends_on x;
     metadata := metadata x; status := status x; start_time := Some n;
     end_time := end_time x; result := result x |}.

Definition set_end_time (n : Z) (x : t) : t :=
  {| task_id := task_id x; agent_id := agent_id x;
     description := description x; depends_on := depends_on x;
     metadata := metadata x; status := status x; start_time := start_time x;
     end_time := Some n; result := result x |}.

End TaskDependency.

(** ** Task ([agent_base.py], lines 20-30)

    [Task] is a pydantic model with eight fields, none of them with a
    default. [agent_orchestrator.py] names it in two calls (lines 342-347
    and 623-628) and in the annotation of [_execute_task_with_retry]; it
    imports the name under [TYPE_CHECKING] only, and the embedding takes
    that import as made, as it does for [TaskCompletion]. (Without the
    import the two calls raise as well, at the same place: [NameError].) *)

Module Task.

(** The attributes of a task object that [_execute_task_with_retry]
    reads or hands to the agent: [task_id], [task_type], [description]
    and [metadata]. *)
Record t : Type := make {
  task_id : string;
  task_type : string;
  description : string;
  metadata : metadata_t
}.

(** The keyword arguments of the two calls,
    [task_id=task.task_id, task_type=task.agent_id,
     description=task.description, metadata=task.metadata]. *)
Definition of_dependency (d : TaskDependency.t) : t :=
  {| task_id := TaskDependency.task_id d;
     task_type := TaskDependency.agent_id d;
     description := TaskDependency.description d;
     metadata := TaskDependency.metadata d |}.

Definition call_keywords : list string :=
  ["task_id"; "task_type"; "description"; "metadata"].

(** The fields of the model. *)
Definition required_fields : list string :=
  ["task_id"; "task_type"; "priority"; "status"; "created_at"; "updated_at";
   "metadata"; "payload"].

(** [Task(...)] with the given keywords: pydantic raises
    [ValidationError] when a required field has no keyword. *)
Definition init (keywords : list string) (kwargs : t) : outcome t :=
  if forallb (fun field => existsb (String.eqb field) keywords) required_fields
  then Ok kwargs
  else Raise (ValidationError "Task").

End Task.

(** ** TaskCompletion ([feedback_system.py], lines 15-26) *)

Module TaskCompletion.

Record t : Type := make {
  task_id : string;
  agent_id : string;
  estimated_duration : Q;
  actual_duration : Q;
  start_time : option Z;
  end_time : Z;
  complexity : Q;
  dependencies : list string;
  success : bool;
  notes : option string
}.

(** [TaskCompletion(...)] with the keywords held by the record:
    [start_time] is a required [datetime], so [None] does not validate
    and pydantic raises [ValidationError]; the other keywords have the
    types of their fields. *)
Definition init (kwargs : t) : outcome t :=
  match start_time kwargs with
  | None => Raise (ValidationError "TaskCompletion")
  | Some _ => Ok kwargs
  end.

End TaskCompletion.

(** [task.metadata.get("estimated_duration", 0)] *)
Definition estimated_duration_of (md : metadata_t) : Q :=
  default 0%Q (md_estimated_duration md).

(** [task.metadata.get("complexity", 5)] *)
Definition complexity_of (md : metadata_t) : Q :=
  default 5%Q (md_complexity md).

(** ** FeedbackSystem ([feedback_system.py], lines 39-94) *)

(** The language-model collaborator behind [self.llm]; its answers are
    inputs of the embedding. *)
Record llm_interface : Type := {
  analyze_text : TaskCompletion.t -> outcome unit;
  generate_text : TaskCompletion.t -> outcome (list string)
}.

Module FeedbackSystem.

Record t : Type := make {
  (** [self.llm]; [AgentOrchestrator.__init__] builds
      [FeedbackSystem(None, None)]. *)
  llm : option llm_interface;
  (** Outcome of writing [completion_<task_id>.json] under [data_dir]. *)
  save_completion_file : TaskCompletion.t -> outcome unit;
  (** Outcome of the file updates of [_update_agent_metrics] and of
      [_check_milestone_status]. *)
  update_agent_metrics_io : string -> outcome unit;
  check_milestone_status_io : TaskCompletion.t -> outcome unit
}.

Record analysis : Type := {
  time_difference : Q;
  accuracy_percentage : Q;
  recommendations : list string
}.

(** [_save_completion_data]: logs and re-raises whatever the write raises. *)
Definition _save_completion_data (self : t) (completion : TaskCompletion.t)
    : outcome unit :=
  save_completion_file self completion.

(** [_analyze_patterns]: [await self.llm.analyze_text(prompt, ...)]. *)
Definition _analyze_patterns (self : t) (completion : TaskCompletion.t)
    : outcome unit :=
  match llm self with
  | None => Raise (AttributeError "analyze_text")
  | Some l => analyze_text l completion
  end.

(** [_generate_recommendations]: [await self.llm.generate_text(prompt)]. *)
Definition _generate_recommendations (self : t) (completion : TaskCompletion.t)
    : outcome (list string) :=
  match llm self with
  | None => Raise (AttributeError "generate_text")
  | Some l => generate_text l completion
  end.

(** [_analyze_completion], lines 80-94. The division is Python's float
    division: it raises [ZeroDivisionError] when the divisor is zero. *)
Definition _analyze_completion (self : t) (completion : TaskCompletion.t)
    : outcome analysis :=
  let time_difference :=
    (TaskCompletion.actual_duration completion
     - TaskCompletion.estimated_duration completion)%Q in
  if Qeq_bool (TaskCompletion.estimated_duration completion) 0 then
    Raise ZeroDivisionError
  else
    let accuracy_percentage :=
      (1 - Qabs time_difference
           / TaskCompletion.estimated_duration completion)%Q in
    obind (_analyze_patterns self completion) (fun _ =>
    obind (_generate_recommendations self completion) (fun recs =>
    Ok {| time_difference := time_difference;
          accuracy_percentage := accuracy_percentage;
          recommendations := recs |})).

(** [record_task_completion], lines 55-78: every exception of the four
    steps is logged and re-raised. *)
Definition record_task_completion (self : t) (completion : TaskCompletion.t)
    : outcome analysis :=
  obind (_save_completion_data self completion) (fun _ =>
  obind (_analyze_completion self completion) (fun a =>
  obind (update_agent_metrics_io self (TaskCompletion.agent_id completion)) (fun _ =>
  obind (check_milestone_status_io self completion) (fun _ =>
  Ok a)))).

End FeedbackSystem.

(** ** Milestones ([feedback_system.py], lines 28-37) *)

(** An entry of [MilestoneStatus.tasks]. The model declares [List[str]];
    [create_task] appends dictionaries with a ["completed"] key, and
    [_update_milestone_progress] subscripts every entry with that key. *)
Inductive milestone_task : Type :=
  | MTaskId (task_id : string)
  | MTaskDict (task_id description : string) (completed : bool).

(** [estimated_completion]: [datetime.fromisoformat] accepts a string and
    raises [TypeError] on a [datetime] object. *)
Inductive time_field : Type :=
  | IsoString (t : Z)
  | DatetimeObject (t : Z).

Module MilestoneStatus.

Record t : Type := make {
  milestone_id : string;
  name : string;
  estimated_completion : time_field;
  actual_completion : option Z;
  status : string;
  tasks : list milestone_task;
  progress : Q;
  delay_reason : option string
}.

Definition set_status (s : string) (m : t) : t :=
  {| milestone_id := milestone_id m; name := name m;
     estimated_completion := estimated_completion m;
     actual_completion := actual_completion m; status := s;
     tasks := tasks m; progress := progress m;
     delay_reason := delay_reason m |}.

Definition set_actual_completion (n : Z) (m : t) : t :=
  {| milestone_id := milestone_id m; name := name m;
     estimated_completion := estimated_completion m;
     actual_completion := Some n; status := status m;
     tasks := tasks m; progress := progress m;
     delay_reason := delay_reason m |}.

Definition set_progress (p : Q) (m : t) : t :=
  {| milestone_id := milestone_id m; name := name m;
     estimated_completion := estimated_completion m;
     actual_completion := actual_completion m; status := status m;
     tasks := tasks m; progress := p;
     delay_reason := delay_reason m |}.

End MilestoneStatus.

(** ** Observable effects of the orchestrator *)

Inductive event : Type :=
  | EvRunTask (agent_id task_id : string) (attempt : Z)
      (* [self.agents[agent_id].run_task(task)] was called *)
  | EvSleep (delay : Q)
      (* [await asyncio.sleep(delay)] *)
  | EvMetric (agent_id status : string) (retries_attempted : Z)
      (* [record_metric(...)] *)
  | EvRecord (c : TaskCompletion.t)
      (* [self.feedback_system.record_task_completion(c)] was called *)
  | EvNotify (kind milestone_id : string)
      (* the ["slack_bot"] agent was run on a notification task *)
  | EvLogError (msg : string).

Definition is_run_task (e : event) : bool :=
  match e with EvRunTask _ _ _ => true | _ => false end.

Definition sleep_of (e : event) : option Q :=
  match e with EvSleep d => Some d | _ => None end.

(** The number of times an agent was asked to run a task, and the
    back-off sleeps, read off a trace. *)
Definition attempts_in (tr : list event) : nat :=
  length (List.filter is_run_task tr).

Definition sleeps_in (tr : list event) : list Q :=
  omap sleep_of tr.

(** ** The class AgentOrchestrator: attribute resolution

    [self.<name>] finds a method of the class body or an attribute that
    [__init__] assigned; the class has no base class and no [__getattr__],
    so any other name raises [AttributeError]. *)

Definition AgentOrchestrator_methods : list string :=
  [ "__init__"; "_setup_logging"; "_load_config"; "initialize";
    "_display_agents"; "add_task"; "request_agent_task";
    "_get_ready_tasks"; "process_tasks"; "_handle_pm_task_results";
    "_execute_task_with_retry"; "_display_result"; "run";
    "register_agent"; "create_task"; "execute_task";
    "_update_milestone_progress"; "_handle_milestone_delay";
    "_send_milestone_notification"; "_send_delay_notification";
    "get_task_status"; "get_milestone_status"; "get_project_metrics" ].

Definition AgentOrchestrator_init_attributes : list string :=
  [ "config_path"; "config_loader"; "config"; "agents"; "router"; "tasks";
    "completed_tasks"; "console"; "feedback_system"; "milestones";
    "task_dependencies"; "reverse_dependencies";
    "default_retry_strategy"; "transient_errors" ].

(** Bodies for the two helpers that [_execute_task_with_retry] calls. *)
Record retry_helpers : Type := {
  impl_get_retry_strategy : string -> RetryStrategy.t;
  impl_get_retry_count : exn -> string -> Z
}.

Record orchestrator_class : Type := {
  attributes : list string;
  helpers : retry_helpers
}.

(** The class as it is written in [agent_orchestrator.py]: whatever
    bodies [h] holds, the names of the two helpers are not attributes. *)
Definition AgentOrchestrator (h : retry_helpers) : orchestrator_class :=
  {| attributes := AgentOrchestrator_methods ++ AgentOrchestrator_init_attributes;
     helpers := h |}.


Definition has_attribute (cls : orchestrator_class) (name : string) : bool :=
  existsb (String.eqb name) (attributes cls).

(** [self.<name>] for a method whose body is [body]. *)
Definition getattr {A} (cls : orchestrator_class) (name : string) (body : A)
    : outcome A :=
  if has_attribute cls name then Ok body else Raise (AttributeError name).

(** The collaborators of a run. *)
Record Env : Type := {
  (** [self.agents[agent_id].run_task(task)]; an agent's answer may
      depend on the task and on the attempt. *)
  run_task : string -> Task.t -> Z -> outcome agent_return;
  (** Seconds measured around an execution ([time.time()] differences). *)
  measured_duration : Q;
  (** [datetime.now()] *)
  now : Z;
  feedback_system : FeedbackSystem.t;
  (** Outcome of rewriting [milestones.json], by calling method. *)
  write_milestones : string -> outcome unit;
  (** [str(e)]: the text of an exception, as Python renders it. *)
  exn_text : exn -> string
}.

(** ** AgentOrchestrator: state ([__init__], lines 94-125) *)

Module Orchestrator.

Record t : Type := make {
  agents : gset string;                        (* keys of [self.agents] *)
  tasks : odict TaskDependency.t;
  completed_tasks : gmap string TaskDependency.t;
  milestones : gmap string MilestoneStatus.t;
  task_dependencies : gmap string (gset string);
  reverse_dependencies : gmap string (gset string)
}.

Definition set_tasks (ts : odict TaskDependency.t) (o : t) : t :=
  {| agents := agents o; tasks := ts; completed_tasks := completed_tasks o;
     milestones := milestones o; task_dependencies := task_dependencies o;
     reverse_dependencies := reverse_dependencies o |}.

Definition set_completed_tasks (c : gmap string TaskDependency.t) (o : t) : t :=
  {| agents := agents o; tasks := tasks o; completed_tasks := c;
     milestones := milestones o; task_dependencies := task_dependencies o;
     reverse_dependencies := reverse_dependencies o |}.

Definition set_milestones (m : gmap string MilestoneStatus.t) (o : t) : t :=
  {| agents := agents o; tasks := tasks o; completed_tasks := completed_tasks o;
     milestones := m; task_dependencies := task_dependencies o;
     reverse_dependencies := reverse_dependencies o |}.

Definition set_dependencies (d r : gmap string (gset string)) (o : t) : t :=
  {| agents := agents o; tasks := tasks o; completed_tasks := completed_tasks o;
     milestones := milestones o; task_dependencies := d;
     reverse_dependencies := r |}.

End Orchestrator.

(** [k in d] for a [gmap]. *)
Definition gm_mem {V} (k : string) (d : gmap string V) : bool :=
  match d !! k with Some _ => true | None => false end.

(** [k in self.agents] *)
Definition agent_known (self : Orchestrator.t) (agent_id : string) : bool :=
  bool_decide (agent_id ∈ Orchestrator.agents self).

(** ** [_get_ready_tasks] (lines 311-320) *)

(** The test of the loop body: status ["pending"] and every dependency a
    key of [self.completed_tasks]. *)
Definition is_ready (self : Orchestrator.t) (task : TaskDependency.t) : bool :=
  String.eqb (TaskDependency.status task) "pending"
  && forallb (fun dep => gm_mem dep (Orchestrator.completed_tasks self))
       (TaskDependency.depends_on task).

Definition _get_ready_tasks (self : Orchestrator.t) : list TaskDependency.t :=
  fold_left
    (fun ready_tasks task =>
       if is_ready self task then ready_tasks ++ [task] else ready_tasks)
    (od_values (Orchestrator.tasks self)) [].

(** ** [_handle_pm_task_results] (lines 404-435)

    [r_new_tasks] holds the entries of [details["tasks"]] that pass the
    [isinstance] tests, each with its [task_id]. *)

Definition add_reverse (new_id : string) (r : gmap string (gset string))
    (dep : string) : gmap string (gset string) :=
  <[dep := default ∅ (r !! dep) ∪ {[new_id]}]> r.

Definition add_new_task (self : Orchestrator.t) (n : new_task_dict) : Orchestrator.t :=
  let new_task :=
    TaskDependency.init (nt_task_id n) (nt_agent_id n) (nt_description n)
      (nt_depends_on n) (nt_metadata n) in
  let id := TaskDependency.task_id new_task in
  Orchestrator.set_dependencies
    (<[id := list_to_set (TaskDependency.depends_on new_task)]>
       (Orchestrator.task_dependencies self))
    (fold_left (add_reverse id) (TaskDependency.depends_on new_task)
       (Orchestrator.reverse_dependencies self))
    (Orchestrator.set_tasks (od_set id new_task (Orchestrator.tasks self)) self).

Definition _handle_pm_task_results (self : Orchestrator.t) (result : result_dict)
    : Orchestrator.t :=
  fold_left add_new_task (r_new_tasks result) self.

(** ** Milestone updates (lines 680-808) *)

(** [_send_milestone_notification] and [_send_delay_notification]
    (lines 756-808): without a ["slack_bot"] agent only a warning is
    logged; with one, [slack_bot.run_task(Task(...))] is tried and
    whatever it raises is logged and swallowed. The argument [Task(...)]
    is built first, with the same four keywords as elsewhere; its
    metadata dictionary (the kind, the milestone, the reason) is a
    dictionary whatever it holds. [kind] is the ["type"] of that
    dictionary. *)
Definition send_notification (self : Orchestrator.t)
    (kind task_id_prefix description : string) (m : MilestoneStatus.t)
    : list event :=
  if agent_known self "slack_bot" then
    match Task.init Task.call_keywords
            {| Task.task_id :=
                 (task_id_prefix ++ MilestoneStatus.milestone_id m)%string;
               Task.task_type := "slack_bot";
               Task.description := description;
               Task.metadata := empty_metadata |} with
    | Ok _ => [EvNotify kind (MilestoneStatus.milestone_id m)]
    | Raise _ => []   (* logger.error("Failed to send ...") *)
    end
  else [].

(** [_handle_milestone_delay] (lines 731-754): the milestone object is
    mutated before the [try]; a failure inside it surfaces as
    [FatalError]. The returned milestone is the object after the call. *)
Definition _handle_milestone_delay (env : Env) (self : Orchestrator.t)
    (milestone : MilestoneStatus.t) (delay_reason : string)
    : MilestoneStatus.t * list event * outcome unit :=
  let milestone := MilestoneStatus.set_status "delayed" milestone in
  let ev := send_notification self "delay_notification" "delay-notification-"
      "Send milestone delay notification" milestone in
  match write_milestones env "_handle_milestone_delay" with
  | Ok _ => (milestone, ev, Ok tt)
  | Raise e =>
      (milestone, ev,
       Raise (FatalError ("Milestone delay handling failed: " ++ exn_text env e)%string))
  end.

(** [task["completed"]] on one entry of [milestone.tasks]. *)
Definition task_completed_flag (x : milestone_task) : outcome bool :=
  match x with
  | MTaskDict _ _ c => Ok c
  | MTaskId _ => Raise (TypeError "string indices must be integers")
  end.

(** [sum(1 for task in milestone.tasks if task["completed"])] *)
Fixpoint count_completed (l : list milestone_task) : outcome Z :=
  match l with
  | [] => Ok 0
  | x :: l' =>
      obind (task_completed_flag x) (fun c =>
      obind (count_completed l') (fun n =>
      Ok (if c then 1 + n else n)))
  end.

(** [datetime.fromisoformat(milestone.estimated_completion)] *)
Definition fromisoformat (f : time_field) : outcome Z :=
  match f with
  | IsoString t => Ok t
  | DatetimeObject _ => Raise (TypeError "fromisoformat: argument must be str")
  end.

(** [(completed_tasks / total_tasks * 100) if total_tasks > 0 else 0] *)
Definition progress_percent (completed total : Z) : Q :=
  if 0 <? total then (inject_Z completed / inject_Z total * 100)%Q else 0%Q.

(** The [if]/[elif]/[else] that sets the status from the progress
    (lines 703-712). *)
Definition status_from_progress (env : Env) (progress : Q)
    (milestone : MilestoneStatus.t) : MilestoneStatus.t :=
  MilestoneStatus.set_progress progress
    (if Qeq_bool progress 100 then
       MilestoneStatus.set_actual_completion (now env)
         (MilestoneStatus.set_status "completed" milestone)
     else if Qltb 0 progress then
       MilestoneStatus.set_status "in_progress" milestone
     else
       MilestoneStatus.set_status "pending" milestone).

(** The milestone object is stored in [self.milestones] and mutated in
    place: the state returned holds it as it is when the call ends,
    whether the call returns or raises. *)
Definition store_milestone (milestone_id : string) (m : MilestoneStatus.t)
    (self : Orchestrator.t) : Orchestrator.t :=
  Orchestrator.set_milestones
    (<[milestone_id := m]> (Orchestrator.milestones self)) self.

Definition _update_milestone_progress (env : Env) (self : Orchestrator.t)
    (milestone_id : string) : Orchestrator.t * list event * outcome unit :=
  match Orchestrator.milestones self !! milestone_id with
  | None => (self, [], Ok tt)           (* warning logged, return *)
  | Some milestone =>
      let total_tasks := Z.of_nat (length (MilestoneStatus.tasks milestone)) in
      match count_completed (MilestoneStatus.tasks milestone) with
      | Raise e => (self, [], Raise e)
      | Ok completed_tasks =>
      let progress := progress_percent completed_tasks total_tasks in
      match fromisoformat (MilestoneStatus.estimated_completion milestone) with
      | Raise e => (self, [], Raise e)
      | Ok estimated_completion =>
      let '(milestone, ev_delay, delayed) :=
        if Qltb progress 50 && (estimated_completion <? now env)
        then _handle_milestone_delay env self milestone
               "Tasks taking longer than estimated"
        else (milestone, [], Ok tt) in
      match delayed with
      | Raise e => (store_milestone milestone_id milestone self, ev_delay, Raise e)
      | Ok _ =>
      let milestone := status_from_progress env progress milestone in
      let self' := store_milestone milestone_id milestone self in
      match write_milestones env "_update_milestone_progress" with
      | Ok _ =>
          (self',
           ev_delay
           ++ send_notification self "milestone_notification"
                "milestone-notification-" "Send milestone update notification"
                milestone,
           Ok tt)
      | Raise e =>
          (self', ev_delay,
           Raise (FatalError ("Milestone update failed: " ++ exn_text env e)%string))
      end end end end
  end.

(** ** [_execute_task_with_retry] (lines 437-546) *)

(** [TaskCompletion(...)] as built after a successful execution
    (lines 468-479). The clock is read as [now env] throughout a call. *)
Definition completion_of_success (env : Env) (agent_id : string) (task : Task.t)
    : TaskCompletion.t :=
  {| TaskCompletion.task_id := Task.task_id task;
     TaskCompletion.agent_id := agent_id;
     TaskCompletion.estimated_duration := estimated_duration_of (Task.metadata task);
     TaskCompletion.actual_duration := measured_duration env;
     TaskCompletion.start_time := Some (now env);
     TaskCompletion.end_time := now env;
     TaskCompletion.complexity := complexity_of (Task.metadata task);
     TaskCompletion.dependencies := default [] (md_dependencies (Task.metadata task));
     TaskCompletion.success := true;
     TaskCompletion.notes := Some "Task completed successfully" |}.

(** The body of the [try] (lines 447-482): the agent is looked up and
    run; after a success a metric and a completion are recorded, and an
    exception of the feedback system is an exception of the [try]. *)
Definition try_run (env : Env) (self : Orchestrator.t) (agent_id : string)
    (task : Task.t) (attempt : Z) : list event * outcome agent_return :=
  if agent_known self agent_id then
    let called := EvRunTask agent_id (Task.task_id task) attempt in
    match run_task env agent_id task attempt with
    | Raise e => ([called], Raise e)
    | Ok result =>
        let metric := EvMetric agent_id "PASS" (attempt - 1) in
        match TaskCompletion.init (completion_of_success env agent_id task) with
        | Raise e => ([called; metric], Raise e)
        | Ok completion =>
            let ev := [called; metric; EvRecord completion] in
            match FeedbackSystem.record_task_completion (feedback_system env)
                    completion with
            | Ok _ => (ev, Ok result)
            | Raise e => (ev, Raise e)
            end
        end
    end
  else ([], Raise (KeyError agent_id)).

(** The error dictionaries of lines 503-509 and 540-546. *)
Definition retry_error_result (env : Env) (e : exn) (error_type : string)
    (attempt : Z) (strategy : RetryStrategy.t) : result_dict :=
  {| r_status := Some "error"; r_error := Some (exn_text env e);
     r_error_type := Some error_type; r_attempts := Some attempt;
     r_retry_strategy := Some (RetryStrategy.strategy strategy);
     r_new_tasks := [] |}.

(** [f"... Retrying in {delay:.1f} seconds..."] in the warning of lines
    512-517: the format converts an [int] to a [float] first, and an
    [int] of [float_limit] or more in absolute value has none
    ([OverflowError]); every [float] is below that limit. *)
Definition format_delay (delay : Q) : outcome unit :=
  if Qle_bool (inject_Z RetryStrategy.float_limit) (Qabs delay)
  then Raise OverflowError else Ok tt.

(** The method recurses with [attempt + 1]; [fuel] bounds the depth of
    the recursion and [None] means the bound was hit. *)
Fixpoint _execute_task_with_retry (fuel : nat) (cls : orchestrator_class)
    (env : Env) (self : Orchestrator.t) (agent_id : string) (task : Task.t)
    (attempt : Z) : option (list event * outcome agent_return) :=
  match fuel with
  | O => None
  | S fuel' =>
    match getattr cls "_get_retry_strategy"
            (impl_get_retry_strategy (helpers cls)) with
    | Raise e => Some ([], Raise e)
    | Ok _get_retry_strategy =>
      let strategy := _get_retry_strategy agent_id in
      let '(ev_try, tried) := try_run env self agent_id task attempt in
      match tried with
      | Ok result => Some (ev_try, Ok result)
      | Raise e =>
        match getattr cls "_get_retry_count"
                (impl_get_retry_count (helpers cls)) with
        | Raise e' => Some (ev_try, Raise e')
        | Ok _get_retry_count =>
          let retry_count := _get_retry_count e agent_id in
          if retry_count =? 0 then
            Some (ev_try ++ [EvMetric agent_id "FAIL" (attempt - 1)],
                  Ok (RetDict (retry_error_result env e "fatal" attempt strategy)))
          else if attempt <=? retry_count then
            (* what is raised here, in the handler, leaves the call *)
            match RetryStrategy.calculate_delay strategy attempt with
            | Raise e' => Some (ev_try, Raise e')
            | Ok delay =>
                match format_delay delay with
                | Raise e' => Some (ev_try, Raise e')
                | Ok _ =>
                    match _execute_task_with_retry fuel' cls env self agent_id
                            task (attempt + 1) with
                    | None => None
                    | Some (ev, r) => Some (ev_try ++ EvSleep delay :: ev, r)
                    end
                end
            end
          else
            Some (ev_try ++ [EvMetric agent_id "FAIL" (attempt - 1)],
                  Ok (RetDict (retry_error_result env e "max_retries_exceeded"
                                 attempt strategy)))
        end
      end
    end
  end.

(** ** [process_tasks] (lines 322-402) *)

(** Lines 353-357: a result that is not a dictionary is wrapped, and a
    dictionary without ["status"] gets ["success"]. *)
Definition normalise_result (r : agent_return) : result_dict :=
  match r with
  | RetOther =>
      {| r_status := Some "success"; r_error := None; r_error_type := None;
         r_attempts := None; r_retry_strategy := None; r_new_tasks := [] |}
  | RetDict d =>
      match r_status d with
      | Some _ => d
      | None =>
          {| r_status := Some "success"; r_error := r_error d;
             r_error_type := r_error_type d; r_attempts := r_attempts d;
             r_retry_strategy := r_retry_strategy d;
             r_new_tasks := r_new_tasks d |}
      end
  end.

(** ["completed" if result["status"] == "success" else "failed"] *)
Definition status_of_result (r : result_dict) : string :=
  match r_status r with
  | Some s => if String.eqb s "success" then "completed" else "failed"
  | None => "failed"
  end.

(** The result stored by the [except] branch (lines 381-385). *)
Definition processing_error_result (env : Env) (e : exn) : result_dict :=
  {| r_status := Some "error"; r_error := Some (exn_text env e);
     r_error_type := Some "processing_error"; r_attempts := None;
     r_retry_strategy := None; r_new_tasks := [] |}.

(** The keywords of [TaskCompletion(...)] in the [except] branch
    (lines 390-401); [start_time] is [task.start_time], which nothing in
    [process_tasks] sets. *)
Definition completion_of_failure (env : Env) (task : TaskDependency.t) (e : exn)
    : TaskCompletion.t :=
  {| TaskCompletion.task_id := TaskDependency.task_id task;
     TaskCompletion.agent_id := TaskDependency.agent_id task;
     TaskCompletion.estimated_duration :=
       estimated_duration_of (TaskDependency.metadata task);
     TaskCompletion.actual_duration :=
       match TaskDependency.start_time task with
       | Some s => inject_Z (now env - s)
       | None => 0%Q
       end;
     TaskCompletion.start_time := TaskDependency.start_time task;
     TaskCompletion.end_time := now env;
     TaskCompletion.complexity := complexity_of (TaskDependency.metadata task);
     TaskCompletion.dependencies := TaskDependency.depends_on task;
     TaskCompletion.success := false;
     TaskCompletion.notes := Some ("Failed: " ++ exn_text env e)%string |}.

(** A task object sits in [self.tasks] until it is moved to
    [self.completed_tasks]; assigning to its attributes changes the entry
    that holds it. [moved] tells where the object is. *)
Definition write_back (moved : bool) (task : TaskDependency.t)
    (self : Orchestrator.t) : Orchestrator.t :=
  let id := TaskDependency.task_id task in
  if moved then
    Orchestrator.set_completed_tasks
      (<[id := task]> (Orchestrator.completed_tasks self)) self
  else if od_mem id (Orchestrator.tasks self) then
    Orchestrator.set_tasks (od_set id task (Orchestrator.tasks self)) self
  else self.

(** [self.tasks.pop(task.task_id); self.completed_tasks[task.task_id] = task] *)
Definition move_to_completed (task : TaskDependency.t) (self : Orchestrator.t)
    : outcome Orchestrator.t :=
  let id := TaskDependency.task_id task in
  match od_pop id (Orchestrator.tasks self) with
  | None => Raise (KeyError id)
  | Some ts =>
      Ok (Orchestrator.set_completed_tasks
            (<[id := task]> (Orchestrator.completed_tasks self))
            (Orchestrator.set_tasks ts self))
  end.

(** The [except Exception as e] branch (lines 378-402). An exception
    raised inside it leaves [process_tasks]. *)
Definition process_tasks_except (env : Env) (moved : bool)
    (self : Orchestrator.t) (task : TaskDependency.t) (e : exn)
    : Orchestrator.t * list event * outcome unit :=
  let task :=
    TaskDependency.set_result (RetDict (processing_error_result env e))
      (TaskDependency.set_status "failed" task) in
  let self := write_back moved task self in
  match move_to_completed task self with
  | Raise e' => (self, [], Raise e')
  | Ok self =>
      match TaskCompletion.init (completion_of_failure env task e) with
      | Raise e' => (self, [], Raise e')
      | Ok completion =>
          match FeedbackSystem.record_task_completion (feedback_system env)
                  completion with
          | Ok _ => (self, [EvRecord completion], Ok tt)
          | Raise e' => (self, [EvRecord completion], Raise e')
          end
      end
  end.

(** Lines 353-376, after [_execute_task_with_retry] has returned
    [result]; an exception in these lines is caught by the same
    [except] branch. *)
Definition process_tasks_success (env : Env) (self : Orchestrator.t)
    (task : TaskDependency.t) (returned : agent_return)
    : Orchestrator.t * list event * outcome unit :=
  let result := normalise_result returned in
  let task :=
    TaskDependency.set_result (RetDict result)
      (TaskDependency.set_status (status_of_result result) task) in
  let self := write_back false task self in
  let self :=
    if String.eqb (TaskDependency.agent_id task) "pm_agent"
    then _handle_pm_task_results self result else self in
  match move_to_completed task self with
  | Raise e => process_tasks_except env false self task e
  | Ok self =>
      match md_milestone_id (TaskDependency.metadata task) with
      | Some milestone_id =>
          if truthy_str (Some milestone_id) then
            let '(self, ev, updated) :=
              _update_milestone_progress env self milestone_id in
            match updated with
            | Ok _ => (self, ev, Ok tt)
            | Raise e =>
                let '(self, ev', r) :=
                  process_tasks_except env true self task e in
                (self, ev ++ ev', r)
            end
          else (self, [], Ok tt)
      | None => (self, [], Ok tt)
      end
  end.

(** The body of [for task in ready_tasks] (lines 336-402). The call
    [Task(...)] of lines 342-347 stands before the [try]: what it raises
    leaves [process_tasks]. [None]: the recursion bound of the retry was
    hit. *)
Definition process_ready_task (fuel : nat) (cls : orchestrator_class)
    (env : Env) (self : Orchestrator.t) (task : TaskDependency.t)
    : option (Orchestrator.t * list event * outcome unit) :=
  if negb (agent_known self (TaskDependency.agent_id task)) then
    (* logger.error("Unknown agent: ..."); continue *)
    Some (self,
          [EvLogError ("Unknown agent: " ++ TaskDependency.agent_id task)%string],
          Ok tt)
  else
    match Task.init Task.call_keywords (Task.of_dependency task) with
    | Raise e => Some (self, [], Raise e)
    | Ok task_obj =>
        match _execute_task_with_retry fuel cls env self
                (TaskDependency.agent_id task) task_obj 1 with
        | None => None
        | Some (ev, Ok returned) =>
            let '(self, ev', r) := process_tasks_success env self task returned in
            Some (self, ev ++ ev', r)
        | Some (ev, Raise e) =>
            let '(self, ev', r) := process_tasks_except env false self task e in
            Some (self, ev ++ ev', r)
        end
    end.

(** The [for] loop: an exception that leaves the loop body leaves
    [process_tasks]. *)
Fixpoint process_ready_tasks (fuel : nat) (cls : orchestrator_class)
    (env : Env) (self : Orchestrator.t) (ready_tasks : list TaskDependency.t)
    : option (Orchestrator.t * list event * outcome unit) :=
  match ready_tasks with
  | [] => Some (self, [], Ok tt)
  | task :: rest =>
      match process_ready_task fuel cls env self task with
      | None => None
      | Some (self, ev, Raise e) => Some (self, ev, Raise e)
      | Some (self, ev, Ok _) =>
          match process_ready_tasks fuel cls env self rest with
          | None => None
          | Some (self, ev', r) => Some (self, ev ++ ev', r)
          end
      end
  end.

(** One iteration of [while self.tasks] with a non-empty queue. *)
Definition process_tasks_iteration (fuel : nat) (cls : orchestrator_class)
    (env : Env) (self : Orchestrator.t)
    : option (Orchestrator.t * list event * outcome unit) :=
  match _get_ready_tasks self with
  | [] => Some (self, [EvSleep 1], Ok tt)   (* await asyncio.sleep(1); continue *)
  | ready_tasks => process_ready_tasks fuel cls env self ready_tasks
  end.

(** [process_tasks]: [rounds] bounds the iterations of the [while] loop;
    [None] means the loop is still running after that many. *)
Fixpoint process_tasks (rounds fuel : nat) (cls : orchestrator_class)
    (env : Env) (self : Orchestrator.t)
    : option (Orchestrator.t * list event * outcome unit) :=
  match Orchestrator.tasks self with
  | [] => Some (self, [], Ok tt)
  | _ :: _ =>
      match rounds with
      | O => None
      | S rounds' =>
          match process_tasks_iteration fuel cls env self with
          | None => None
          | Some (self', ev, Raise e) => Some (self', ev, Raise e)
          | Some (self', ev, Ok _) =>
              match process_tasks rounds' fuel cls env self' with
              | None => None
              | Some (self'', ev', r) => Some (self'', ev ++ ev', r)
              end
          end
      end
  end.

(** ** [execute_task] (lines 605-678) *)

(** The dependency check of lines 613-618. *)
Fixpoint check_dependencies (self : Orchestrator.t) (deps : list string)
    : outcome unit :=
  match deps with
  | [] => Ok tt
  | dep_id :: rest =>
      match od_get dep_id (Orchestrator.tasks self) with
      | None => Raise (ValueError ("Dependency " ++ dep_id ++ " not found")%string)
      | Some dep_task =>
          if String.eqb (TaskDependency.status dep_task) "completed"
          then check_dependencies self rest
          else Raise (ValueError ("Dependency " ++ dep_id ++ " not completed")%string)
      end
  end.

(** The keywords of [TaskCompletion(...)] at lines 638-649 and 664-675. *)
Definition completion_of_execute (env : Env) (task : TaskDependency.t)
    (success : bool) (notes : string) : TaskCompletion.t :=
  {| TaskCompletion.task_id := TaskDependency.task_id task;
     TaskCompletion.agent_id := TaskDependency.agent_id task;
     TaskCompletion.estimated_duration :=
       estimated_duration_of (TaskDependency.metadata task);
     TaskCompletion.actual_duration := measured_duration env;
     TaskCompletion.start_time := TaskDependency.start_time task;
     TaskCompletion.end_time := now env;
     TaskCompletion.complexity := complexity_of (TaskDependency.metadata task);
     TaskCompletion.dependencies := TaskDependency.depends_on task;
     TaskCompletion.success := success;
     TaskCompletion.notes := Some notes |}.

(** The [except] branch of [execute_task] (lines 659-678): it records a
    failed completion and re-raises [e], unless building or recording
    the completion raises first. *)
Definition execute_task_except (env : Env) (self : Orchestrator.t)
    (task : TaskDependency.t) (e : exn)
    : Orchestrator.t * list event * outcome agent_return :=
  let task :=
    TaskDependency.set_end_time (now env)
      (TaskDependency.set_status "failed" task) in
  let self := write_back false task self in
  match TaskCompletion.init
          (completion_of_execute env task false
             ("Failed: " ++ exn_text env e)%string) with
  | Raise e' => (self, [], Raise e')
  | Ok completion =>
      match FeedbackSystem.record_task_completion (feedback_system env)
              completion with
      | Ok _ => (self, [EvRecord completion], Raise e)
      | Raise e' => (self, [EvRecord completion], Raise e')
      end
  end.

(** Lines 630-657, after the agent has returned [result]. *)
Definition execute_task_returned (env : Env) (self : Orchestrator.t)
    (task : TaskDependency.t) (result : agent_return)
    : Orchestrator.t * list event * outcome agent_return :=
  let task :=
    TaskDependency.set_result result
      (TaskDependency.set_end_time (now env)
         (TaskDependency.set_status "completed" task)) in
  let self := write_back false task self in
  match TaskCompletion.init
          (completion_of_execute env task true "Task completed successfully") with
  | Raise e => execute_task_except env self task e
  | Ok completion =>
      match FeedbackSystem.record_task_completion (feedback_system env)
              completion with
      | Raise e =>
          let '(self, ev, r) := execute_task_except env self task e in
          (self, EvRecord completion :: ev, r)
      | Ok _ =>
          match md_milestone_id (TaskDependency.metadata task) with
          | Some milestone_id =>
              if truthy_str (Some milestone_id) then
                let '(self, ev, updated) :=
                  _update_milestone_progress env self milestone_id in
                match updated with
                | Ok _ => (self, EvRecord completion :: ev, Ok result)
                | Raise e =>
                    let '(self, ev', r) := execute_task_except env self task e in
                    (self, EvRecord completion :: ev ++ ev', r)
                end
              else (self, [EvRecord completion], Ok result)
          | None => (self, [EvRecord completion], Ok result)
          end
      end
  end.

(** [execute_task]. The argument [Task(...)] of [agent.run_task] is
    evaluated inside the [try], before the agent is called. *)
Definition execute_task (env : Env) (self : Orchestrator.t) (task_id : string)
    : Orchestrator.t * list event * outcome agent_return :=
  match od_get task_id (Orchestrator.tasks self) with
  | None => (self, [], Raise (ValueError ("Task " ++ task_id ++ " not found")%string))
  | Some task =>
  match check_dependencies self (TaskDependency.depends_on task) with
  | Raise e => (self, [], Raise e)
  | Ok _ =>
  if negb (agent_known self (TaskDependency.agent_id task)) then
    (self, [], Raise (KeyError (TaskDependency.agent_id task)))
  else
    let task :=
      TaskDependency.set_status "running"
        (TaskDependency.set_start_time (now env) task) in
    let self := write_back false task self in
    match Task.init Task.call_keywords (Task.of_dependency task) with
    | Raise e => execute_task_except env self task e
    | Ok task_obj =>
        let called := EvRunTask (TaskDependency.agent_id task) task_id 1 in
        match run_task env (TaskDependency.agent_id task) task_obj 1 with
        | Raise e =>
            let '(self, ev, r) := execute_task_except env self task e in
            (self, called :: ev, r)
        | Ok result =>
            let '(self, ev, r) := execute_task_returned env self task result in
            (self, called :: ev, r)
        end
    end
  end end.

(** ** TimelineEstimatorAgent ([timeline_estimator_agent.py]) *)

Module AgentThroughput.

Record t : Type := make {
  tasks_per_minute : Q;
  average_duration : Q;
  total_tasks : Z;
  last_update : option Z
}.

(** The factory of the [defaultdict] (lines 33-38). *)
Definition fresh : t :=
  {| tasks_per_minute := 0; average_duration := 0; total_tasks := 0;
     last_update := None |}.

End AgentThroughput.

(** [self.agent_throughput[agent_id]] on the [defaultdict]: a missing key
    is inserted with the factory's value. *)
Definition throughput_getitem (agent_throughput : gmap string AgentThroughput.t)
    (agent_id : string) : AgentThroughput.t * gmap string AgentThroughput.t :=
  match agent_throughput !! agent_id with
  | Some th => (th, agent_throughput)
  | None =>
      (AgentThroughput.fresh,
       <[agent_id := AgentThroughput.fresh]> agent_throughput)
  end.

(** [_estimate_task_duration] (lines 242-256). The value is the exact
    one of [base_duration * (complexity / 5)], which Python rounds. *)
Definition _estimate_task_duration
    (agent_throughput : gmap string AgentThroughput.t) (task : TaskDependency.t)
    : Q * gmap string AgentThroughput.t :=
  let '(throughput, agent_throughput) :=
    throughput_getitem agent_throughput (TaskDependency.agent_id task) in
  let base_duration :=
    if Qltb 0 (AgentThroughput.tasks_per_minute throughput)
    then (60 / AgentThroughput.tasks_per_minute throughput)%Q
    else 5%Q in
  let complexity := complexity_of (TaskDependency.metadata task) in
  ((base_duration * (complexity / 5))%Q, agent_throughput).

(** [earliest_completion.get(dep_id, 0)] *)
Definition completion_or_zero (earliest_completion : odict Q) (dep_id : string) : Q :=
  default 0%Q (od_get dep_id earliest_completion).

(** [max(earliest_completion.get(dep_id, 0) for dep_id in task.depends_on)]
    for a non-empty [depends_on]. *)
Definition max_dep_completion (earliest_completion : odict Q)
    (dep_id : string) (rest : list string) : Q :=
  py_max_list (completion_or_zero earliest_completion dep_id)
    (List.map (completion_or_zero earliest_completion) rest).

(** The body of the second loop of [_find_critical_path] (lines 220-230). *)
Definition earliest_step
    (acc : odict Q * gmap string AgentThroughput.t) (task : TaskDependency.t)
    : odict Q * gmap string AgentThroughput.t :=
  let '(earliest_completion, agent_throughput) := acc in
  let '(duration, agent_throughput) :=
    _estimate_task_duration agent_throughput task in
  match TaskDependency.depends_on task with
  | [] =>
      (od_set (TaskDependency.task_id task) duration earliest_completion,
       agent_throughput)
  | dep_id :: rest =>
      (od_set (TaskDependency.task_id task)
         (max_dep_completion earliest_completion dep_id rest + duration)%Q
         earliest_completion,
       agent_throughput)
  end.

Definition earliest_completion_of
    (agent_throughput : gmap string AgentThroughput.t)
    (task_queue : list TaskDependency.t)
    : odict Q * gmap string AgentThroughput.t :=
  fold_left earliest_step task_queue ([], agent_throughput).

(** [_find_critical_path] (lines 210-240). The first loop fills a
    [graph] that is not read afterwards. [max] of no values raises
    [ValueError]. The sums and the test [==] are the exact ones: which
    ids pass the test is stated only where the [float] sums are exact. *)
Definition _find_critical_path
    (agent_throughput : gmap string AgentThroughput.t)
    (task_queue : list TaskDependency.t)
    : outcome (list string) * gmap string AgentThroughput.t :=
  let '(earliest_completion, agent_throughput) :=
    earliest_completion_of agent_throughput task_queue in
  match od_values earliest_completion with
  | [] => (Raise (ValueError "max() arg is an empty sequence"), agent_throughput)
  | v :: vs =>
      let max_completion := py_max_list v vs in
      (Ok (omap
             (fun task =>
                if Qeq_bool
                     (completion_or_zero earliest_completion
                        (TaskDependency.task_id task))
                     max_completion
                then Some (TaskDependency.task_id task) else None)
             task_queue),
       agent_throughput)
  end.

(** An entry of [simulation["task_completion_times"]] (lines 303-307). *)
Record completion_window : Type := {
  cw_start : Q;
  cw_end : Q;
  cw_duration : Q
}.





(** ** The retry helpers, for comparison

    Modelled from the spec: [_get_retry_strategy] and [_get_retry_count]
    are called by [_execute_task_with_retry] and defined nowhere in the
    repository. The spec's RetryPolicy gives every agent the configured
    strategy and classifies errors by a table: connection and
    timeout-style conditions are Transient with a retry ceiling, any
    other error is Fatal with zero retries. The ceilings are those of
    [self.transient_errors] (lines 117-123) for the exception classes of
    this embedding. *)

Definition transient_errors (e : exn) : option Z :=
  match e with
  | TransientError _ => Some 3
  | ConnectionError => Some 3
  | TimeoutError => Some 3
  | _ => None
  end.

Definition spec_retry_helpers (strategy : RetryStrategy.t) : retry_helpers :=
  {| impl_get_retry_strategy := fun _ => strategy;
     impl_get_retry_count := fun e _ => default 0 (transient_errors e) |}.

(** ** Statements of the spec, for comparison *)

(** Modelled from the spec: "ordered by descending priority metadata".
    A numeric priority ranks as itself, the named levels rank
    LOW < MEDIUM < HIGH, and a task without priority ranks as MEDIUM, the
    default that [_load_config] fills in. *)
Definition priority_rank (task : TaskDependency.t) : Q :=
  match md_priority (TaskDependency.metadata task) with
  | Some (PNum q) => q
  | Some (PStr s) =>
      if String.eqb s "HIGH" then 3%Q
      else if String.eqb s "LOW" then 1%Q
      else 2%Q
  | _ => 2%Q
  end.

Fixpoint descending_priority (l : list TaskDependency.t) : bool :=
  match l with
  | a :: (b :: _) as rest =>
      Qle_bool (priority_rank b) (priority_rank a) && descending_priority rest
  | _ => true
  end.

(** Stable insertion into a list that is in descending priority order:
    the new element goes after the elements of equal priority. *)
Fixpoint insert_by_priority (x : TaskDependency.t) (l : list TaskDependency.t)
    : list TaskDependency.t :=
  match l with
  | [] => [x]
  | y :: l' =>
      if Qltb (priority_rank y) (priority_rank x) then x :: y :: l'
      else y :: insert_by_priority x l'
  end.

Definition sort_by_priority (l : list TaskDependency.t) : list TaskDependency.t :=
  fold_left (fun acc x => insert_by_priority x acc) l [].

(** A dependency is Completed when the orchestrator has moved it to
    [completed_tasks] with status ["completed"]. *)
Definition dependency_completed (self : Orchestrator.t) (dep : string) : bool :=
  match Orchestrator.completed_tasks self !! dep with
  | Some d => String.eqb (TaskDependency.status d) "completed"
  | None => false
  end.

Definition pending_with_completed_dependencies (self : Orchestrator.t)
    (task : TaskDependency.t) : bool :=
  String.eqb (TaskDependency.status task) "pending"
  && forallb (dependency_completed self) (TaskDependency.depends_on task).

(** Modelled from the spec: [ready_tasks()] "returns all tasks with
    status Pending whose every dependency is Completed, ordered by
    descending priority metadata then by insertion order". *)
Definition ready_tasks_spec (self : Orchestrator.t) : list TaskDependency.t :=
  sort_by_priority
    (List.filter (pending_with_completed_dependencies self)
       (od_values (Orchestrator.tasks self))).

(** The states that [process_tasks] builds: every entry of [self.tasks]
    is stored under its own [task_id]. *)
Definition keys_are_task_ids (self : Orchestrator.t) : Prop :=
  Forall (fun kv => fst kv = TaskDependency.task_id (snd kv))
    (Orchestrator.tasks self).

(** Every entry of [completed_tasks] ended with status ["completed"]. *)
Definition only_completed (self : Orchestrator.t) : Prop :=
  forall k d, Orchestrator.completed_tasks self !! k = Some d ->
              TaskDependency.status d = "completed".

(** Modelled from the spec: [critical_path(graph, earliest)] "starting
    from the task(s) achieving the global maximum earliest value, walk
    backward repeatedly selecting, among each task's dependencies, the one
    whose earliest value is largest, until a task with no dependencies is
    reached". *)
Definition latest_dependency (earliest : odict Q) (dep : string)
    (rest : list string) : string :=
  fold_left
    (fun best d =>
       if Qltb (completion_or_zero earliest best) (completion_or_zero earliest d)
       then d else best)
    rest dep.

Fixpoint walk_back (fuel : nat) (task_queue : list TaskDependency.t)
    (earliest : odict Q) (task_id : string) : list string :=
  match fuel with
  | O => [task_id]
  | S fuel' =>
      match List.find (fun t => String.eqb (TaskDependency.task_id t) task_id)
              task_queue with
      | Some t =>
          match TaskDependency.depends_on t with
          | [] => [task_id]
          | dep :: rest =>
              walk_back fuel' task_queue earliest
                (latest_dependency earliest dep rest) ++ [task_id]
          end
      | None => [task_id]
      end
  end.

Definition critical_path_spec (task_queue : list TaskDependency.t)
    (earliest : odict Q) : list string :=
  match earliest with
  | [] => []
  | (k, v) :: rest =>
      let last :=
        fst (fold_left
               (fun best kv => if Qltb (snd best) (snd kv) then kv else best)
               rest (k, v)) in
      walk_back (length task_queue) task_queue earliest last
  end.

(** ** Example inputs *)

Definition md_complexity_only (c : Q) : metadata_t :=
  {| md_priority := None; md_complexity := Some c;
     md_estimated_duration := None; md_milestone_id := None;
     md_dependencies := None |}.

Definition md_priority_only (p : pyval) : metadata_t :=
  {| md_priority := Some p; md_complexity := None;
     md_estimated_duration := None; md_milestone_id := None;
     md_dependencies := None |}.

(** The queue of the critical-path scenario: with no throughput history
    the base duration is 5, so complexities 2, 3 and 1 give the durations
    2, 3 and 1. *)
Definition task_A : TaskDependency.t :=
  TaskDependency.init "A" "backend" "task A" [] (md_complexity_only 2).
Definition task_B : TaskDependency.t :=
  TaskDependency.init "B" "backend" "task B" ["A"] (md_complexity_only 3).
Definition task_C : TaskDependency.t :=
  TaskDependency.init "C" "backend" "task C" ["A"] (md_complexity_only 1).
Definition queue_ABC : list TaskDependency.t := [task_A; task_B; task_C].

(** A run with one registered agent that raises [TransientError] on
    every attempt, a writable data directory and the feedback system of
    [AgentOrchestrator.__init__]. *)
Definition feedback_of_init : FeedbackSystem.t :=
  {| FeedbackSystem.llm := None;
     FeedbackSystem.save_completion_file := fun _ => Ok tt;
     FeedbackSystem.update_agent_metrics_io := fun _ => Ok tt;
     FeedbackSystem.check_milestone_status_io := fun _ => Ok tt |}.

(** A rendering of exceptions for the examples: the message the
    exception carries, nothing for the others. *)
Definition plain_text (e : exn) : string :=
  match e with
  | ValueError m | TypeError m | TransientError m | FatalError m => m
  | AttributeError n | KeyError n | ValidationError n => n
  | ZeroDivisionError | OSError | ConnectionError | TimeoutError
  | OverflowError => ""
  end.

Definition env_always_transient : Env :=
  {| run_task := fun _ _ _ => Raise (TransientError "connection reset");
     measured_duration := 1;
     now := 200;
     feedback_system := feedback_of_init;
     write_milestones := fun _ => Ok tt;
     exn_text := plain_text |}.

Definition default_helpers : retry_helpers :=
  spec_retry_helpers RetryStrategy.default.

Definition no_metadata_task (id agent : string) (deps : list string)
    : TaskDependency.t :=
  TaskDependency.init id agent "" deps empty_metadata.

Definition orchestrator_of (agents : list string)
    (tasks : list TaskDependency.t) : Orchestrator.t :=
  {| Orchestrator.agents := list_to_set agents;
     Orchestrator.tasks :=
       fold_left (fun d t => od_set (TaskDependency.task_id t) t d) tasks [];
     Orchestrator.completed_tasks := ∅;
     Orchestrator.milestones := ∅;
     Orchestrator.task_dependencies := ∅;
     Orchestrator.reverse_dependencies := ∅ |}.

(** B depends on A; both are for the registered agent. *)
Definition dep_A : TaskDependency.t := no_metadata_task "A" "backend" [].
Definition dep_B : TaskDependency.t := no_metadata_task "B" "backend" ["A"].
Definition state_AB : Orchestrator.t := orchestrator_of ["backend"] [dep_A; dep_B].

(** One task for an agent that is not registered. *)
Definition ghost_task : TaskDependency.t := no_metadata_task "t1" "ghost" [].
Definition state_ghost : Orchestrator.t := orchestrator_of ["backend"] [ghost_task].

(** The same task in front of a task of the registered agent. *)
Definition state_ghost_then_A : Orchestrator.t :=
  orchestrator_of ["backend"] [ghost_task; dep_A].

(** Two ready tasks, the first inserted with the lower priority. *)
Definition low_task : TaskDependency.t :=
  TaskDependency.init "low" "backend" "" [] (md_priority_only (PStr "LOW")).
Definition high_task : TaskDependency.t :=
  TaskDependency.init "high" "backend" "" [] (md_priority_only (PStr "HIGH")).
Definition state_priorities : Orchestrator.t :=
  orchestrator_of ["backend"] [low_task; high_task].

(** A milestone of four tasks, one of them completed, whose estimated
    completion (time 100) lies before [now] (time 200). *)
Definition milestone_m1 : MilestoneStatus.t :=
  {| MilestoneStatus.milestone_id := "m1";
     MilestoneStatus.name := "first release";
     MilestoneStatus.estimated_completion := IsoString 100;
     MilestoneStatus.actual_completion := None;
     MilestoneStatus.status := "pending";
     MilestoneStatus.tasks :=
       [ MTaskDict "t1" "" true; MTaskDict "t2" "" false;
         MTaskDict "t3" "" false; MTaskDict "t4" "" false ];
     MilestoneStatus.progress := 0;
     MilestoneStatus.delay_reason := None |}.

Definition state_milestone : Orchestrator.t :=
  Orchestrator.set_milestones {[ "m1" := milestone_m1 ]}
    (orchestrator_of ["backend"] []).

(** A strategy with a negative base delay, which the constructor and
    [from_config] accept. *)
Definition negative_base_strategy : RetryStrategy.t :=
  {| RetryStrategy.max_retries := 3;
     RetryStrategy.base_delay := RetryStrategy.Float (-1);
     RetryStrategy.max_delay := 32; RetryStrategy.strategy := "exponential" |}.

(** The task object as the [except] branch of [process_tasks] leaves it:
    status "failed" and the processing-error result. *)
Definition failed_task (env : Env) (task : TaskDependency.t) (e : exn)
    : TaskDependency.t :=
  TaskDependency.set_result (RetDict (processing_error_result env e))
    (TaskDependency.set_status "failed" task).

(** A has completed and was moved; B, which depends on A, is pending. *)
Definition done_A : TaskDependency.t := TaskDependency.set_status "completed" dep_A.
Definition state_A_done : Orchestrator.t :=
  Orchestrator.set_completed_tasks {[ "A" := done_A ]}
    (orchestrator_of ["backend"] [dep_B]).

(** A task whose metadata has no "estimated_duration", as [execute_task]
    finds it in the task table. *)
Definition state_single : Orchestrator.t := orchestrator_of ["backend"] [dep_A].

Definition env_success : Env :=
  {| run_task := fun _ _ _ => Ok RetOther;
     measured_duration := 1;
     now := 200;
     feedback_system := feedback_of_init;
     write_milestones := fun _ => Ok tt;
     exn_text := plain_text |}.

(** ** More of AgentOrchestrator: the task table *)

(** [add_task] (lines 233-274). [dependencies] and [metadata] are [None]
    when the caller omits them. The task is stored and its dependency set
    recorded before [for dep in dependencies] runs, and iterating over
    [None] raises [TypeError]. [task_type] only appears in the table that
    is printed. *)
Definition add_task (self : Orchestrator.t)
    (task_id agent_id task_type description : string)
    (dependencies : option (list string)) (md : option metadata_t)
    : Orchestrator.t * outcome unit :=
  let task :=
    TaskDependency.init task_id agent_id description
      (default [] dependencies) (default empty_metadata md) in
  let self :=
    Orchestrator.set_tasks (od_set task_id task (Orchestrator.tasks self)) self in
  let self :=
    Orchestrator.set_dependencies
      (<[task_id := list_to_set (default [] dependencies)]>
         (Orchestrator.task_dependencies self))
      (Orchestrator.reverse_dependencies self) self in
  match dependencies with
  | None => (self, Raise (TypeError "'NoneType' object is not iterable"))
  | Some deps =>
      (Orchestrator.set_dependencies (Orchestrator.task_dependencies self)
         (fold_left (add_reverse task_id) deps
            (Orchestrator.reverse_dependencies self)) self,
       Ok tt)
  end.

(** The three ways [request_agent_task] (lines 276-309) can end:
    [AgentError] for an unknown target, an exception of [add_task], or
    the dictionary with the new task id. *)
Inductive request_result : Type :=
  | UnknownTargetAgent (target_agent_id : string)
  | RequestRaised (e : exn)
  | Requested (task_id target_agent : string).

(** [f"inter-{requesting_agent_id}-{target_agent_id}-{len(self.tasks)}"] *)
Definition inter_task_id (self : Orchestrator.t)
    (requesting_agent_id target_agent_id : string) : string :=
  ("inter-" ++ requesting_agent_id ++ "-" ++ target_agent_id ++ "-"
   ++ NilZero.string_of_uint (Nat.to_uint (length (Orchestrator.tasks self))))%string.

(** [request_agent_task]: [add_task] is called without [dependencies]. *)
Definition request_agent_task (self : Orchestrator.t)
    (requesting_agent_id target_agent_id task_type description : string)
    (md : option metadata_t) : Orchestrator.t * request_result :=
  if negb (agent_known self target_agent_id) then
    (self, UnknownTargetAgent target_agent_id)
  else
    let task_id := inter_task_id self requesting_agent_id target_agent_id in
    let '(self, added) :=
      add_task self task_id target_agent_id task_type description None md in
    match added with
    | Raise e => (self, RequestRaised e)
    | Ok _ => (self, Requested task_id target_agent_id)
    end.

(** [self.milestones[milestone_id].tasks.append({..., "completed": False})]
    (lines 596-600). *)
Definition milestone_append_task (task_id description : string)
    (m : MilestoneStatus.t) : MilestoneStatus.t :=
  {| MilestoneStatus.milestone_id := MilestoneStatus.milestone_id m;
     MilestoneStatus.name := MilestoneStatus.name m;
     MilestoneStatus.estimated_completion := MilestoneStatus.estimated_completion m;
     MilestoneStatus.actual_completion := MilestoneStatus.actual_completion m;
     MilestoneStatus.status := MilestoneStatus.status m;
     MilestoneStatus.tasks :=
       MilestoneStatus.tasks m ++ [MTaskDict task_id description false];
     MilestoneStatus.progress := MilestoneStatus.progress m;
     MilestoneStatus.delay_reason := MilestoneStatus.delay_reason m |}.

(** [create_task] (lines 583-603). An exception of
    [_update_milestone_progress] leaves [create_task] after the task and
    the milestone entry have been stored. *)
Definition create_task (env : Env) (self : Orchestrator.t)
    (task_id agent_id description : string)
    (depends_on : option (list string)) (md : option metadata_t)
    : Orchestrator.t * list event * outcome TaskDependency.t :=
  if negb (agent_known self agent_id) then
    (self, [],
     Raise (ValueError ("Agent " ++ agent_id ++ " not registered")%string))
  else
    let task :=
      TaskDependency.init task_id agent_id description
        (default [] depends_on) (default empty_metadata md) in
    let self :=
      Orchestrator.set_tasks (od_set task_id task (Orchestrator.tasks self)) self in
    match md_milestone_id (default empty_metadata md) with
    | Some milestone_id =>
        if truthy_str (Some milestone_id) then
          match Orchestrator.milestones self !! milestone_id with
          | Some m =>
              let self :=
                store_milestone milestone_id
                  (milestone_append_task task_id description m) self in
              let '(self, ev, updated) :=
                _update_milestone_progress env self milestone_id in
              match updated with
              | Ok _ => (self, ev, Ok task)
              | Raise e => (self, ev, Raise e)
              end
          | None => (self, [], Ok task)
          end
        else (self, [], Ok task)
    | None => (self, [], Ok task)
    end.

(** [get_task_status] (lines 810-836): the dictionary it returns has one
    entry per attribute of the task, so the task stands for it. *)
Definition get_task_status (self : Orchestrator.t) (task_id : string)
    : outcome TaskDependency.t :=
  match od_get task_id (Orchestrator.tasks self) with
  | None => Raise (ValueError ("Task " ++ task_id ++ " not found")%string)
  | Some task => Ok task
  end.

(** [get_milestone_status] (lines 838-854) *)
Definition get_milestone_status (self : Orchestrator.t) (milestone_id : string)
    : outcome MilestoneStatus.t :=
  match Orchestrator.milestones self !! milestone_id with
  | None => Raise (ValueError ("Milestone " ++ milestone_id ++ " not found")%string)
  | Some m => Ok m
  end.

(** [register_agent] (lines 578-581): the registry is updated, then
    [self.logger] is read. *)
Definition register_agent (cls : orchestrator_class) (self : Orchestrator.t)
    (agent_id : string) : Orchestrator.t * outcome unit :=
  let self :=
    {| Orchestrator.agents := {[agent_id]} ∪ Orchestrator.agents self;
       Orchestrator.tasks := Orchestrator.tasks self;
       Orchestrator.completed_tasks := Orchestrator.completed_tasks self;
       Orchestrator.milestones := Orchestrator.milestones self;
       Orchestrator.task_dependencies := Orchestrator.task_dependencies self;
       Orchestrator.reverse_dependencies := Orchestrator.reverse_dependencies self |} in
  match getattr cls "logger" tt with
  | Ok _ => (self, Ok tt)
  | Raise e => (self, Raise e)
  end.

(** ** Calls of the orchestrator's methods, one after the other *)

(** The methods that change [self.tasks], [self.agents] or
    [self.milestones], with their arguments. *)
Inductive operation : Type :=
  | AddTask (task_id agent_id task_type description : string)
      (dependencies : option (list string)) (md : option metadata_t)
  | RequestAgentTask
      (requesting_agent_id target_agent_id task_type description : string)
      (md : option metadata_t)
  | RegisterAgent (agent_id : string)
  | CreateTask (task_id agent_id description : string)
      (depends_on : option (list string)) (md : option metadata_t)
  | ExecuteTask (task_id : string)
  | ProcessTasks (rounds fuel : nat).

(** The state and the trace when the call has ended, by returning or by
    raising; [None] when [process_tasks] is still running at its
    bounds. *)
Definition perform (cls : orchestrator_class) (env : Env)
    (self : Orchestrator.t) (op : operation)
    : option (Orchestrator.t * list event) :=
  match op with
  | AddTask task_id agent_id task_type description dependencies md =>
      Some (fst (add_task self task_id agent_id task_type description
                   dependencies md), [])
  | RequestAgentTask requesting target task_type description md =>
      Some (fst (request_agent_task self requesting target task_type
                   description md), [])
  | RegisterAgent agent_id => Some (fst (register_agent cls self agent_id), [])
  | CreateTask task_id agent_id description depends_on md =>
      let '(self, ev, _) :=
        create_task env self task_id agent_id description depends_on md in
      Some (self, ev)
  | ExecuteTask task_id =>
      let '(self, ev, _) := execute_task env self task_id in
      Some (self, ev)
  | ProcessTasks rounds fuel =>
      match process_tasks rounds fuel cls env self with
      | None => None
      | Some (self, ev, _) => Some (self, ev)
      end
  end.

(** A sequence of calls, each with the collaborators of its time. *)
Fixpoint perform_all (cls : orchestrator_class) (self : Orchestrator.t)
    (calls : list (Env * operation)) : option (Orchestrator.t * list event) :=
  match calls with
  | [] => Some (self, [])
  | (env, op) :: rest =>
      match perform cls env self op with
      | None => None
      | Some (self, ev) =>
          match perform_all cls self rest with
          | None => None
          | Some (self', ev') => Some (self', ev ++ ev')
          end
      end
  end.

(** Calls made after A of [state_AB] has failed: B is executed, a task
    C that also depends on A and a task D without dependencies are
    added, [process_tasks] is run, and A is executed again. *)
Definition calls_after_A : list (Env * operation) :=
  [(env_always_transient, ExecuteTask "B");
   (env_always_transient,
    AddTask "C" "backend" "code" "after A" (Some ["A"]) None);
   (env_always_transient, AddTask "D" "backend" "code" "free" (Some []) None);
   (env_always_transient, ProcessTasks 5 5);
   (env_always_transient, ExecuteTask "A")].

(** ** [get_project_metrics] (lines 856-909) *)

(** [sum(1 for task in tasks if task.status == status)] *)
Definition count_status (status : string) (tasks : list TaskDependency.t) : nat :=
  length (List.filter (fun t => String.eqb (TaskDependency.status t) status) tasks).

Definition count_milestone_status (status : string)
    (ms : list MilestoneStatus.t) : nat :=
  length (List.filter (fun m => String.eqb (MilestoneStatus.status m) status) ms).

Record task_metrics : Type := {
  tm_total : nat;
  tm_completed : nat;
  tm_failed : nat;
  tm_in_progress : nat;
  tm_pending : nat
}.

Record agent_task_metrics : Type := {
  am_total_tasks : nat;
  am_completed_tasks : nat;
  am_failed_tasks : nat;
  am_in_progress_tasks : nat;
  am_pending_tasks : nat;
  am_success_rate : Q
}.

Record project_metrics : Type := {
  pm_timestamp : Z;
  pm_tasks : task_metrics;
  pm_milestones_total : nat;
  pm_milestones_completed : nat;
  pm_milestones_delayed : nat;
  pm_milestones_in_progress : nat;
  pm_milestones_pending : nat;
  pm_milestone_progress : gmap string Q;
  pm_agents : gmap string agent_task_metrics
}.

Definition task_metrics_of (tasks : list TaskDependency.t) : task_metrics :=
  {| tm_total := length tasks;
     tm_completed := count_status "completed" tasks;
     tm_failed := count_status "failed" tasks;
     tm_in_progress := count_status "running" tasks;
     tm_pending := count_status "pending" tasks |}.

(** The entry of [metrics["agents"]] for one agent (lines 891-903). *)
Definition agent_metrics_of (self : Orchestrator.t) (agent_id : string)
    : agent_task_metrics :=
  let agent_tasks :=
    List.filter (fun t => String.eqb (TaskDependency.agent_id t) agent_id)
      (od_values (Orchestrator.tasks self)) in
  {| am_total_tasks := length agent_tasks;
     am_completed_tasks := count_status "completed" agent_tasks;
     am_failed_tasks := count_status "failed" agent_tasks;
     am_in_progress_tasks := count_status "running" agent_tasks;
     am_pending_tasks := count_status "pending" agent_tasks;
     am_success_rate :=
       match agent_tasks with
       | [] => 0%Q
       | _ :: _ =>
           (inject_Z (Z.of_nat (count_status "completed" agent_tasks))
            / inject_Z (Z.of_nat (length agent_tasks)) * 100)%Q
       end |}.

Definition get_project_metrics (env : Env) (self : Orchestrator.t)
    : project_metrics :=
  let ms := snd <$> map_to_list (Orchestrator.milestones self) in
  {| pm_timestamp := now env;
     pm_tasks := task_metrics_of (od_values (Orchestrator.tasks self));
     pm_milestones_total := length ms;
     pm_milestones_completed := count_milestone_status "completed" ms;
     pm_milestones_delayed := count_milestone_status "delayed" ms;
     pm_milestones_in_progress := count_milestone_status "in_progress" ms;
     pm_milestones_pending := count_milestone_status "pending" ms;
     pm_milestone_progress := MilestoneStatus.progress <$> Orchestrator.milestones self;
     pm_agents :=
       set_to_map (fun agent_id => (agent_id, agent_metrics_of self agent_id))
         (Orchestrator.agents self) |}.

(** A task that waits for a dependency that is not in the table. *)
Definition orphan_task : TaskDependency.t :=
  no_metadata_task "t2" "backend" ["missing"].
Definition state_orphan : Orchestrator.t := orchestrator_of ["backend"] [orphan_task].

(** In-place update of an entry of the task table, when the key is there. *)
Definition touch (k : string) (t : TaskDependency.t)
    (ts : odict TaskDependency.t) : odict TaskDependency.t :=
  if od_mem k ts then od_set k t ts else ts.

(** What [execute_task] requires before it runs the agent: the task is in
    [self.tasks], and so is every dependency, with status "completed". *)
Definition executable (self : Orchestrator.t) (task_id : string) : Prop :=
  exists task,
    od_get task_id (Orchestrator.tasks self) = Some task
    /\ Forall
         (fun dep =>
            exists d, od_get dep (Orchestrator.tasks self) = Some d
                      /\ TaskDependency.status d = "completed")
         (TaskDependency.depends_on task).

(** A feedback system with a language model that answers, and a run in
    which the agent succeeds. *)
Definition answering_llm : llm_interface :=
  {| analyze_text := fun _ => Ok tt;
     generate_text := fun _ => Ok ["estimate more carefully"] |}.

Definition feedback_with_llm : FeedbackSystem.t :=
  {| FeedbackSystem.llm := Some answering_llm;
     FeedbackSystem.save_completion_file := fun _ => Ok tt;
     FeedbackSystem.update_agent_metrics_io := fun _ => Ok tt;
     FeedbackSystem.check_milestone_status_io := fun _ => Ok tt |}.

Definition env_working : Env :=
  {| run_task := fun _ _ _ => Ok RetOther;
     measured_duration := 3;
     now := 200;
     feedback_system := feedback_with_llm;
     write_milestones := fun _ => Ok tt;
     exn_text := plain_text |}.

Definition estimated_task : TaskDependency.t :=
  TaskDependency.init "E" "backend" "estimated" []
    {| md_priority := None; md_complexity := None;
       md_estimated_duration := Some 2%Q; md_milestone_id := None;
       md_dependencies := None |}.

Definition state_estimated : Orchestrator.t :=
  orchestrator_of ["backend"] [estimated_task].

(** The task object as [execute_task] leaves it after a run. *)
Definition started_by_execute (env : Env) (task : TaskDependency.t)
    : TaskDependency.t :=
  TaskDependency.set_status "running"
    (TaskDependency.set_start_time (now env) task).

Definition failed_by_execute (env : Env) (task : TaskDependency.t)
    : TaskDependency.t :=
  TaskDependency.set_end_time (now env)
    (TaskDependency.set_status "failed" (started_by_execute env task)).

Definition env_failing_agent : Env :=
  {| run_task := fun _ _ _ => Raise TimeoutError;
     measured_duration := 3;
     now := 200;
     feedback_system := feedback_with_llm;
     write_milestones := fun _ => Ok tt;
     exn_text := plain_text |}.

Definition state_two : Orchestrator.t :=
  orchestrator_of ["backend"] [estimated_task; dep_A].

(** [TaskDependency(...)] as [_handle_pm_task_results] builds it from an
    entry of [details["tasks"]]. *)
Definition task_of_new (n : new_task_dict) : TaskDependency.t :=
  TaskDependency.init (nt_task_id n) (nt_agent_id n) (nt_description n)
    (nt_depends_on n) (nt_metadata n).

(** [task_id in self.reverse_dependencies[dep]], false for a missing key. *)
Definition is_dependent (self : Orchestrator.t) (dep task_id : string) : Prop :=
  task_id ∈ default (∅ : gset string) (Orchestrator.reverse_dependencies self !! dep).

Definition pm_result (news : list new_task_dict) : result_dict :=
  {| r_status := Some "success"; r_error := None; r_error_type := None;
     r_attempts := None; r_retry_strategy := None; r_new_tasks := news |}.

Definition new_task_C : new_task_dict :=
  {| nt_task_id := "C"; nt_agent_id := "backend"; nt_description := "follow-up";
     nt_depends_on := ["A"; "B"]; nt_metadata := empty_metadata |}.

(** An entry of [milestone.tasks] as [create_task] appends it. *)
Definition incomplete_entry (x : milestone_task) : Prop :=
  match x with MTaskDict _ _ c => c = false | MTaskId _ => False end.

Definition md_with_milestone (milestone_id : string) : metadata_t :=
  {| md_priority := None; md_complexity := None;
     md_estimated_duration := None; md_milestone_id := Some milestone_id;
     md_dependencies := None |}.

(** A milestone that has only received tasks through [create_task]. *)
Definition milestone_m2 : MilestoneStatus.t :=
  {| MilestoneStatus.milestone_id := "m2";
     MilestoneStatus.name := "second release";
     MilestoneStatus.estimated_completion := IsoString 900;
     MilestoneStatus.actual_completion := None;
     MilestoneStatus.status := "in_progress";
     MilestoneStatus.tasks := [MTaskDict "t1" "" false];
     MilestoneStatus.progress := 0;
     MilestoneStatus.delay_reason := None |}.

Definition state_m2 : Orchestrator.t :=
  Orchestrator.set_milestones {[ "m2" := milestone_m2 ]}
    (orchestrator_of ["backend"] []).

(** The keys of the task table are distinct, as the keys of a [dict] are. *)
Definition distinct_keys (self : Orchestrator.t) : Prop :=
  List.NoDup (List.map fst (Orchestrator.tasks self)).

(** One of the four statuses that [get_project_metrics] counts. *)
Definition counted_status (t : TaskDependency.t) : Prop :=
  TaskDependency.status t = "completed" \/ TaskDependency.status t = "failed"
  \/ TaskDependency.status t = "running" \/ TaskDependency.status t = "pending".

(** [task["completed"]] is true for an entry. *)
Definition complete_entry (x : milestone_task) : Prop :=
  match x with MTaskDict _ _ c => c = true | MTaskId _ => False end.

Definition milestone_done : MilestoneStatus.t :=
  {| MilestoneStatus.milestone_id := "m3";
     MilestoneStatus.name := "third release";
     MilestoneStatus.estimated_completion := IsoString 900;
     MilestoneStatus.actual_completion := None;
     MilestoneStatus.status := "in_progress";
     MilestoneStatus.tasks := [MTaskDict "t1" "" true; MTaskDict "t2" "" true];
     MilestoneStatus.progress := 50;
     MilestoneStatus.delay_reason := None |}.

Definition state_m3 : Orchestrator.t :=
  Orchestrator.set_milestones {[ "m3" := milestone_done ]}
    (orchestrator_of ["backend"] []).



Definition slow_strategy : RetryStrategy.t :=
  {| RetryStrategy.max_retries := 5;
     RetryStrategy.base_delay := RetryStrategy.Float 3;
     RetryStrategy.max_delay := 20; RetryStrategy.strategy := "exponential" |}.

(** ** The agent metrics files ([feedback_system.py], lines 135-174)

    [data/feedback/agent_metrics_<agent_id>.json] holds the four keys
    that [_update_agent_metrics] writes. The store of these files is a
    finite map from the agent id to the content of its file; an absent
    key is a file that does not exist. *)

(** An entry of ["completion_times"], a JSON object. The writer stores
    the keys ["timestamp"] and ["accuracy"]; the reader in the timeline
    estimator subscripts ["duration"]. *)
Record completion_time_entry : Type := {
  ct_timestamp : option Z;
  ct_accuracy : option Q;
  ct_duration : option Q
}.

Record agent_metrics : Type := {
  mf_total_tasks : Z;
  mf_average_accuracy : Q;
  mf_completion_times : list completion_time_entry;
  mf_patterns : odict (list string)
}.

(** The dictionary used when the file does not exist (lines 144-149). *)
Definition initial_metrics : agent_metrics :=
  {| mf_total_tasks := 0; mf_average_accuracy := 0;
     mf_completion_times := []; mf_patterns := [] |}.

(** [analysis["patterns"]] is whatever [llm.analyze_text] returned:
    a dictionary, or a value without [.items()]. *)
Inductive llm_patterns : Type :=
  | PatternsDict (items : list (string * string))
  | PatternsOther.

(** The body of the loop of lines 163-166. *)
Definition add_pattern (patterns : odict (list string))
    (item : string * string) : odict (list string) :=
  let '(pattern, value) := item in
  od_set pattern (default [] (od_get pattern patterns) ++ [value]) patterns.

(** [_update_agent_metrics] (lines 135-174) on the store of metrics
    files. The file is written last, so a call that raises leaves the
    store as it was. [average_accuracy] is the exact value of the
    running mean, which Python rounds; the count and the entries of
    ["completion_times"] involve no arithmetic. *)
Definition _update_agent_metrics (now : Z) (files : gmap string agent_metrics)
    (agent_id : string) (accuracy_percentage : Q) (patterns : llm_patterns)
    : gmap string agent_metrics * outcome unit :=
  let metrics := default initial_metrics (files !! agent_id) in
  let total_tasks := mf_total_tasks metrics + 1 in
  if total_tasks =? 0 then (files, Raise ZeroDivisionError)
  else
    let average_accuracy :=
      ((mf_average_accuracy metrics * inject_Z (total_tasks - 1)
        + accuracy_percentage) / inject_Z total_tasks)%Q in
    let completion_times :=
      mf_completion_times metrics
      ++ [{| ct_timestamp := Some now;
             ct_accuracy := Some accuracy_percentage;
             ct_duration := None |}] in
    match patterns with
    | PatternsOther => (files, Raise (AttributeError "items"))
    | PatternsDict items =>
        (<[agent_id :=
             {| mf_total_tasks := total_tasks;
                mf_average_accuracy := average_accuracy;
                mf_completion_times := completion_times;
                mf_patterns := fold_left add_pattern items (mf_patterns metrics) |}]>
           files,
         Ok tt)
    end.

(** One recorded completion as [_update_agent_metrics] sees it. *)
Record metrics_update : Type := {
  mu_now : Z;
  mu_agent_id : string;
  mu_accuracy : Q;
  mu_patterns : llm_patterns
}.

(** A sequence of calls of [_update_agent_metrics]; a call that raises
    changes nothing and does not prevent the next one. *)
Definition metrics_after (updates : list metrics_update)
    (files : gmap string agent_metrics) : gmap string agent_metrics :=
  fold_left
    (fun files u =>
       fst (_update_agent_metrics (mu_now u) files (mu_agent_id u)
              (mu_accuracy u) (mu_patterns u)))
    updates files.

(** The accuracies recorded in a metrics file, oldest first. *)
Definition recorded_accuracies (metrics : agent_metrics) : list (option Q) :=
  List.map ct_accuracy (mf_completion_times metrics).

(** No entry of the file has the key ["duration"]. *)
Definition without_durations (metrics : agent_metrics) : Prop :=
  Forall (fun t => ct_duration t = None) (mf_completion_times metrics).

(** [_calculate_expected_progress] (lines 285-294) on the parsed time
    stamps; [total_seconds()] is a float, so a zero total duration raises
    [ZeroDivisionError]. *)
Definition _calculate_expected_progress (now start_time estimated_completion : Z)
    : outcome Q :=
  let total_duration := estimated_completion - start_time in
  let elapsed_duration := now - start_time in
  if total_duration =? 0 then Raise ZeroDivisionError
  else Ok (py_min 1 (py_max 0 (inject_Z elapsed_duration / inject_Z total_duration))%Q).

(** [sum(durations)]: starts from 0 and adds from the left. *)
Definition Qsum (l : list Q) : Q := fold_left Qplus l 0%Q.

Module TimelineEstimatorAgent.

(** [[t["duration"] for t in metrics["completion_times"]]]: the first
    entry without the key raises [KeyError]. *)
Fixpoint durations_of (completion_times : list completion_time_entry)
    : outcome (list Q) :=
  match completion_times with
  | [] => Ok []
  | t :: rest =>
      match ct_duration t with
      | None => Raise (KeyError "duration")
      | Some d => obind (durations_of rest) (fun ds => Ok (d :: ds))
      end
  end.

(** The body of the loop of [_load_historical_throughput] (lines 49-61)
    for one agent id. The four assignments go through
    [self.agent_throughput[agent_id]], which inserts the factory's entry
    first; an assignment made before a division raises is kept. *)
Definition load_agent (now : Z) (files : gmap string agent_metrics)
    (agent_throughput : gmap string AgentThroughput.t) (agent_id : string)
    : gmap string AgentThroughput.t * outcome unit :=
  match files !! agent_id with
  | None => (agent_throughput, Ok tt)
  | Some metrics =>
      match durations_of (mf_completion_times metrics) with
      | Raise e => (agent_throughput, Raise e)
      | Ok [] => (agent_throughput, Ok tt)
      | Ok (d :: ds) =>
          let average_duration :=
            (Qsum (d :: ds) / inject_Z (Z.of_nat (length (d :: ds))))%Q in
          let '(throughput, agent_throughput) :=
            throughput_getitem agent_throughput agent_id in
          if Qeq_bool average_duration 0 then
            (<[agent_id :=
                 {| AgentThroughput.tasks_per_minute :=
                      AgentThroughput.tasks_per_minute throughput;
                    AgentThroughput.average_duration := average_duration;
                    AgentThroughput.total_tasks :=
                      AgentThroughput.total_tasks throughput;
                    AgentThroughput.last_update :=
                      AgentThroughput.last_update throughput |}]>
               agent_throughput,
             Raise ZeroDivisionError)
          else
            (<[agent_id :=
                 {| AgentThroughput.tasks_per_minute := (60 / average_duration)%Q;
                    AgentThroughput.average_duration := average_duration;
                    AgentThroughput.total_tasks := Z.of_nat (length (d :: ds));
                    AgentThroughput.last_update := Some now |}]>
               agent_throughput,
             Ok tt)
      end
  end.

(** [_load_historical_throughput] (lines 46-63): the [try] encloses the
    whole loop, so the first exception ends it; the exception is logged,
    not raised. *)
Fixpoint _load_historical_throughput (now : Z)
    (files : gmap string agent_metrics)
    (agent_throughput : gmap string AgentThroughput.t)
    (agent_ids : list string) : gmap string AgentThroughput.t :=
  match agent_ids with
  | [] => agent_throughput
  | agent_id :: rest =>
      match load_agent now files agent_throughput agent_id with
      | (agent_throughput, Ok _) =>
          _load_historical_throughput now files agent_throughput rest
      | (agent_throughput, Raise _) => agent_throughput
      end
  end.

(** *** The simulation (lines 258-375) *)

(** [self.completed_tasks], read by [_get_ready_tasks]. Neither
    [TimelineEstimatorAgent] nor [BaseAgent] assigns the attribute:
    [None] is an instance as the classes build it, [Some done] an
    instance on which the attribute was set from outside. *)
Definition completed_attribute : Type := option (gset string).

(** [all(dep_id in self.completed_tasks for dep_id in task.depends_on)]:
    the attribute is read once per dependency, not at all for a task
    without dependencies, and [all] stops at the first [False]. *)
Fixpoint all_completed (completed_tasks : completed_attribute)
    (depends_on : list string) : outcome bool :=
  match depends_on with
  | [] => Ok true
  | dep_id :: rest =>
      match completed_tasks with
      | None => Raise (AttributeError "completed_tasks")
      | Some done =>
          if decide (dep_id ∈ done) then all_completed completed_tasks rest
          else Ok false
      end
  end.

(** [_get_ready_tasks] (lines 346-352) *)
Fixpoint _get_ready_tasks (completed_tasks : completed_attribute)
    (task_queue : list TaskDependency.t) : outcome (list TaskDependency.t) :=
  match task_queue with
  | [] => Ok []
  | task :: rest =>
      obind (all_completed completed_tasks (TaskDependency.depends_on task))
        (fun ready =>
      obind (_get_ready_tasks completed_tasks rest) (fun ready_tasks =>
      Ok (if ready then task :: ready_tasks else ready_tasks)))
  end.

(** The sort key of [_find_suitable_task]:
    [(t.metadata.get("priority", "MEDIUM"), t.metadata.get("complexity", 5))]. *)
Definition priority_key (task : TaskDependency.t) : pyval :=
  default (PStr "MEDIUM") (md_priority (TaskDependency.metadata task)).

(** Python's [==] and [>] on the values of ["priority"]: strings compare
    lexicographically, a string never equals a number, and ordering a
    string against a number raises [TypeError]. *)
Definition py_eq (a b : pyval) : bool :=
  match a, b with
  | PNum x, PNum y => Qeq_bool x y
  | PStr x, PStr y => String.eqb x y
  | _, _ => false
  end.

Definition py_gt (a b : pyval) : outcome bool :=
  match a, b with
  | PNum x, PNum y => Ok (Qltb y x)
  | PStr x, PStr y => Ok (String.ltb y x)
  | _, _ => Raise (TypeError "'>' not supported between a string and a number")
  end.

(** [key(t1) > key(t2)] on the two-element tuples: the first components
    decide unless they are equal. *)
Definition key_gt (t1 t2 : TaskDependency.t) : outcome bool :=
  if py_eq (priority_key t1) (priority_key t2) then
    Ok (Qltb (complexity_of (TaskDependency.metadata t2))
             (complexity_of (TaskDependency.metadata t1)))
  else py_gt (priority_key t1) (priority_key t2).

(** [max(iterable, key=...)]: the current maximum is replaced only by an
    item whose key is strictly greater, so the first maximal item wins. *)
Fixpoint max_by_key (best : TaskDependency.t) (rest : list TaskDependency.t)
    : outcome TaskDependency.t :=
  match rest with
  | [] => Ok best
  | task :: rest =>
      obind (key_gt task best) (fun greater =>
      max_by_key (if greater then task else best) rest)
  end.

(** [_find_suitable_task] (lines 354-375); [Ok None] is Python's [None]. *)
Definition _find_suitable_task (ready_tasks : list TaskDependency.t)
    (agent_id : string) : outcome (option TaskDependency.t) :=
  match List.filter
          (fun task => String.eqb (TaskDependency.agent_id task) agent_id)
          ready_tasks with
  | [] => Ok None
  | task :: suitable_tasks =>
      obind (max_by_key task suitable_tasks) (fun best => Ok (Some best))
  end.

(** An entry of [agent_states]. [current_task] and [start_time] are
    assigned together (lines 310-311 and 318-319), so they are one
    optional pair; [completed_tasks] lists the finished tasks with their
    windows. *)
Record agent_state : Type := {
  running : option (TaskDependency.t * Z);
  finished : list (string * completion_window)
}.

(** The local variables of [_simulate_execution] that the loop changes,
    with [self.agent_throughput], which [_estimate_task_duration] may
    extend. [completed_tasks] is the local set of line 283, not the
    attribute read by [_get_ready_tasks]. *)
Record sim_state : Type := {
  agent_states : list (string * agent_state);
  ready_tasks : list TaskDependency.t;
  completed_tasks : gset string;
  task_completion_times : odict completion_window;
  simulation_time : Z;
  throughput : gmap string AgentThroughput.t
}.

(** The first [for] of the loop body (lines 290-311), over the entries
    of [agent_states] in order. *)
Fixpoint update_agent_states (simulation_time : Z)
    (states : list (string * agent_state))
    (acc : gmap string AgentThroughput.t * odict completion_window * gset string)
    : list (string * agent_state)
      * (gmap string AgentThroughput.t * odict completion_window * gset string) :=
  match states with
  | [] => ([], acc)
  | (agent_id, state) :: rest =>
      match running state with
      | None =>
          let '(rest, acc) := update_agent_states simulation_time rest acc in
          ((agent_id, state) :: rest, acc)
      | Some (task, start_time) =>
          let '(tp, times, done) := acc in
          let '(duration, tp) := _estimate_task_duration tp task in
          if Qle_bool (inject_Z start_time + duration) (inject_Z simulation_time)
          then
            let window :=
              {| cw_start := inject_Z start_time;
                 cw_end := inject_Z simulation_time;
                 cw_duration := duration |} in
            let state :=
              {| running := None;
                 finished :=
                   finished state ++ [(TaskDependency.task_id task, window)] |} in
            let '(rest, acc) :=
              update_agent_states simulation_time rest
                (tp, od_set (TaskDependency.task_id task) window times,
                 {[TaskDependency.task_id task]} ∪ done) in
            ((agent_id, state) :: rest, acc)
          else
            let '(rest, acc) :=
              update_agent_states simulation_time rest (tp, times, done) in
            ((agent_id, state) :: rest, acc)
      end
  end.

(** [ready_tasks.remove(task)] for the task that [max] returned: the
    first occurrence of that object. [max] returns the first item with
    the largest key, and an earlier occurrence of the same object would
    have the same key, so it is the first entry of the agent whose key
    is not smaller than the key of the chosen task. *)
Fixpoint remove_chosen (best : TaskDependency.t) (agent_id : string)
    (ready_tasks : list TaskDependency.t) : list TaskDependency.t :=
  match ready_tasks with
  | [] => []
  | task :: rest =>
      if String.eqb (TaskDependency.agent_id task) agent_id
         && match key_gt best task with Ok false => true | _ => false end
      then rest
      else task :: remove_chosen best agent_id rest
  end.

(** The second [for] of the loop body (lines 313-321). *)
Fixpoint assign_tasks (simulation_time : Z)
    (states : list (string * agent_state)) (ready_tasks : list TaskDependency.t)
    : outcome (list (string * agent_state) * list TaskDependency.t) :=
  match states with
  | [] => Ok ([], ready_tasks)
  | (agent_id, state) :: rest =>
      match running state, ready_tasks with
      | None, _ :: _ =>
          obind (_find_suitable_task ready_tasks agent_id) (fun found =>
          match found with
          | Some task =>
              let state :=
                {| running := Some (task, simulation_time);
                   finished := finished state |} in
              obind (assign_tasks simulation_time rest
                       (remove_chosen task agent_id ready_tasks))
                (fun '(rest, ready_tasks) =>
                   Ok ((agent_id, state) :: rest, ready_tasks))
          | None =>
              obind (assign_tasks simulation_time rest ready_tasks)
                (fun '(rest, ready_tasks) =>
                   Ok ((agent_id, state) :: rest, ready_tasks))
          end)
      | _, _ =>
          obind (assign_tasks simulation_time rest ready_tasks)
            (fun '(rest, ready_tasks) =>
               Ok ((agent_id, state) :: rest, ready_tasks))
      end
  end.

(** The condition of the [while] (line 288). *)
Definition simulation_continues (s : sim_state) : bool :=
  match ready_tasks s with
  | _ :: _ => true
  | [] =>
      existsb
        (fun entry =>
           match running (snd entry) with Some _ => true | None => false end)
        (agent_states s)
  end.

(** One pass through the body of the [while] (lines 289-328). The
    first component is [self.agent_throughput] after the pass, also when
    the pass raises. *)
Definition simulation_step (completed_attr : completed_attribute)
    (task_queue : list TaskDependency.t) (s : sim_state)
    : gmap string AgentThroughput.t * outcome sim_state :=
  let '(states, (tp, times, done)) :=
    update_agent_states (simulation_time s) (agent_states s)
      (throughput s, task_completion_times s, completed_tasks s) in
  (tp,
   obind (assign_tasks (simulation_time s) states (ready_tasks s))
     (fun '(states, ready) =>
   obind (_get_ready_tasks completed_attr task_queue) (fun new_ready_tasks =>
   Ok {| agent_states := states;
         ready_tasks := ready ++ new_ready_tasks;
         completed_tasks := done;
         task_completion_times := times;
         simulation_time := simulation_time s + 1;
         throughput := tp |}))).

(** The [while] loop; [fuel] bounds the number of passes and [None]
    means that the loop is still running when the bound is reached. *)
Fixpoint simulation_loop (fuel : nat) (completed_attr : completed_attribute)
    (task_queue : list TaskDependency.t) (s : sim_state)
    : option (gmap string AgentThroughput.t * outcome sim_state) :=
  if simulation_continues s then
    match fuel with
    | O => None
    | S fuel =>
        match simulation_step completed_attr task_queue s with
        | (tp, Raise e) => Some (tp, Raise e)
        | (_, Ok s) => simulation_loop fuel completed_attr task_queue s
        end
    end
  else Some (throughput s, Ok s).

(** The dictionary that [_simulate_execution] returns, without its two
    time stamps and the never-filled ["resource_usage"]. *)
Record simulation : Type := {
  total_duration : Z;
  sim_task_completion_times : odict completion_window;
  agent_utilization : odict Q
}.

(** Lines 334-342. *)
Definition utilization_of (simulation_time : Z) (entry : string * agent_state)
    : string * Q :=
  let total_working_time :=
    Qsum (List.map (fun done => cw_duration (snd done)) (finished (snd entry))) in
  (fst entry,
   if 0 <? simulation_time then (total_working_time / inject_Z simulation_time)%Q
   else 0%Q).

(** [_simulate_execution] (lines 258-344). [agent_states] starts as an
    empty [defaultdict] (lines 275-279). *)
Definition _simulate_execution (fuel : nat) (completed_attr : completed_attribute)
    (agent_throughput : gmap string AgentThroughput.t)
    (task_queue : list TaskDependency.t)
    : option (outcome simulation * gmap string AgentThroughput.t) :=
  match _get_ready_tasks completed_attr task_queue with
  | Raise e => Some (Raise e, agent_throughput)
  | Ok ready =>
      match simulation_loop fuel completed_attr task_queue
              {| agent_states := [];
                 ready_tasks := ready;
                 completed_tasks := ∅;
                 task_completion_times := [];
                 simulation_time := 0;
                 throughput := agent_throughput |} with
      | None => None
      | Some (tp, Raise e) => Some (Raise e, tp)
      | Some (tp, Ok s) =>
          Some (Ok {| total_duration := simulation_time s;
                      sim_task_completion_times := task_completion_times s;
                      agent_utilization :=
                        List.map (utilization_of (simulation_time s))
                          (agent_states s) |},
                tp)
      end
  end.

End TimelineEstimatorAgent.

Definition update_of (agent_id : string) (accuracy : Q) : metrics_update :=
  {| mu_now := 10; mu_agent_id := agent_id; mu_accuracy := accuracy;
     mu_patterns := PatternsDict [("delay", "review")] |}.

(** A metrics file whose entries carry the key ["duration"], as the
    reader in the timeline estimator expects them. *)
Definition measured_entry (d : Q) : completion_time_entry :=
  {| ct_timestamp := Some 10; ct_accuracy := None; ct_duration := Some d |}.

Definition measured_file (durations : list Q) : agent_metrics :=
  {| mf_total_tasks := Z.of_nat (length durations);
     mf_average_accuracy := 0;
     mf_completion_times := List.map measured_entry durations;
     mf_patterns := [] |}.

(** What a metrics file written by [_update_agent_metrics] satisfies:
    the count is the number of entries, the entries hold the recorded
    accuracies in order, and no entry has a duration. *)
Definition metrics_of (metrics : agent_metrics) (accuracies : list Q) : Prop :=
  mf_total_tasks metrics = Z.of_nat (length accuracies)
  /\ recorded_accuracies metrics = List.map Some accuracies
  /\ without_durations metrics.

(** The accuracies that a sequence of updates records for one agent:
    those of the updates for this agent whose patterns are a dictionary. *)
Definition records_for (agent_id : string) (u : metrics_update) : bool :=
  String.eqb (mu_agent_id u) agent_id
  && match mu_patterns u with PatternsDict _ => true | PatternsOther => false end.

Definition accuracies_for (agent_id : string) (updates : list metrics_update)
    : list Q :=
  List.map mu_accuracy (List.filter (records_for agent_id) updates).

(** Every metrics file of the store lacks the ["duration"] keys. *)
Definition store_without_durations (files : gmap string agent_metrics) : Prop :=
  forall agent_id metrics,
    files !! agent_id = Some metrics -> without_durations metrics.

(** The value of ["priority"] when it is a string (the default counts). *)
Definition priority_string (task : TaskDependency.t) : option string :=
  match TimelineEstimatorAgent.priority_key task with
  | PStr s => Some s
  | PNum _ => None
  end.

(** The simulation that returns without having simulated anything. *)
Definition empty_simulation : TimelineEstimatorAgent.simulation :=
  {| TimelineEstimatorAgent.total_duration := 0;
     TimelineEstimatorAgent.sim_task_completion_times := [];
     TimelineEstimatorAgent.agent_utilization := [] |}.

Definition critical_task : TaskDependency.t :=
  TaskDependency.init "urgent" "backend" "" [] (md_priority_only (PStr "CRITICAL")).
(** ** Lemmas on [py_min] *)

Lemma py_min_spec (a b : Q) : (py_min a b == Qmin a b)%Q.
Proof.
  unfold py_min, Qltb. destruct (Qlt_le_dec b a) as [Hlt | Hle].
  - symmetry. apply Q.min_r. apply Qlt_le_weak. exact Hlt.
  - symmetry. apply Q.min_l. exact Hle.
Qed.

Lemma py_min_mono_l (a a' c : Q) : (a <= a')%Q -> (py_min a c <= py_min a' c)%Q.
Proof.
  intros H. rewrite !py_min_spec.
  apply Q.min_le_compat_r. exact H.
Qed.

Lemma py_min_le_r (a c : Q) : (py_min a c <= c)%Q.
Proof. rewrite py_min_spec. apply Q.le_min_r. Qed.

Lemma py_min_below (a b : Q) : (a <= b)%Q -> py_min a b = a.
Proof.
  intros Hle. unfold py_min, Qltb.
  destruct (Qlt_le_dec b a) as [Hlt | _]; [| reflexivity].
  exfalso. apply (Qlt_not_le _ _ Hlt), Hle.
Qed.

(** ** The retry policy: [calculate_delay] *)

Lemma power_below_float_limit (e : Z) :
  0 <= e <= 1023 -> (RetryStrategy.float_limit <=? Z.abs (2 ^ e)) = false.
Proof.
  intros He. apply Z.leb_gt. rewrite Z.abs_eq by (apply Z.pow_nonneg; lia).
  apply Z.le_lt_trans with (2 ^ 1023).
  - apply Z.pow_le_mono_r; lia.
  - vm_compute. reflexivity.
Qed.

Lemma power_above_float_limit (e : Z) :
  1024 <= e -> (RetryStrategy.float_limit <=? Z.abs (2 ^ e)) = true.
Proof.
  intros He. apply Z.leb_le. rewrite Z.abs_eq by (apply Z.pow_nonneg; lia).
  apply Z.le_trans with (2 ^ 1024).
  - apply Z.lt_le_incl. vm_compute. reflexivity.
  - apply Z.pow_le_mono_r; lia.
Qed.

Lemma attempt_below_float_limit (n : Z) :
  1 <= n <= 1024 -> (RetryStrategy.float_limit <=? Z.abs n) = false.
Proof.
  intros Hn. apply Z.leb_gt. apply Z.le_lt_trans with 1024; [lia |].
  vm_compute. reflexivity.
Qed.

Lemma times_int_value (x : RetryStrategy.number) (i : Z) (d : Q) :
  RetryStrategy.times_int x i = Ok d ->
  d = (RetryStrategy.value x * inject_Z i)%Q.
Proof.
  unfold RetryStrategy.times_int. destruct x as [z | q]; simpl.
  - intros [= <-]. reflexivity.
  - destruct (RetryStrategy.float_limit <=? Z.abs i); [discriminate |].
    intros [= <-]. reflexivity.
Qed.

Lemma times_int_small (x : RetryStrategy.number) (i : Z) :
  (RetryStrategy.float_limit <=? Z.abs i) = false ->
  RetryStrategy.times_int x i = Ok (RetryStrategy.value x * inject_Z i)%Q.
Proof.
  intros Hsmall. unfold RetryStrategy.times_int. destruct x as [z | q]; simpl;
    [reflexivity | rewrite Hsmall; reflexivity].
Qed.

(** The [int] by which a strategy multiplies the base delay at an
    attempt [n >= 1]. *)
Lemma calculate_delay_value (self : RetryStrategy.t) (n : Z) (d : Q) :
  1 <= n ->
  RetryStrategy.strategy self <> "fixed" ->
  RetryStrategy.calculate_delay self n = Ok d ->
  d = py_min
        (RetryStrategy.value (RetryStrategy.base_delay self)
         * inject_Z (if String.eqb (RetryStrategy.strategy self) "linear"
                     then n else 2 ^ (n - 1)))
        (RetryStrategy.max_delay self).
Proof.
  intros Hn Hfixed. unfold RetryStrategy.calculate_delay, RetryStrategy.times_pow2.
  destruct (Z.leb_spec 0 (n - 1)) as [_ | Hneg]; [| lia].
  destruct (String.eqb_spec (RetryStrategy.strategy self) "exponential") as [He | _].
  - rewrite He. simpl.
    destruct (RetryStrategy.times_int _ _) as [t |] eqn:Ht; [| discriminate].
    simpl. intros [= <-]. rewrite (times_int_value _ _ _ Ht). reflexivity.
  - destruct (String.eqb_spec (RetryStrategy.strategy self) "linear") as [_ | _].
    + destruct (RetryStrategy.times_int _ _) as [t |] eqn:Ht; [| discriminate].
      simpl. intros [= <-]. rewrite (times_int_value _ _ _ Ht). reflexivity.
    + destruct (String.eqb_spec (RetryStrategy.strategy self) "fixed");
        [contradiction |].
      destruct (RetryStrategy.times_int _ _) as [t |] eqn:Ht; [| discriminate].
      simpl. intros [= <-]. rewrite (times_int_value _ _ _ Ht). reflexivity.
Qed.

(** Up to attempt 1024 no conversion overflows: the delay is returned. *)
Lemma calculate_delay_defined (self : RetryStrategy.t) (n : Z) :
  1 <= n <= 1024 ->
  exists d, RetryStrategy.calculate_delay self n = Ok d.
Proof.
  intros Hn. unfold RetryStrategy.calculate_delay, RetryStrategy.times_pow2.
  destruct (Z.leb_spec 0 (n - 1)) as [_ | Hneg]; [| lia].
  rewrite (times_int_small _ (2 ^ (n - 1)))
    by (apply power_below_float_limit; lia).
  rewrite (times_int_small _ n) by (apply attempt_below_float_limit; exact Hn).
  simpl.
  destruct (String.eqb _ "exponential"); [eauto |].
  destruct (String.eqb _ "linear"); [eauto |].
  destruct (String.eqb _ "fixed"); eauto.
Qed.

Lemma factor_step (self : RetryStrategy.t) (n : Z) :
  1 <= n ->
  (inject_Z (if String.eqb (RetryStrategy.strategy self) "linear"
             then n else 2 ^ (n - 1))
   <= inject_Z (if String.eqb (RetryStrategy.strategy self) "linear"
                then n + 1 else 2 ^ (n + 1 - 1)))%Q.
Proof.
  intros Hn. rewrite <- Zle_Qle.
  destruct (String.eqb _ "linear"); [lia |].
  apply Z.pow_le_mono_r; lia.
Qed.

Lemma calculate_delay_step (self : RetryStrategy.t) (n : Z) (d d' : Q) :
  (0 <= RetryStrategy.value (RetryStrategy.base_delay self))%Q ->
  1 <= n ->
  RetryStrategy.strategy self <> "fixed" ->
  RetryStrategy.calculate_delay self n = Ok d ->
  RetryStrategy.calculate_delay self (n + 1) = Ok d' ->
  (d <= d')%Q /\ (d' <= RetryStrategy.max_delay self)%Q.
Proof.
  intros Hbase Hn Hfixed Hd Hd'.
  rewrite (calculate_delay_value self n d Hn Hfixed Hd).
  rewrite (calculate_delay_value self (n + 1) d' ltac:(lia) Hfixed Hd').
  split; [| apply py_min_le_r].
  apply py_min_mono_l.
  rewrite !(Qmult_comm (RetryStrategy.value (RetryStrategy.base_delay self))).
  apply Qmult_le_compat_r; [apply factor_step, Hn | exact Hbase].
Qed.

(** From attempt 1025 on, [2 ** (attempt - 1)] has no [float]: with a
    [float] base delay the exponential strategy raises. *)
Lemma calculate_delay_overflow (self : RetryStrategy.t) (n : Z) (q : Q) :
  RetryStrategy.strategy self = "exponential" ->
  RetryStrategy.base_delay self = RetryStrategy.Float q ->
  1025 <= n ->
  RetryStrategy.calculate_delay self n = Raise OverflowError.
Proof.
  intros Hs Hq Hlarge.
  unfold RetryStrategy.calculate_delay, RetryStrategy.times_pow2.
  rewrite Hs, Hq. simpl.
  destruct (Z.leb_spec 0 (n - 1)) as [_ | Hneg]; [| lia].
  unfold RetryStrategy.times_int.
  rewrite power_above_float_limit by lia. reflexivity.
Qed.

(** Under the exponential strategy the delays that exist do not decrease
    with the attempt, and none exceeds the cap. *)
Lemma exponential_delay_monotone (self : RetryStrategy.t) (n m : Z) (d d' : Q) :
  (0 <= RetryStrategy.value (RetryStrategy.base_delay self))%Q ->
  RetryStrategy.strategy self = "exponential" ->
  1 <= n <= m ->
  RetryStrategy.calculate_delay self n = Ok d ->
  RetryStrategy.calculate_delay self m = Ok d' ->
  (d <= d')%Q /\ (d' <= RetryStrategy.max_delay self)%Q.
Proof.
  intros Hbase Hs Hnm Hd Hd'.
  assert (Hfixed : RetryStrategy.strategy self <> "fixed")
    by (rewrite Hs; discriminate).
  rewrite (calculate_delay_value self n d ltac:(lia) Hfixed Hd).
  rewrite (calculate_delay_value self m d' ltac:(lia) Hfixed Hd').
  rewrite Hs. cbn [String.eqb Ascii.eqb Bool.eqb].
  split; [| apply py_min_le_r].
  apply py_min_mono_l.
  rewrite !(Qmult_comm (RetryStrategy.value (RetryStrategy.base_delay self))).
  apply Qmult_le_compat_r; [| exact Hbase].
  rewrite <- Zle_Qle. apply Z.pow_le_mono_r; lia.
Qed.


(** C9 (as stated, refuted). With the base delay -1.0 and the
    exponential strategy, [calculate_delay(1)] is -1 and
    [calculate_delay(2)] is -2: the delay of the second attempt is below
    the delay of the first. And with the defaults ([base_delay = 1.0])
    [calculate_delay(1025)] is no delay at all: [2 ** 1024] has no
    [float], the product raises [OverflowError]. *)
Lemma C9_negative_base_decreases :
  RetryStrategy.calculate_delay negative_base_strategy 1 = Ok (-1)%Q
  /\ RetryStrategy.calculate_delay negative_base_strategy (1 + 1) = Ok (-2)%Q
  /\ ~ (-1 <= -2)%Q
  /\ RetryStrategy.calculate_delay RetryStrategy.default 1025
     = Raise OverflowError.
Proof.
  split; [reflexivity |]. split; [reflexivity |].
  split; [apply Qlt_not_le; reflexivity |].
  vm_compute. reflexivity.
Qed.

(** C9 (amended). For every RetryStrategy whose base delay is not
    negative and every attempt [n >= 1]: under "exponential" and under
    "linear", whenever [calculate_delay] returns for the attempts [n]
    and [n + 1], the delay of attempt [n + 1] is at least the delay of
    attempt [n] until the [max_delay] cap is reached, no delay exceeds
    the cap, and once the delay is [max_delay] it stays [max_delay]; it
    does return for all attempts up to 1024. Under "fixed" the delay is
    the base delay for every attempt. (With a [float] base delay the
    exponential strategy raises [OverflowError] from attempt 1025 on.) *)
Theorem C9_backoff_monotone (self : RetryStrategy.t) (n : Z) :
  (0 <= RetryStrategy.value (RetryStrategy.base_delay self))%Q ->
  1 <= n ->
  (RetryStrategy.strategy self = "exponential"
   \/ RetryStrategy.strategy self = "linear" ->
   (n < 1024 ->
    exists d d',
      RetryStrategy.calculate_delay self n = Ok d
      /\ RetryStrategy.calculate_delay self (n + 1) = Ok d')
   /\ (forall d d',
         RetryStrategy.calculate_delay self n = Ok d ->
         RetryStrategy.calculate_delay self (n + 1) = Ok d' ->
         (d <= d')%Q
         /\ (d' <= RetryStrategy.max_delay self)%Q
         /\ ((d == RetryStrategy.max_delay self)%Q ->
             (d' == RetryStrategy.max_delay self)%Q)))
  /\ (RetryStrategy.strategy self = "fixed" ->
      forall m : Z,
        RetryStrategy.calculate_delay self m
        = Ok (RetryStrategy.value (RetryStrategy.base_delay self)))
  /\ (RetryStrategy.strategy self = "exponential" ->
      (exists q, RetryStrategy.base_delay self = RetryStrategy.Float q) ->
      1025 <= n ->
      RetryStrategy.calculate_delay self n = Raise OverflowError).
Proof.
  intros Hbase Hn. split; [| split].
  - intros Hs.
    assert (Hfixed : RetryStrategy.strategy self <> "fixed")
      by (destruct Hs as [Hs | Hs]; rewrite Hs; discriminate).
    split.
    + intros Hsmall.
      destruct (calculate_delay_defined self n ltac:(lia)) as [d Hd].
      destruct (calculate_delay_defined self (n + 1) ltac:(lia)) as [d' Hd'].
      eauto.
    + intros d d' Hd Hd'.
      destruct (calculate_delay_step self n d d' Hbase Hn Hfixed Hd Hd')
        as [Hle Hcap].
      split; [exact Hle |]. split; [exact Hcap |].
      intros Heq. apply Qle_antisym; [exact Hcap |]. rewrite <- Heq. exact Hle.
  - intros Hs m. unfold RetryStrategy.calculate_delay. rewrite Hs. reflexivity.
  - intros Hs [q Hq] Hlarge.
    apply (calculate_delay_overflow self n q Hs Hq Hlarge).
Qed.

Lemma C9_backoff_monotone_witness :
  exists d d',
    RetryStrategy.calculate_delay RetryStrategy.default 5 = Ok d
    /\ RetryStrategy.calculate_delay RetryStrategy.default (5 + 1) = Ok d'.
Proof.
  destruct (C9_backoff_monotone RetryStrategy.default 5) as [Hmono _].
  - discriminate.
  - lia.
  - destruct (Hmono (or_introl eq_refl)) as [Hdef _]. apply Hdef. lia.
Defined.

(** ** Insertion-ordered dictionaries *)

Section Odict.

Context {V : Type}.
Implicit Types (d : odict V) (k : string) (v : V).

Lemma od_get_set_eq k v d : od_get k (od_set k v d) = Some v.
Proof.
  unfold od_get. induction d as [| [k' v'] d IH]; simpl.
  - rewrite String.eqb_refl. reflexivity.
  - destruct (String.eqb_spec k' k) as [-> | Hne]; simpl.
    + rewrite String.eqb_refl. reflexivity.
    + destruct (String.eqb_spec k' k); [contradiction | exact IH].
Qed.

Lemma od_get_set_ne k k' v d : k <> k' -> od_get k' (od_set k v d) = od_get k' d.
Proof.
  intros Hne. unfold od_get. induction d as [| [k0 v0] d IH]; simpl.
  - destruct (String.eqb_spec k k'); [contradiction | reflexivity].
  - destruct (String.eqb_spec k0 k) as [-> | Hk0]; simpl.
    + destruct (String.eqb_spec k k'); [contradiction | reflexivity].
    + destruct (String.eqb_spec k0 k'); [reflexivity | exact IH].
Qed.

Lemma od_mem_set k v d : od_mem k (od_set k v d) = true.
Proof. unfold od_mem. rewrite od_get_set_eq. reflexivity. Qed.

Lemma od_pop_mem k d : od_mem k d = true -> exists d', od_pop k d = Some d'.
Proof.
  unfold od_mem, od_get. induction d as [| [k' v'] d IH]; simpl.
  - discriminate.
  - destruct (String.eqb_spec k' k) as [-> | Hne]; simpl.
    + intros _. eexists. reflexivity.
    + intros H. destruct (IH H) as [d' Hd']. rewrite Hd'. eexists. reflexivity.
Qed.

Lemma od_get_pop_ne k k' d d' :
  od_pop k d = Some d' -> k <> k' -> od_get k' d' = od_get k' d.
Proof.
  unfold od_get. revert d'. induction d as [| [k0 v0] d IH]; simpl; intros d' Hpop Hne.
  - discriminate.
  - destruct (String.eqb_spec k0 k) as [-> | Hk0].
    + injection Hpop as <-.
      destruct (String.eqb_spec k k'); [contradiction | reflexivity].
    + destruct (od_pop k d) as [r |] eqn:Hr; [| discriminate].
      injection Hpop as <-. simpl.
      destruct (String.eqb_spec k0 k'); [reflexivity |].
      apply IH; [reflexivity | assumption].
Qed.

Lemma od_mem_of_entry k v d : In (k, v) d -> od_mem k d = true.
Proof.
  unfold od_mem, od_get. induction d as [| [k' v'] d IH]; simpl.
  - contradiction.
  - intros [Heq | Hin].
    + injection Heq as -> ->. rewrite String.eqb_refl. reflexivity.
    + destruct (String.eqb k' k); [reflexivity | apply IH, Hin].
Qed.

End Odict.

(** ** The ready-task computation *)

Lemma ready_loop (self : Orchestrator.t) (l acc : list TaskDependency.t) :
  fold_left
    (fun ready_tasks task =>
       if is_ready self task then ready_tasks ++ [task] else ready_tasks)
    l acc
  = acc ++ List.filter (is_ready self) l.
Proof.
  revert acc. induction l as [| t l IH]; intros acc; simpl.
  - rewrite app_nil_r. reflexivity.
  - rewrite IH. destruct (is_ready self t); [| reflexivity].
    rewrite <- app_assoc. reflexivity.
Qed.

Lemma get_ready_tasks_filter (self : Orchestrator.t) :
  _get_ready_tasks self
  = List.filter (is_ready self) (od_values (Orchestrator.tasks self)).
Proof. unfold _get_ready_tasks. rewrite ready_loop. reflexivity. Qed.

Lemma ready_task_is_ready (self : Orchestrator.t) (task : TaskDependency.t) :
  In task (_get_ready_tasks self) ->
  In task (od_values (Orchestrator.tasks self)) /\ is_ready self task = true.
Proof. rewrite get_ready_tasks_filter. apply filter_In. Qed.

Lemma ready_task_in_table (self : Orchestrator.t) (task : TaskDependency.t) :
  keys_are_task_ids self ->
  In task (_get_ready_tasks self) ->
  od_mem (TaskDependency.task_id task) (Orchestrator.tasks self) = true.
Proof.
  intros Hkeys Hin. apply ready_task_is_ready in Hin as [Hin _].
  unfold od_values in Hin. apply in_map_iff in Hin as [[k t] [Ht Hin]].
  simpl in Ht. subst t.
  unfold keys_are_task_ids in Hkeys. rewrite List.Forall_forall in Hkeys.
  specialize (Hkeys _ Hin). simpl in Hkeys. subst k.
  eapply od_mem_of_entry, Hin.
Qed.

Lemma ready_needs_dependency (self : Orchestrator.t) (task : TaskDependency.t)
    (dep : string) :
  is_ready self task = true ->
  In dep (TaskDependency.depends_on task) ->
  is_Some (Orchestrator.completed_tasks self !! dep).
Proof.
  unfold is_ready. intros Hready Hin.
  apply andb_prop in Hready as [_ Hall].
  rewrite forallb_forall in Hall. specialize (Hall _ Hin).
  unfold gm_mem in Hall.
  destruct (Orchestrator.completed_tasks self !! dep); [eauto | discriminate].
Qed.

Lemma forallb_pointwise {A} (f g : A -> bool) (l : list A) :
  (forall x, f x = g x) -> forallb f l = forallb g l.
Proof.
  intros Hfg. induction l as [| x l IH]; simpl; [reflexivity |].
  rewrite Hfg, IH. reflexivity.
Qed.

Lemma dependency_completed_mem (self : Orchestrator.t) (dep : string) :
  only_completed self ->
  gm_mem dep (Orchestrator.completed_tasks self) = dependency_completed self dep.
Proof.
  intros Honly. unfold gm_mem, dependency_completed.
  destruct (Orchestrator.completed_tasks self !! dep) as [d |] eqn:Hd;
    [| reflexivity].
  rewrite (Honly _ _ Hd). reflexivity.
Qed.

(** C8 (as stated, refuted). Two pending tasks without dependencies, the
    first inserted with priority LOW and the second with priority HIGH:
    [_get_ready_tasks] returns them in insertion order, LOW before HIGH,
    which is not a descending priority order and is not the list the
    spec's [ready_tasks()] describes. *)
Lemma C8_priority_order_ignored :
  _get_ready_tasks state_priorities = [low_task; high_task]
  /\ descending_priority (_get_ready_tasks state_priorities) = false
  /\ ready_tasks_spec state_priorities = [high_task; low_task]
  /\ _get_ready_tasks state_priorities <> ready_tasks_spec state_priorities.
Proof.
  assert (H1 : _get_ready_tasks state_priorities = [low_task; high_task])
    by reflexivity.
  assert (H2 : ready_tasks_spec state_priorities = [high_task; low_task])
    by reflexivity.
  split; [exact H1 |]. split; [rewrite H1; reflexivity |].
  split; [exact H2 |]. rewrite H1, H2. discriminate.
Qed.

(** C8 (amended). In every state whose [completed_tasks] holds only tasks
    that ended with status "completed", [_get_ready_tasks] returns exactly
    the tasks with status "pending" all of whose dependencies are
    Completed, in the insertion order of the task table; it does not
    order by priority. *)
Theorem C8_ready_tasks_in_insertion_order (self : Orchestrator.t) :
  only_completed self ->
  _get_ready_tasks self
  = List.filter (pending_with_completed_dependencies self)
      (od_values (Orchestrator.tasks self)).
Proof.
  intros Honly. rewrite get_ready_tasks_filter.
  apply filter_ext. intros t.
  unfold is_ready, pending_with_completed_dependencies. f_equal.
  apply forallb_pointwise. intros dep. apply dependency_completed_mem, Honly.
Qed.

Lemma C8_ready_tasks_in_insertion_order_witness :
  _get_ready_tasks state_A_done
  = List.filter (pending_with_completed_dependencies state_A_done)
      (od_values (Orchestrator.tasks state_A_done)).
Proof.
  apply (C8_ready_tasks_in_insertion_order state_A_done).
  intros k d H. simpl in H.
  apply lookup_singleton_Some in H as [_ <-]. reflexivity.
Defined.

(** ** [Task(...)] and the dispatch of [process_tasks] *)

(** With the four keywords of the orchestrator's calls, [Task(...)]
    raises whatever the values are. *)
Lemma task_init_raises (kwargs : Task.t) :
  Task.init Task.call_keywords kwargs = Raise (ValidationError "Task").
Proof. reflexivity. Qed.

(** So no notification reaches the ["slack_bot"] agent. *)
Lemma send_notification_nothing (self : Orchestrator.t)
    (kind task_id_prefix description : string) (m : MilestoneStatus.t) :
  send_notification self kind task_id_prefix description m = [].
Proof. unfold send_notification. destruct (agent_known _ _); reflexivity. Qed.

Lemma attempts_in_app (ev ev' : list event) :
  attempts_in (ev ++ ev') = (attempts_in ev + attempts_in ev')%nat.
Proof. unfold attempts_in. rewrite List.filter_app, List.length_app. reflexivity. Qed.

(** A ready task of a registered agent: [Task(...)] raises before the
    [try] is entered, and the exception leaves [process_tasks]. *)
Lemma process_ready_task_known (fuel : nat) (cls : orchestrator_class)
    (env : Env) (self : Orchestrator.t) (task : TaskDependency.t) :
  agent_known self (TaskDependency.agent_id task) = true ->
  process_ready_task fuel cls env self task
  = Some (self, [], Raise (ValidationError "Task")).
Proof. intros Hknown. unfold process_ready_task. rewrite Hknown. reflexivity. Qed.

Lemma process_ready_task_unknown (fuel : nat) (cls : orchestrator_class)
    (env : Env) (self : Orchestrator.t) (task : TaskDependency.t) :
  agent_known self (TaskDependency.agent_id task) = false ->
  process_ready_task fuel cls env self task
  = Some (self,
          [EvLogError ("Unknown agent: " ++ TaskDependency.agent_id task)%string],
          Ok tt).
Proof. intros Hknown. unfold process_ready_task. rewrite Hknown. reflexivity. Qed.

(** Whatever the task, the loop body leaves the state as it was and runs
    no agent. *)
Lemma process_ready_task_state (fuel : nat) (cls : orchestrator_class)
    (env : Env) (self : Orchestrator.t) (task : TaskDependency.t) :
  exists ev r,
    process_ready_task fuel cls env self task = Some (self, ev, r)
    /\ attempts_in ev = 0%nat.
Proof.
  destruct (agent_known self (TaskDependency.agent_id task)) eqn:Hknown.
  - rewrite (process_ready_task_known _ _ _ _ _ Hknown). eauto.
  - rewrite (process_ready_task_unknown _ _ _ _ _ Hknown). eauto.
Qed.

Lemma process_ready_tasks_state (fuel : nat) (cls : orchestrator_class)
    (env : Env) (self : Orchestrator.t) (l : list TaskDependency.t) :
  exists ev r,
    process_ready_tasks fuel cls env self l = Some (self, ev, r)
    /\ attempts_in ev = 0%nat.
Proof.
  induction l as [| task l IH]; [exists [], (Ok tt); split; reflexivity |].
  destruct (process_ready_task_state fuel cls env self task)
    as (ev & r & Htask & Hev).
  destruct IH as (ev' & r' & IH & Hev').
  cbn [process_ready_tasks]. rewrite Htask.
  destruct r as [[] | e]; [| eauto].
  rewrite IH. exists (ev ++ ev'), r'. split; [reflexivity |].
  rewrite attempts_in_app, Hev, Hev'. reflexivity.
Qed.

Lemma process_tasks_iteration_state (fuel : nat) (cls : orchestrator_class)
    (env : Env) (self : Orchestrator.t) :
  exists ev r,
    process_tasks_iteration fuel cls env self = Some (self, ev, r)
    /\ attempts_in ev = 0%nat.
Proof.
  unfold process_tasks_iteration.
  destruct (_get_ready_tasks self) as [| task l]; [eauto |].
  apply process_ready_tasks_state.
Qed.

(** [process_tasks] as a whole: when the call ends, the state is the one
    it started from and no agent was run. *)
Lemma process_tasks_state (rounds fuel : nat) (cls : orchestrator_class)
    (env : Env) (self self' : Orchestrator.t) (ev : list event)
    (r : outcome unit) :
  process_tasks rounds fuel cls env self = Some (self', ev, r) ->
  self' = self /\ attempts_in ev = 0%nat.
Proof.
  revert self' ev r. induction rounds as [| rounds IH]; intros self' ev r.
  - simpl. destruct (Orchestrator.tasks self); [| discriminate].
    intros [= <- <- <-]. split; reflexivity.
  - cbn [process_tasks].
    destruct (Orchestrator.tasks self); [intros [= <- <- <-]; split; reflexivity |].
    destruct (process_tasks_iteration_state fuel cls env self)
      as (ev1 & r1 & Hit & Hev1).
    rewrite Hit. destruct r1 as [[] | e].
    + destruct (process_tasks rounds fuel cls env self)
        as [[[self2 ev2] r2] |] eqn:Hrest; [| discriminate].
      intros [= <- <- <-].
      destruct (IH _ _ _ eq_refl) as [-> Hev2].
      split; [reflexivity |]. rewrite attempts_in_app, Hev1, Hev2. reflexivity.
    + intros [= <- <- <-]. split; [reflexivity | exact Hev1].
Qed.

(** ** The failure branch of [process_tasks] *)

(** What the [except] branch does to the state when the task is in the
    table: the task leaves [tasks] and enters [completed_tasks] as
    [failed_task]; this has happened whether or not building or
    recording the completion raises afterwards. *)
Lemma process_tasks_except_state (env : Env) (self : Orchestrator.t)
    (task : TaskDependency.t) (e : exn) :
  od_mem (TaskDependency.task_id task) (Orchestrator.tasks self) = true ->
  exists ts ev r,
    od_pop (TaskDependency.task_id task)
      (od_set (TaskDependency.task_id task) (failed_task env task e)
         (Orchestrator.tasks self)) = Some ts
    /\ process_tasks_except env false self task e
       = (Orchestrator.set_completed_tasks
            (<[TaskDependency.task_id task := failed_task env task e]>
               (Orchestrator.completed_tasks self))
            (Orchestrator.set_tasks ts self),
          ev, r)
    /\ (forall x, In x ev -> exists c, x = EvRecord c).
Proof.
  intros Hmem.
  destruct (od_pop_mem (TaskDependency.task_id task)
              (od_set (TaskDependency.task_id task) (failed_task env task e)
                 (Orchestrator.tasks self))
              (od_mem_set _ _ _)) as [ts Hts].
  unfold process_tasks_except, write_back, move_to_completed.
  fold (failed_task env task e).
  change (TaskDependency.task_id (failed_task env task e))
    with (TaskDependency.task_id task).
  rewrite Hmem. simpl. rewrite Hts.
  destruct (TaskCompletion.init _) as [completion | e'].
  - destruct (FeedbackSystem.record_task_completion _ _);
      (exists ts; eexists; eexists; split; [reflexivity |]; split;
        [reflexivity |]; intros x [<- | []]; eauto).
  - exists ts, [], (Raise e'). split; [reflexivity |]. split; [reflexivity |].
    intros x [].
Qed.

Lemma execute_task_with_retry_as_written (fuel : nat) (h : retry_helpers)
    (env : Env) (self : Orchestrator.t) (agent_id : string) (task : Task.t)
    (attempt : Z) :
  _execute_task_with_retry (S fuel) (AgentOrchestrator h) env self agent_id
    task attempt
  = Some ([], Raise (AttributeError "_get_retry_strategy")).
Proof. reflexivity. Qed.

(** ** C3 and C2: the retry helpers *)

Lemma only_records_no_attempts (ev : list event) :
  (forall x, In x ev -> exists c, x = EvRecord c) ->
  attempts_in ev = 0%nat /\ sleeps_in ev = [].
Proof.
  induction ev as [| x ev IH]; intros Hall; [split; reflexivity |].
  destruct (Hall x (or_introl eq_refl)) as [c ->].
  destruct IH as [IH1 IH2]; [intros y Hy; apply Hall; right; exact Hy |].
  split; [exact IH1 | exact IH2].
Qed.

(** C3 (the code as it is written). The class defines neither
    [_get_retry_strategy] nor [_get_retry_count], so
    [_execute_task_with_retry] raises [AttributeError] for every agent,
    task and attempt, before the agent is run: no result is returned, no
    retry sleep happens. [process_tasks] does not get that far: for a
    ready task of a registered agent the call [Task(...)] in front of the
    [try] raises, the exception leaves [process_tasks], and the state is
    as it was, the task still in [self.tasks] with the status it had.
    The [except] branch itself, when it is entered for a task of the
    table, does what is expected of it: the task ends in [completed_tasks]
    with status "failed" and a result whose status is "error" and whose
    error type is "processing_error", with no run of an agent and no
    sleep. *)
Theorem C3_retry_helpers_undefined (fuel : nat) (h : retry_helpers)
    (env : Env) (self : Orchestrator.t) :
  has_attribute (AgentOrchestrator h) "_get_retry_strategy" = false
  /\ has_attribute (AgentOrchestrator h) "_get_retry_count" = false
  /\ (forall (agent_id : string) (task : Task.t) (attempt : Z),
        _execute_task_with_retry (S fuel) (AgentOrchestrator h) env self
          agent_id task attempt
        = Some ([], Raise (AttributeError "_get_retry_strategy")))
  /\ (forall task : TaskDependency.t,
        agent_known self (TaskDependency.agent_id task) = true ->
        process_ready_task (S fuel) (AgentOrchestrator h) env self task
        = Some (self, [], Raise (ValidationError "Task")))
  /\ (forall (task : TaskDependency.t) (e : exn),
        od_mem (TaskDependency.task_id task) (Orchestrator.tasks self) = true ->
        exists self' ev r task' result,
          process_tasks_except env false self task e = (self', ev, r)
          /\ Orchestrator.completed_tasks self' !! TaskDependency.task_id task
             = Some task'
          /\ TaskDependency.status task' = "failed"
          /\ TaskDependency.result task' = Some (RetDict result)
          /\ r_status result = Some "error"
          /\ r_error_type result = Some "processing_error"
          /\ r_error result = Some (exn_text env e)
          /\ attempts_in ev = 0%nat
          /\ sleeps_in ev = []).
Proof.
  split; [reflexivity |]. split; [reflexivity |].
  split; [intros; apply execute_task_with_retry_as_written |].
  split; [intros task Hknown; apply process_ready_task_known, Hknown |].
  intros task e Hmem.
  destruct (process_tasks_except_state env self task e Hmem)
    as (ts & ev & r & _ & Heq & Hev).
  rewrite Heq.
  eexists _, ev, r, _, _. split; [reflexivity |].
  split; [apply lookup_insert_eq |].
  split; [reflexivity |]. split; [reflexivity |].
  split; [reflexivity |]. split; [reflexivity |]. split; [reflexivity |].
  apply only_records_no_attempts, Hev.
Qed.

Lemma C3_retry_helpers_undefined_witness :
  process_ready_task 1 (AgentOrchestrator default_helpers) env_always_transient
    state_AB dep_A
  = Some (state_AB, [], Raise (ValidationError "Task"))
  /\ od_get "A" (Orchestrator.tasks state_AB) = Some dep_A
  /\ TaskDependency.status dep_A = "pending"
  /\ Orchestrator.completed_tasks state_AB !! "A" = None.
Proof.
  split; [| repeat split].
  apply (C3_retry_helpers_undefined 0 default_helpers env_always_transient
           state_AB).
  vm_compute. reflexivity.
Defined.


(** ** C5: a ready task for an unregistered agent *)

Lemma process_tasks_unfold (rounds fuel : nat) (cls : orchestrator_class)
    (env : Env) (self : Orchestrator.t) :
  process_tasks (S rounds) fuel cls env self
  = match Orchestrator.tasks self with
    | [] => Some (self, [], Ok tt)
    | _ :: _ =>
        match process_tasks_iteration fuel cls env self with
        | None => None
        | Some (self', ev, Raise e) => Some (self', ev, Raise e)
        | Some (self', ev, Ok _) =>
            match process_tasks rounds fuel cls env self' with
            | None => None
            | Some (self'', ev', r) => Some (self'', ev ++ ev', r)
            end
        end
    end.
Proof. reflexivity. Qed.

(** C5 (as stated, refuted). One pending task without dependencies whose
    agent "ghost" is not registered: the task is ready, an iteration of
    [process_tasks] only logs an error and leaves the state as it was,
    the task keeps status "pending" and never reaches "failed", and the
    loop of [process_tasks] has not ended after any number of rounds. *)
Lemma C5_unknown_agent_stays_pending :
  _get_ready_tasks state_ghost = [ghost_task]
  /\ agent_known state_ghost (TaskDependency.agent_id ghost_task) = false
  /\ process_tasks_iteration 1 (AgentOrchestrator default_helpers)
       env_always_transient state_ghost
     = Some (state_ghost, [EvLogError "Unknown agent: ghost"], Ok tt)
  /\ od_get "t1" (Orchestrator.tasks state_ghost) = Some ghost_task
  /\ TaskDependency.status ghost_task <> "failed"
  /\ Orchestrator.completed_tasks state_ghost !! "t1" = None
  /\ (forall rounds : nat,
        process_tasks rounds 1 (AgentOrchestrator default_helpers)
          env_always_transient state_ghost = None).
Proof.
  assert (Hit : process_tasks_iteration 1 (AgentOrchestrator default_helpers)
                  env_always_transient state_ghost
                = Some (state_ghost, [EvLogError "Unknown agent: ghost"], Ok tt))
    by (vm_compute; reflexivity).
  split; [reflexivity |]. split; [vm_compute; reflexivity |].
  split; [exact Hit |]. split; [reflexivity |]. split; [discriminate |].
  split; [reflexivity |].
  intros rounds. induction rounds as [| rounds IH]; [reflexivity |].
  rewrite process_tasks_unfold, Hit, IH. reflexivity.
Qed.

(** C5 (amended). For every ready task whose [agent_id] is not in the
    agent registry, [process_tasks] logs an error and skips the task:
    nothing is dispatched (no attempt, no retry, no sleep) and the state,
    the task's entry included, is left unchanged. *)
Theorem C5_unknown_agent_is_skipped (fuel : nat) (cls : orchestrator_class)
    (env : Env) (self : Orchestrator.t) (task : TaskDependency.t) :
  In task (_get_ready_tasks self) ->
  agent_known self (TaskDependency.agent_id task) = false ->
  exists ev,
    process_ready_task fuel cls env self task = Some (self, ev, Ok tt)
    /\ attempts_in ev = 0%nat
    /\ sleeps_in ev = []
    /\ TaskDependency.status task = "pending".
Proof.
  intros Hready Hunknown. unfold process_ready_task. rewrite Hunknown. simpl.
  eexists. split; [reflexivity |]. split; [reflexivity |].
  split; [reflexivity |].
  apply ready_task_is_ready in Hready as [_ Hready].
  unfold is_ready in Hready. apply andb_prop in Hready as [Hst _].
  apply String.eqb_eq, Hst.
Qed.

Lemma C5_unknown_agent_is_skipped_witness :
  exists ev,
    process_ready_task 3 (AgentOrchestrator default_helpers)
      env_always_transient state_ghost ghost_task
    = Some (state_ghost, ev, Ok tt)
    /\ attempts_in ev = 0%nat
    /\ sleeps_in ev = []
    /\ TaskDependency.status ghost_task = "pending".
Proof.
  apply (C5_unknown_agent_is_skipped 3 (AgentOrchestrator default_helpers)
           env_always_transient state_ghost ghost_task).
  - simpl. left. reflexivity.
  - vm_compute. reflexivity.
Defined.

(** ** C4: the critical path *)

(** C4 (the code at the scenario's input). For the queue A (duration 2),
    B (duration 3, depends on A), C (duration 1, depends on A) the
    earliest completion times are 2, 5 and 3. [_find_critical_path]
    returns the tasks whose earliest completion equals the maximum, here
    the single task B, and not the chain [A, B] that the backward walk of
    the spec reconstructs. *)
Theorem C4_critical_path_scenario :
  (fst (_estimate_task_duration ∅ task_A) == 2)%Q
  /\ (fst (_estimate_task_duration ∅ task_B) == 3)%Q
  /\ (fst (_estimate_task_duration ∅ task_C) == 1)%Q
  /\ (completion_or_zero (fst (earliest_completion_of ∅ queue_ABC)) "A" == 2)%Q
  /\ (completion_or_zero (fst (earliest_completion_of ∅ queue_ABC)) "B" == 5)%Q
  /\ (completion_or_zero (fst (earliest_completion_of ∅ queue_ABC)) "C" == 3)%Q
  /\ fst (_find_critical_path ∅ queue_ABC) = Ok ["B"]
  /\ fst (_find_critical_path ∅ queue_ABC) <> Ok ["A"; "B"]
  /\ critical_path_spec queue_ABC (fst (earliest_completion_of ∅ queue_ABC))
     = ["A"; "B"].
Proof.
  assert (Hpath : fst (_find_critical_path ∅ queue_ABC) = Ok ["B"])
    by (vm_compute; reflexivity).
  split; [reflexivity |]. split; [reflexivity |]. split; [reflexivity |].
  split; [reflexivity |]. split; [reflexivity |]. split; [reflexivity |].
  split; [exact Hpath |]. split; [rewrite Hpath; discriminate |].
  vm_compute. reflexivity.
Qed.

(** ** C6: milestone delay *)

Lemma lookup_store_milestone (milestone_id : string) (m : MilestoneStatus.t)
    (self : Orchestrator.t) :
  Orchestrator.milestones (store_milestone milestone_id m self) !! milestone_id
  = Some m.
Proof. unfold store_milestone. simpl. apply lookup_insert_eq. Qed.

Lemma status_from_progress_not_delayed (env : Env) (p : Q)
    (m : MilestoneStatus.t) :
  MilestoneStatus.status (status_from_progress env p m) <> "delayed"
  /\ MilestoneStatus.delay_reason (status_from_progress env p m)
     = MilestoneStatus.delay_reason m.
Proof.
  unfold status_from_progress.
  destruct (Qeq_bool p 100); [split; [discriminate | reflexivity] |].
  destruct (Qltb 0 p); split; (discriminate || reflexivity).
Qed.

Lemma handle_milestone_delay_reason (env : Env) (self : Orchestrator.t)
    (m : MilestoneStatus.t) (reason : string) :
  MilestoneStatus.delay_reason
    (fst (fst (_handle_milestone_delay env self m reason)))
  = MilestoneStatus.delay_reason m.
Proof.
  unfold _handle_milestone_delay.
  destruct (write_milestones env "_handle_milestone_delay"); reflexivity.
Qed.

(** Whatever the progress and the clock: [_update_milestone_progress]
    never assigns [delay_reason], and a call that returns leaves the
    status that the progress dictates, which is never "delayed". *)
Lemma update_milestone_progress_never_delayed (env : Env)
    (self : Orchestrator.t) (milestone_id : string) (m : MilestoneStatus.t) :
  Orchestrator.milestones self !! milestone_id = Some m ->
  exists m',
    Orchestrator.milestones
      (fst (fst (_update_milestone_progress env self milestone_id)))
      !! milestone_id = Some m'
    /\ MilestoneStatus.delay_reason m' = MilestoneStatus.delay_reason m
    /\ (snd (_update_milestone_progress env self milestone_id) = Ok tt ->
        MilestoneStatus.status m' <> "delayed").
Proof.
  intros Hm. unfold _update_milestone_progress. rewrite Hm.
  destruct (count_completed (MilestoneStatus.tasks m)) as [c | e]; simpl;
    [| exists m; split; [exact Hm |]; split; [reflexivity | discriminate]].
  destruct (fromisoformat (MilestoneStatus.estimated_completion m)) as [t | e];
    simpl;
    [| exists m; split; [exact Hm |]; split; [reflexivity | discriminate]].
  set (p := progress_percent c _).
  destruct (Qltb p 50 && (t <? now env)).
  - pose proof (handle_milestone_delay_reason env self m
                  "Tasks taking longer than estimated") as Hreason.
    destruct (_handle_milestone_delay env self m _) as [[m1 ev1] [[] | e1]];
      simpl in Hreason.
    + destruct (status_from_progress_not_delayed env p m1) as [Hst Hdr].
      destruct (write_milestones env "_update_milestone_progress"); simpl;
        (eexists; split; [apply lookup_store_milestone |]; split;
          [congruence | intros _; exact Hst || discriminate]).
    + simpl. eexists. split; [apply lookup_store_milestone |].
      split; [exact Hreason | discriminate].
  - destruct (status_from_progress_not_delayed env p m) as [Hst Hdr].
    destruct (write_milestones env "_update_milestone_progress"); simpl;
      (eexists; split; [apply lookup_store_milestone |]; split;
        [congruence | intros _; exact Hst || discriminate]).
Qed.

(** C6 (the code at the scenario's input). A milestone with 4 tasks of
    which 1 is completed, an estimated completion in the past and no
    delay reason. Whatever the outcome of the file writes: after
    [_update_milestone_progress] the milestone still has no delay
    reason; when the call returns, the progress is 25 and the status is
    "in_progress", because the status "delayed" that
    [_handle_milestone_delay] sets is overwritten by the status update
    that follows. *)
Theorem C6_milestone_delay_scenario (env : Env) :
  100 < now env ->
  exists m',
    Orchestrator.milestones
      (fst (fst (_update_milestone_progress env state_milestone "m1")))
      !! "m1" = Some m'
    /\ MilestoneStatus.delay_reason m' = None
    /\ (snd (_update_milestone_progress env state_milestone "m1") = Ok tt ->
        MilestoneStatus.status m' = "in_progress"
        /\ (MilestoneStatus.progress m' == 25)%Q)
    /\ ~ (MilestoneStatus.status m' = "delayed"
          /\ MilestoneStatus.delay_reason m' <> None).
Proof.
  intros Hnow.
  assert (Hm : Orchestrator.milestones state_milestone !! "m1" = Some milestone_m1)
    by reflexivity.
  unfold _update_milestone_progress. rewrite Hm.
  change (count_completed (MilestoneStatus.tasks milestone_m1)) with (Ok (A:=Z) 1).
  change (fromisoformat (MilestoneStatus.estimated_completion milestone_m1))
    with (Ok (A:=Z) 100).
  cbv beta iota.
  change (Z.of_nat (length (MilestoneStatus.tasks milestone_m1))) with 4.
  change (Qltb (progress_percent 1 4) 50) with true.
  apply Z.ltb_lt in Hnow. rewrite Hnow. cbv beta iota. simpl andb. cbv iota.
  unfold _handle_milestone_delay.
  destruct (write_milestones env "_handle_milestone_delay") as [[] | e1].
  - unfold status_from_progress.
    change (Qeq_bool (progress_percent 1 4) 100) with false.
    change (Qltb 0 (progress_percent 1 4)) with true. cbv iota.
    destruct (write_milestones env "_update_milestone_progress");
      (eexists; split; [apply lookup_store_milestone |];
       split; [reflexivity |]; split;
       [intros H; (discriminate H || (split; reflexivity))
       | intros [_ Hd]; apply Hd; reflexivity]).
  - eexists. split; [apply lookup_store_milestone |].
    split; [reflexivity |]. split; [discriminate |].
    intros [_ Hd]. apply Hd. reflexivity.
Qed.

Lemma C6_milestone_delay_scenario_witness :
  exists m',
    Orchestrator.milestones
      (fst (fst (_update_milestone_progress env_always_transient
                   state_milestone "m1")))
      !! "m1" = Some m'
    /\ MilestoneStatus.delay_reason m' = None
    /\ (snd (_update_milestone_progress env_always_transient
               state_milestone "m1") = Ok tt ->
        MilestoneStatus.status m' = "in_progress"
        /\ (MilestoneStatus.progress m' == 25)%Q)
    /\ ~ (MilestoneStatus.status m' = "delayed"
          /\ MilestoneStatus.delay_reason m' <> None).
Proof.
  apply (C6_milestone_delay_scenario env_always_transient).
  simpl. lia.
Defined.

(** ** C10: a zero estimate in the feedback system *)

Lemma analyze_completion_zero_estimate (fs : FeedbackSystem.t)
    (c : TaskCompletion.t) :
  (TaskCompletion.estimated_duration c == 0)%Q ->
  FeedbackSystem._analyze_completion fs c = Raise ZeroDivisionError.
Proof.
  intros Hz. unfold FeedbackSystem._analyze_completion.
  apply Qeq_bool_iff in Hz. rewrite Hz. reflexivity.
Qed.

Lemma estimated_duration_default (md : metadata_t) :
  md_estimated_duration md = None -> estimated_duration_of md = 0%Q.
Proof. unfold estimated_duration_of. intros ->. reflexivity. Qed.

(** [execute_task] once its checks have passed: [Task(...)] raises
    inside the [try], so the [except] branch is entered with that
    exception and the agent is not run. *)
Lemma execute_task_started (env : Env) (self : Orchestrator.t)
    (task_id : string) (task : TaskDependency.t) :
  od_get task_id (Orchestrator.tasks self) = Some task ->
  check_dependencies self (TaskDependency.depends_on task) = Ok tt ->
  agent_known self (TaskDependency.agent_id task) = true ->
  execute_task env self task_id
  = execute_task_except env
      (write_back false (started_by_execute env task) self)
      (started_by_execute env task) (ValidationError "Task").
Proof.
  intros Hget Hdeps Hknown. unfold execute_task.
  rewrite Hget, Hdeps, Hknown. reflexivity.
Qed.

(** [execute_task] on a task without "estimated_duration": the
    completion that the [except] branch records has the estimate 0, so
    the call ends with [ZeroDivisionError]. *)
Lemma execute_task_zero_estimate (env : Env) (self : Orchestrator.t)
    (task_id : string) (task : TaskDependency.t) :
  od_get task_id (Orchestrator.tasks self) = Some task ->
  check_dependencies self (TaskDependency.depends_on task) = Ok tt ->
  agent_known self (TaskDependency.agent_id task) = true ->
  md_estimated_duration (TaskDependency.metadata task) = None ->
  (forall c, FeedbackSystem.save_completion_file (feedback_system env) c = Ok tt) ->
  snd (execute_task env self task_id) = Raise ZeroDivisionError.
Proof.
  intros Hget Hdeps Hknown Hmd Hsave.
  assert (Hrec : forall ok notes t,
            TaskDependency.metadata t = TaskDependency.metadata task ->
            FeedbackSystem.record_task_completion (feedback_system env)
              (completion_of_execute env t ok notes)
            = Raise ZeroDivisionError).
  { intros ok notes t Ht. unfold FeedbackSystem.record_task_completion,
      FeedbackSystem._save_completion_data.
    rewrite Hsave. simpl.
    rewrite analyze_completion_zero_estimate; [reflexivity |].
    simpl. rewrite Ht, (estimated_duration_default _ Hmd). reflexivity. }
  rewrite (execute_task_started env self task_id task Hget Hdeps Hknown).
  unfold execute_task_except. cbn [TaskCompletion.init].
  change (TaskCompletion.start_time (completion_of_execute ?[e] ?[t] ?[ok] ?[n]))
    with (TaskDependency.start_time ?t).
  cbn. rewrite Hrec by reflexivity. reflexivity.
Qed.



Example execute_task_zero_estimate_example :
  snd (execute_task env_success state_single "A") = Raise ZeroDivisionError.
Proof.
  apply (execute_task_zero_estimate env_success state_single "A" dep_A);
    reflexivity.
Qed.

(** ** C7: the throughput tracker *)





(** ** The retry loop with the two helpers supplied

    What the body of [_execute_task_with_retry] does once the class has
    the helpers: an agent that raises the same retryable error on every
    attempt is run [retry_count + 1] times, with the strategy's delay
    slept before each retry, and the call returns an error result. *)

Section RetryLoop.

Variable h : retry_helpers.
Variable env : Env.
Variable self : Orchestrator.t.
Variable agent_id : string.
Variable task : Task.t.
Variable e : exn.

Hypothesis agent_registered : agent_known self agent_id = true.
Hypothesis always_raises :
  forall attempt, run_task env agent_id task attempt = Raise e.
Hypothesis retryable : impl_get_retry_count h e agent_id <> 0.





End RetryLoop.

(** ** The loop of [process_tasks] *)

Lemma process_ready_tasks_all_unknown (fuel : nat) (cls : orchestrator_class)
    (env : Env) (self : Orchestrator.t) (l : list TaskDependency.t) :
  Forall (fun t => agent_known self (TaskDependency.agent_id t) = false) l ->
  exists ev,
    process_ready_tasks fuel cls env self l = Some (self, ev, Ok tt)
    /\ attempts_in ev = 0%nat.
Proof.
  induction 1 as [| t l Ht _ IH].
  - exists []. split; reflexivity.
  - destruct IH as [ev [IH Hatt]]. simpl.
    unfold process_ready_task at 1. rewrite Ht. simpl. rewrite IH.
    eexists. split; [reflexivity |]. exact Hatt.
Qed.

Lemma process_tasks_step (rounds fuel : nat) (cls : orchestrator_class)
    (env : Env) (self : Orchestrator.t) :
  Orchestrator.tasks self <> [] ->
  process_tasks (S rounds) fuel cls env self
  = match process_tasks_iteration fuel cls env self with
    | None => None
    | Some (self', ev, Raise e) => Some (self', ev, Raise e)
    | Some (self', ev, Ok _) =>
        match process_tasks rounds fuel cls env self' with
        | None => None
        | Some (self'', ev', r) => Some (self'', ev ++ ev', r)
        end
    end.
Proof.
  intros Hne. rewrite process_tasks_unfold.
  destruct (Orchestrator.tasks self); [contradiction | reflexivity].
Qed.

(** X1. When the task table is not empty and every ready task belongs to
    an agent that is not registered (in particular when no task is ready,
    for instance because a dependency is missing or failed to be
    created), [process_tasks] never returns: every iteration leaves the
    state as it was, so the loop is still running after any number of
    rounds. *)
Theorem process_tasks_never_returns (fuel : nat) (cls : orchestrator_class)
    (env : Env) (self : Orchestrator.t) :
  Orchestrator.tasks self <> [] ->
  Forall (fun t => agent_known self (TaskDependency.agent_id t) = false)
    (_get_ready_tasks self) ->
  forall rounds : nat, process_tasks rounds fuel cls env self = None.
Proof.
  intros Hne Hall.
  assert (Hit : exists ev,
             process_tasks_iteration fuel cls env self = Some (self, ev, Ok tt)).
  { unfold process_tasks_iteration.
    destruct (_get_ready_tasks self) as [| t l] eqn:Hready.
    - eexists. reflexivity.
    - destruct (process_ready_tasks_all_unknown fuel cls env self (t :: l) Hall)
        as [ev [Hev _]].
      exists ev. exact Hev. }
  destruct Hit as [ev Hit].
  induction rounds as [| rounds IH].
  - destruct (Orchestrator.tasks self) eqn:Ht; [contradiction |].
    simpl. rewrite Ht. reflexivity.
  - rewrite (process_tasks_step _ _ _ _ _ Hne), Hit, IH. reflexivity.
Qed.

Lemma process_tasks_never_returns_witness :
  process_tasks 50 1 (AgentOrchestrator default_helpers)
    env_always_transient state_orphan = None.
Proof.
  apply (process_tasks_never_returns 1 (AgentOrchestrator default_helpers)
           env_always_transient state_orphan).
  - discriminate.
  - constructor.
Defined.


(** X2. A feedback system built without a language model, as
    [AgentOrchestrator.__init__] builds it, never records a completion
    successfully: [record_task_completion] raises for every completion,
    and when the completion file could be written and the estimate is not
    zero the exception is the [AttributeError] of calling a method on
    [None]. *)
Theorem record_task_completion_without_llm (fs : FeedbackSystem.t)
    (c : TaskCompletion.t) :
  FeedbackSystem.llm fs = None ->
  is_raise (FeedbackSystem.record_task_completion fs c) = true
  /\ (FeedbackSystem.save_completion_file fs c = Ok tt ->
      ~ (TaskCompletion.estimated_duration c == 0)%Q ->
      FeedbackSystem.record_task_completion fs c
      = Raise (AttributeError "analyze_text")).
Proof.
  intros Hllm.
  unfold FeedbackSystem.record_task_completion,
    FeedbackSystem._save_completion_data, FeedbackSystem._analyze_completion,
    FeedbackSystem._analyze_patterns.
  rewrite Hllm. split.
  - destruct (FeedbackSystem.save_completion_file fs c); [| reflexivity].
    simpl. destruct (Qeq_bool _ 0); reflexivity.
  - intros Hsave Hnz. rewrite Hsave. simpl.
    destruct (Qeq_bool (TaskCompletion.estimated_duration c) 0) eqn:Hz;
      [| reflexivity].
    apply Qeq_bool_iff in Hz. contradiction.
Qed.

Lemma record_task_completion_without_llm_witness :
  is_raise (FeedbackSystem.record_task_completion feedback_of_init
              (completion_of_execute env_success task_A true "done")) = true.
Proof.
  apply (record_task_completion_without_llm feedback_of_init
           (completion_of_execute env_success task_A true "done")).
  reflexivity.
Defined.

Lemma process_ready_tasks_raise (fuel : nat) (cls : orchestrator_class)
    (env : Env) (self : Orchestrator.t) (skipped : list TaskDependency.t)
    (task : TaskDependency.t) (rest : list TaskDependency.t) :
  Forall (fun t => agent_known self (TaskDependency.agent_id t) = false) skipped ->
  agent_known self (TaskDependency.agent_id task) = true ->
  process_ready_tasks fuel cls env self (skipped ++ task :: rest)
  = Some (self,
          List.map
            (fun t => EvLogError ("Unknown agent: " ++ TaskDependency.agent_id t)%string)
            skipped,
          Raise (ValidationError "Task")).
Proof.
  intros Hskipped Hknown. induction Hskipped as [| t skipped Ht _ IH].
  - cbn [app process_ready_tasks].
    rewrite (process_ready_task_known _ _ _ _ _ Hknown). reflexivity.
  - cbn [app process_ready_tasks].
    rewrite (process_ready_task_unknown _ _ _ _ _ Ht), IH. reflexivity.
Qed.

(** X3. [process_tasks] stops at the first ready task of a registered
    agent: the ready tasks in front of it, of agents that are not
    registered, are skipped with an error in the log, then [Task(...)]
    raises in front of the [try] and the exception leaves
    [process_tasks]. The state is the one the call started from: the
    task is still in [self.tasks], nothing has entered
    [completed_tasks], and no agent was run. *)
Theorem process_tasks_stops_at_first_task (rounds fuel : nat)
    (cls : orchestrator_class) (env : Env) (self : Orchestrator.t)
    (skipped : list TaskDependency.t) (task : TaskDependency.t)
    (rest : list TaskDependency.t) :
  _get_ready_tasks self = skipped ++ task :: rest ->
  Forall (fun t => agent_known self (TaskDependency.agent_id t) = false) skipped ->
  agent_known self (TaskDependency.agent_id task) = true ->
  process_tasks (S rounds) fuel cls env self
  = Some (self,
          List.map
            (fun t => EvLogError ("Unknown agent: " ++ TaskDependency.agent_id t)%string)
            skipped,
          Raise (ValidationError "Task")).
Proof.
  intros Hready Hskipped Hknown.
  assert (Hne : Orchestrator.tasks self <> []).
  { intros Hnil. rewrite get_ready_tasks_filter, Hnil in Hready.
    exact (app_cons_not_nil _ _ _ Hready). }
  rewrite (process_tasks_step _ _ _ _ _ Hne).
  unfold process_tasks_iteration.
  destruct (_get_ready_tasks self) as [| t l] eqn:Hr;
    [exfalso; exact (app_cons_not_nil _ _ _ Hready) |].
  rewrite Hready.
  rewrite (process_ready_tasks_raise fuel cls env self skipped task rest
             Hskipped Hknown).
  reflexivity.
Qed.

Lemma process_tasks_stops_at_first_task_witness :
  process_tasks 3 1 (AgentOrchestrator default_helpers) env_always_transient
    state_ghost_then_A
  = Some (state_ghost_then_A, [EvLogError "Unknown agent: ghost"],
          Raise (ValidationError "Task")).
Proof.
  apply (process_tasks_stops_at_first_task 2 1 (AgentOrchestrator default_helpers)
           env_always_transient state_ghost_then_A [ghost_task] dep_A []).
  - reflexivity.
  - repeat constructor.
  - vm_compute. reflexivity.
Defined.

(** ** [execute_task] *)

Lemma check_dependencies_ok (self : Orchestrator.t) (deps : list string) :
  check_dependencies self deps = Ok tt
  <-> Forall
        (fun dep =>
           exists d, od_get dep (Orchestrator.tasks self) = Some d
                     /\ TaskDependency.status d = "completed")
        deps.
Proof.
  induction deps as [| dep deps IH]; simpl.
  - split; [constructor | reflexivity].
  - destruct (od_get dep (Orchestrator.tasks self)) as [d |] eqn:Hd.
    + destruct (String.eqb_spec (TaskDependency.status d) "completed") as [Hs | Hs].
      * rewrite IH. split.
        -- intros H. constructor; [exists d; auto | exact H].
        -- intros H. inversion H. assumption.
      * split; [discriminate |]. intros H. inversion H as [| ? ? [d' [Hd' Hs']] _].
        congruence.
    + split; [discriminate |]. intros H. inversion H as [| ? ? [d' [Hd' _]] _].
      congruence.
Qed.

Lemma check_dependencies_value_error (self : Orchestrator.t)
    (deps : list string) :
  check_dependencies self deps = Ok tt
  \/ exists msg, check_dependencies self deps = Raise (ValueError msg).
Proof.
  induction deps as [| dep deps IH]; simpl; [left; reflexivity |].
  destruct (od_get dep (Orchestrator.tasks self)) as [d |]; [| right; eauto].
  destruct (String.eqb (TaskDependency.status d) "completed");
    [exact IH | right; eauto].
Qed.

(** X4. [execute_task] runs the agent only for a task of [self.tasks]
    whose every dependency is itself in [self.tasks] with status
    "completed"; otherwise it raises [ValueError] and changes nothing. A
    dependency that [process_tasks] has moved to [completed_tasks] counts
    as not found. *)
Theorem execute_task_requires_dependencies (env : Env)
    (self : Orchestrator.t) (task_id : string) :
  ~ executable self task_id ->
  exists msg,
    execute_task env self task_id = (self, [], Raise (ValueError msg)).
Proof.
  intros Hnot. unfold execute_task.
  destruct (od_get task_id (Orchestrator.tasks self)) as [task |] eqn:Htask;
    [| eauto].
  destruct (check_dependencies_value_error self (TaskDependency.depends_on task))
    as [Hok | [msg Hraise]].
  - exfalso. apply Hnot. exists task. split; [exact Htask |].
    apply check_dependencies_ok, Hok.
  - rewrite Hraise. eauto.
Qed.

Lemma execute_task_requires_dependencies_witness :
  exists msg,
    execute_task env_working state_A_done "B"
    = (state_A_done, [], Raise (ValueError msg)).
Proof.
  apply (execute_task_requires_dependencies env_working state_A_done "B").
  intros [task [Htask Hdeps]].
  injection Htask as <-.
  inversion Hdeps as [| ? ? [d [Hd _]] _]. discriminate Hd.
Defined.

Lemma touch_touch (k : string) (t1 t2 : TaskDependency.t)
    (ts : odict TaskDependency.t) :
  touch k t2 (touch k t1 ts) = touch k t2 ts.
Proof.
  unfold touch. destruct (od_mem k ts) eqn:Hmem; [| rewrite Hmem; reflexivity].
  rewrite od_mem_set. clear Hmem.
  induction ts as [| [k' v'] ts IH]; simpl.
  - rewrite String.eqb_refl. reflexivity.
  - destruct (String.eqb_spec k' k) as [-> | Hne]; simpl.
    + rewrite String.eqb_refl. reflexivity.
    + destruct (String.eqb_spec k' k); [contradiction |]. rewrite IH. reflexivity.
Qed.

Lemma touch_values (k : string) (t x : TaskDependency.t)
    (ts : odict TaskDependency.t) :
  In x (od_values (touch k t ts)) -> x = t \/ In x (od_values ts).
Proof.
  unfold touch. destruct (od_mem k ts); [| auto].
  induction ts as [| [k' v'] ts IH]; simpl.
  - intros [<- | []]. left. reflexivity.
  - destruct (String.eqb k' k); simpl.
    + intros [<- | H]; auto.
    + intros [<- | H]; [auto |]. destruct (IH H); auto.
Qed.

Lemma write_back_false_tasks (t : TaskDependency.t) (self : Orchestrator.t) :
  Orchestrator.tasks (write_back false t self)
  = touch (TaskDependency.task_id t) t (Orchestrator.tasks self)
  /\ Orchestrator.completed_tasks (write_back false t self)
     = Orchestrator.completed_tasks self
  /\ Orchestrator.agents (write_back false t self) = Orchestrator.agents self
  /\ Orchestrator.milestones (write_back false t self)
     = Orchestrator.milestones self.
Proof.
  unfold write_back, touch.
  destruct (od_mem _ _); repeat split; reflexivity.
Qed.

Lemma update_milestone_progress_frame (env : Env) (self : Orchestrator.t)
    (milestone_id : string) :
  Orchestrator.tasks (fst (fst (_update_milestone_progress env self milestone_id)))
  = Orchestrator.tasks self
  /\ Orchestrator.completed_tasks
       (fst (fst (_update_milestone_progress env self milestone_id)))
     = Orchestrator.completed_tasks self
  /\ Orchestrator.agents (fst (fst (_update_milestone_progress env self milestone_id)))
     = Orchestrator.agents self.
Proof.
  unfold _update_milestone_progress.
  destruct (Orchestrator.milestones self !! milestone_id) as [m |]; [| auto].
  destruct (count_completed _); [| auto].
  destruct (fromisoformat _); [| auto]. simpl.
  destruct (Qltb _ 50 && _).
  - destruct (_handle_milestone_delay _ _ _ _) as [[m1 ev1] [[] | e1]]; [| auto].
    destruct (write_milestones env "_update_milestone_progress"); auto.
  - destruct (write_milestones env "_update_milestone_progress"); auto.
Qed.

(** The [except] branch of [execute_task]: the task object gets status
    "failed" and its end time, the call raises, and the only event is
    the completion handed to the feedback system. *)
Lemma execute_task_except_shape (env : Env) (s : Orchestrator.t)
    (t : TaskDependency.t) (e : exn) :
  exists ev e',
    execute_task_except env s t e
    = (write_back false
         (TaskDependency.set_end_time (now env)
            (TaskDependency.set_status "failed" t)) s,
       ev, Raise e')
    /\ attempts_in ev = 0%nat.
Proof.
  unfold execute_task_except.
  destruct (TaskCompletion.init _) as [c | e1];
    [| eexists _, _; split; reflexivity].
  destruct (FeedbackSystem.record_task_completion _ _);
    eexists _, _; split; reflexivity.
Qed.

(** Every call of [execute_task] raises, and none runs an agent. *)
Lemma execute_task_raises (env : Env) (self : Orchestrator.t)
    (task_id : string) :
  exists self' ev e,
    execute_task env self task_id = (self', ev, Raise e)
    /\ attempts_in ev = 0%nat.
Proof.
  unfold execute_task.
  destruct (od_get task_id (Orchestrator.tasks self)) as [task |];
    [| eexists _, _, _; split; reflexivity].
  destruct (check_dependencies self _) as [[] | e];
    [| eexists _, _, _; split; reflexivity].
  destruct (agent_known self _); cbn [negb];
    [| eexists _, _, _; split; reflexivity].
  rewrite task_init_raises. cbv zeta.
  destruct (execute_task_except_shape env
              (write_back false
                 (TaskDependency.set_status "running"
                    (TaskDependency.set_start_time (now env) task)) self)
              (TaskDependency.set_status "running"
                 (TaskDependency.set_start_time (now env) task))
              (ValidationError "Task")) as (ev & e' & Heq & Hev).
  rewrite Heq. eexists _, _, _. split; [reflexivity | exact Hev].
Qed.

(** The state that [execute_task] leaves behind: only the entry of the
    task can differ, and if the entry was written its status is
    "completed" or "failed". *)
Lemma execute_task_shape (env : Env) (self : Orchestrator.t) (task_id : string) :
  let self' := fst (fst (execute_task env self task_id)) in
  Orchestrator.completed_tasks self' = Orchestrator.completed_tasks self
  /\ Orchestrator.agents self' = Orchestrator.agents self
  /\ (Orchestrator.tasks self' = Orchestrator.tasks self
      \/ exists t',
           Orchestrator.tasks self'
           = touch (TaskDependency.task_id t') t' (Orchestrator.tasks self)
           /\ (TaskDependency.status t' = "completed"
               \/ TaskDependency.status t' = "failed")).
Proof.
  unfold execute_task.
  cbv zeta.
  destruct (od_get task_id (Orchestrator.tasks self)) as [task |]; [| cbn [fst]; auto].
  destruct (check_dependencies self _) as [[] | e]; [| cbn [fst]; auto].
  destruct (agent_known self _); [| cbn [fst negb]; auto]. cbn [negb].
  rewrite task_init_raises.
  set (t1 := TaskDependency.set_status "running" _).
  destruct (execute_task_except_shape env (write_back false t1 self) t1
              (ValidationError "Task")) as (ev & e' & Heq & _).
  rewrite Heq. cbn [fst].
  set (tf := TaskDependency.set_end_time _ _).
  pose proof (write_back_false_tasks t1 self) as (Ht1 & Hc1 & Ha1 & _).
  pose proof (write_back_false_tasks tf (write_back false t1 self))
    as (Htf & Hcf & Haf & _).
  split; [congruence |]. split; [congruence |]. right. exists tf.
  split; [| right; reflexivity].
  rewrite Htf, Ht1. apply touch_touch.
Qed.

(** X5. [execute_task] never writes [completed_tasks] and never removes
    a task from [self.tasks]; a task it has run is left in [self.tasks]
    with status "completed" or "failed". So no task becomes ready for
    [process_tasks] through [execute_task]: every task that
    [_get_ready_tasks] returns afterwards was already returned before. *)
Theorem execute_task_makes_nothing_ready (env : Env) (self : Orchestrator.t)
    (task_id : string) (task : TaskDependency.t) :
  In task (_get_ready_tasks (fst (fst (execute_task env self task_id)))) ->
  In task (_get_ready_tasks self)
  /\ Orchestrator.completed_tasks (fst (fst (execute_task env self task_id)))
     = Orchestrator.completed_tasks self.
Proof.
  pose proof (execute_task_shape env self task_id) as (Hc & _ & Hts).
  cbv zeta in Hc, Hts. intros Hin. split; [| exact Hc].
  apply ready_task_is_ready in Hin as [Hin Hready].
  rewrite get_ready_tasks_filter. apply filter_In.
  assert (Hr : is_ready self task = true)
    by (unfold is_ready in *; rewrite <- Hc; exact Hready).
  split; [| exact Hr].
  destruct Hts as [Hts | [t' [Hts Hst]]]; [rewrite <- Hts; exact Hin |].
  rewrite Hts in Hin. apply touch_values in Hin as [-> | Hin]; [| exact Hin].
  unfold is_ready in Hr. apply andb_prop in Hr as [Hp _].
  apply String.eqb_eq in Hp. destruct Hst as [Hst | Hst]; congruence.
Qed.

Lemma execute_task_makes_nothing_ready_witness :
  In dep_A (_get_ready_tasks state_two).
Proof.
  apply (execute_task_makes_nothing_ready env_working state_two "E" dep_A).
  vm_compute. left. reflexivity.
Defined.

Lemma key_is_task_id (self : Orchestrator.t) (task_id : string)
    (task : TaskDependency.t) :
  keys_are_task_ids self ->
  od_get task_id (Orchestrator.tasks self) = Some task ->
  TaskDependency.task_id task = task_id.
Proof.
  unfold keys_are_task_ids, od_get. intros Hkeys.
  induction Hkeys as [| [k v] ts Hk _ IH]; simpl; [discriminate |].
  destruct (String.eqb_spec k task_id) as [<- | _]; simpl.
  - intros [= <-]. symmetry. exact Hk.
  - exact IH.
Qed.

Lemma od_get_touch (k : string) (t : TaskDependency.t)
    (ts : odict TaskDependency.t) :
  od_mem k ts = true -> od_get k (touch k t ts) = Some t.
Proof. unfold touch. intros ->. apply od_get_set_eq. Qed.

(** X6. Once the checks of [execute_task] have passed (the task and its
    dependencies are in [self.tasks], the dependencies "completed", the
    agent registered), the call marks the task as failed without running
    the agent: [Task(...)] raises inside the [try], the [except] branch
    sets status "failed" and the end time on the started task, hands one
    failed completion to the feedback system and raises (the exception
    of [Task(...)], or the feedback system's when recording raises). The
    task stays in [self.tasks]. *)
Theorem execute_task_marks_failed (env : Env) (self : Orchestrator.t)
    (task_id : string) (task : TaskDependency.t) :
  keys_are_task_ids self ->
  od_get task_id (Orchestrator.tasks self) = Some task ->
  check_dependencies self (TaskDependency.depends_on task) = Ok tt ->
  agent_known self (TaskDependency.agent_id task) = true ->
  exists self' completion e' task',
    execute_task env self task_id = (self', [EvRecord completion], Raise e')
    /\ od_get task_id (Orchestrator.tasks self') = Some task'
    /\ TaskDependency.status task' = "failed"
    /\ TaskDependency.start_time task' = Some (now env)
    /\ TaskDependency.end_time task' = Some (now env)
    /\ TaskDependency.result task' = TaskDependency.result task
    /\ TaskDependency.depends_on task' = TaskDependency.depends_on task
    /\ TaskCompletion.task_id completion = task_id
    /\ TaskCompletion.success completion = false
    /\ Orchestrator.completed_tasks self' = Orchestrator.completed_tasks self
    /\ (FeedbackSystem.record_task_completion (feedback_system env) completion
        = Raise e'
        \/ (is_raise (FeedbackSystem.record_task_completion
                        (feedback_system env) completion) = false
            /\ e' = ValidationError "Task")).
Proof.
  intros Hkeys Hget Hdeps Hknown.
  pose proof (key_is_task_id self task_id task Hkeys Hget) as Hid.
  assert (Hmem : od_mem task_id (Orchestrator.tasks self) = true)
    by (unfold od_mem; rewrite Hget; reflexivity).
  rewrite (execute_task_started env self task_id task Hget Hdeps Hknown).
  unfold execute_task_except. fold (failed_by_execute env task).
  set (s1 := write_back false (started_by_execute env task) self).
  pose proof (write_back_false_tasks (started_by_execute env task) self)
    as (Ht1 & Hc1 & _).
  pose proof (write_back_false_tasks (failed_by_execute env task) s1)
    as (Ht2 & Hc2 & _).
  fold s1 in Ht1, Hc1.
  assert (Hfinal : od_get task_id
                     (Orchestrator.tasks
                        (write_back false (failed_by_execute env task) s1))
                   = Some (failed_by_execute env task)).
  { rewrite Ht2, Ht1.
    change (TaskDependency.task_id (failed_by_execute env task))
      with (TaskDependency.task_id task).
    change (TaskDependency.task_id (started_by_execute env task))
      with (TaskDependency.task_id task).
    rewrite touch_touch, Hid. apply od_get_touch, Hmem. }
  cbn [TaskCompletion.init completion_of_execute TaskCompletion.start_time
       failed_by_execute started_by_execute TaskDependency.start_time
       TaskDependency.set_end_time TaskDependency.set_status
       TaskDependency.set_start_time].
  fold (started_by_execute env task). fold (failed_by_execute env task).
  match goal with
  | |- context [FeedbackSystem.record_task_completion _ ?c] =>
      set (completion := c)
  end.
  destruct (FeedbackSystem.record_task_completion (feedback_system env)
              completion) as [a | e'] eqn:Hrec.
  - exists (write_back false (failed_by_execute env task) s1), completion,
      (ValidationError "Task"), (failed_by_execute env task).
    split; [reflexivity |]. split; [exact Hfinal |].
    do 5 (split; [reflexivity |]). split; [exact Hid |].
    split; [reflexivity |]. split; [congruence |].
    right. rewrite Hrec. split; reflexivity.
  - exists (write_back false (failed_by_execute env task) s1), completion, e',
      (failed_by_execute env task).
    split; [reflexivity |]. split; [exact Hfinal |].
    do 5 (split; [reflexivity |]). split; [exact Hid |].
    split; [reflexivity |]. split; [congruence |].
    left. exact Hrec.
Qed.

Lemma execute_task_marks_failed_witness :
  exists self' completion e' task',
    execute_task env_failing_agent state_estimated "E"
    = (self', [EvRecord completion], Raise e')
    /\ od_get "E" (Orchestrator.tasks self') = Some task'
    /\ TaskDependency.status task' = "failed"
    /\ TaskDependency.start_time task' = Some 200
    /\ TaskDependency.end_time task' = Some 200
    /\ TaskDependency.result task' = None
    /\ TaskDependency.depends_on task' = []
    /\ TaskCompletion.task_id completion = "E"
    /\ TaskCompletion.success completion = false
    /\ Orchestrator.completed_tasks self'
       = Orchestrator.completed_tasks state_estimated
    /\ (FeedbackSystem.record_task_completion
          (feedback_system env_failing_agent) completion = Raise e'
        \/ (is_raise (FeedbackSystem.record_task_completion
                        (feedback_system env_failing_agent) completion) = false
            /\ e' = ValidationError "Task")).
Proof.
  apply (execute_task_marks_failed env_failing_agent state_estimated "E"
           estimated_task).
  - repeat constructor.
  - reflexivity.
  - reflexivity.
  - vm_compute. reflexivity.
Defined.

(** X7. [execute_task] never returns a result and never runs an agent:
    every call raises. It raises [ValueError] and changes nothing when
    the task or a dependency is missing or a dependency is not
    "completed", [KeyError] and changes nothing when the checks pass but
    the agent is not registered, and otherwise whatever the [except]
    branch raises after [Task(...)] has failed. [completed_tasks] and
    the agent registry are never changed. *)
Theorem execute_task_never_returns (env : Env) (self : Orchestrator.t)
    (task_id : string) :
  exists self' ev e,
    execute_task env self task_id = (self', ev, Raise e)
    /\ attempts_in ev = 0%nat
    /\ Orchestrator.completed_tasks self' = Orchestrator.completed_tasks self
    /\ Orchestrator.agents self' = Orchestrator.agents self
    /\ (forall task,
          od_get task_id (Orchestrator.tasks self) = Some task ->
          check_dependencies self (TaskDependency.depends_on task) = Ok tt ->
          agent_known self (TaskDependency.agent_id task) = false ->
          self' = self /\ ev = []
          /\ e = KeyError (TaskDependency.agent_id task)).
Proof.
  destruct (execute_task_raises env self task_id) as (self' & ev & e & Heq & Hev).
  pose proof (execute_task_shape env self task_id) as (Hc & Ha & _).
  cbv zeta in Hc, Ha. rewrite Heq in Hc, Ha. cbn [fst] in Hc, Ha.
  exists self', ev, e. split; [exact Heq |]. split; [exact Hev |].
  split; [exact Hc |]. split; [exact Ha |].
  intros task Hget Hdeps Hknown. unfold execute_task in Heq.
  rewrite Hget, Hdeps, Hknown in Heq. cbn [negb] in Heq.
  injection Heq as <- <- <-. repeat split.
Qed.

Lemma execute_task_never_returns_witness :
  execute_task env_working state_ghost "t1"
  = (state_ghost, [], Raise (KeyError "ghost")).
Proof.
  destruct (execute_task_never_returns env_working state_ghost "t1")
    as (self' & ev & e & Heq & _ & _ & _ & Hkey).
  destruct (Hkey ghost_task) as (-> & -> & ->).
  - reflexivity.
  - reflexivity.
  - vm_compute. reflexivity.
  - exact Heq.
Defined.

(** ** Adding tasks: [_handle_pm_task_results], [add_task],
       [request_agent_task] *)

Lemma add_reverse_keeps (new_id : string) (r : gmap string (gset string))
    (dep dep' x : string) :
  x ∈ default (∅ : gset string) (r !! dep') ->
  x ∈ default (∅ : gset string) (add_reverse new_id r dep !! dep').
Proof.
  unfold add_reverse. intros Hx.
  destruct (decide (dep = dep')) as [-> | Hne].
  - rewrite lookup_insert_eq. simpl. set_solver.
  - rewrite lookup_insert_ne by exact Hne. exact Hx.
Qed.

Lemma fold_add_reverse_keeps (new_id : string) (deps : list string) :
  forall (r : gmap string (gset string)) (dep' x : string),
    x ∈ default (∅ : gset string) (r !! dep') ->
    x ∈ default (∅ : gset string) (fold_left (add_reverse new_id) deps r !! dep').
Proof.
  induction deps as [| d deps IH]; intros r dep' x Hx; simpl; [exact Hx |].
  apply IH, add_reverse_keeps, Hx.
Qed.

Lemma fold_add_reverse_adds (new_id : string) (deps : list string) :
  forall (r : gmap string (gset string)) (dep : string),
    In dep deps ->
    new_id ∈ default (∅ : gset string)
               (fold_left (add_reverse new_id) deps r !! dep).
Proof.
  induction deps as [| d deps IH]; intros r dep Hin; simpl; [contradiction |].
  destruct Hin as [-> | Hin].
  - apply fold_add_reverse_keeps. unfold add_reverse.
    rewrite lookup_insert_eq. simpl. set_solver.
  - apply IH, Hin.
Qed.

Lemma add_new_task_fields (self : Orchestrator.t) (n : new_task_dict) :
  Orchestrator.tasks (add_new_task self n)
  = od_set (nt_task_id n) (task_of_new n) (Orchestrator.tasks self)
  /\ Orchestrator.reverse_dependencies (add_new_task self n)
     = fold_left (add_reverse (nt_task_id n)) (nt_depends_on n)
         (Orchestrator.reverse_dependencies self)
  /\ Orchestrator.completed_tasks (add_new_task self n)
     = Orchestrator.completed_tasks self
  /\ Orchestrator.agents (add_new_task self n) = Orchestrator.agents self.
Proof. repeat split; reflexivity. Qed.

Lemma handle_pm_keeps_dependent (news : list new_task_dict) :
  forall (self : Orchestrator.t) (dep x : string),
    is_dependent self dep x ->
    is_dependent (fold_left add_new_task news self) dep x.
Proof.
  induction news as [| n news IH]; intros self dep x Hx; simpl; [exact Hx |].
  apply IH. unfold is_dependent.
  destruct (add_new_task_fields self n) as (_ & -> & _).
  apply fold_add_reverse_keeps, Hx.
Qed.

(** X8. [_handle_pm_task_results] adds every task of the result: with
    distinct ids in the list, each new task is afterwards in [self.tasks]
    as a pending task with the given agent, dependencies and metadata
    (replacing any task that had its id), every dependency lists it in
    [reverse_dependencies], the entries of all other ids are as before,
    and [completed_tasks] is untouched. *)
Theorem handle_pm_task_results_adds (self : Orchestrator.t)
    (result : result_dict) :
  List.NoDup (List.map nt_task_id (r_new_tasks result)) ->
  let self' := _handle_pm_task_results self result in
  (forall n, In n (r_new_tasks result) ->
     od_get (nt_task_id n) (Orchestrator.tasks self') = Some (task_of_new n)
     /\ TaskDependency.status (task_of_new n) = "pending"
     /\ forall dep, In dep (nt_depends_on n) ->
          is_dependent self' dep (nt_task_id n))
  /\ (forall k, ~ In k (List.map nt_task_id (r_new_tasks result)) ->
        od_get k (Orchestrator.tasks self') = od_get k (Orchestrator.tasks self))
  /\ Orchestrator.completed_tasks self' = Orchestrator.completed_tasks self.
Proof.
  unfold _handle_pm_task_results.
  generalize (r_new_tasks result) as news. intros news. revert self.
  induction news as [| n news IH]; intros self Hnd; simpl.
  - split; [intros n [] |]. split; reflexivity.
  - inversion Hnd as [| ? ? Hnotin Hnd']. subst.
    destruct (IH (add_new_task self n) Hnd') as (Hnew & Hold & Hc).
    destruct (add_new_task_fields self n) as (Hts & Hrev & Hcs & _).
    split; [| split].
    + intros m [<- | Hm].
      * split; [| split; [reflexivity |]].
        -- rewrite (Hold _ Hnotin), Hts. apply od_get_set_eq.
        -- intros dep Hdep. apply handle_pm_keeps_dependent.
           unfold is_dependent. rewrite Hrev.
           apply fold_add_reverse_adds, Hdep.
      * apply Hnew, Hm.
    + intros k Hk. rewrite Hold by (intros Hin; apply Hk; right; exact Hin).
      rewrite Hts. apply od_get_set_ne. intros Heq. apply Hk. left. exact Heq.
    + rewrite Hc. exact Hcs.
Qed.

Lemma handle_pm_task_results_adds_witness :
  od_get "C"
    (Orchestrator.tasks (_handle_pm_task_results state_AB (pm_result [new_task_C])))
  = Some (task_of_new new_task_C)
  /\ TaskDependency.status (task_of_new new_task_C) = "pending"
  /\ forall dep, In dep (nt_depends_on new_task_C) ->
       is_dependent (_handle_pm_task_results state_AB (pm_result [new_task_C]))
         dep "C".
Proof.
  assert (Hnd : List.NoDup (List.map nt_task_id (r_new_tasks (pm_result [new_task_C]))))
    by (repeat constructor; intros []).
  destruct (handle_pm_task_results_adds state_AB (pm_result [new_task_C]) Hnd)
    as (Hnew & _).
  apply (Hnew new_task_C). left. reflexivity.
Defined.

(** X9. [add_task] stores the task, pending, under its id and records
    its dependency set before it walks the dependencies. With a list of
    dependencies it returns and every dependency lists the task in
    [reverse_dependencies]; without one ([dependencies=None]) it raises
    [TypeError] after the task has been stored. *)
Theorem add_task_stores_task (self : Orchestrator.t)
    (task_id agent_id task_type description : string)
    (dependencies : option (list string)) (md : option metadata_t) :
  let '(self', r) :=
    add_task self task_id agent_id task_type description dependencies md in
  od_get task_id (Orchestrator.tasks self')
  = Some (TaskDependency.init task_id agent_id description
            (default [] dependencies) (default empty_metadata md))
  /\ Orchestrator.task_dependencies self' !! task_id
     = Some (list_to_set (default [] dependencies))
  /\ (forall k, k <> task_id ->
        od_get k (Orchestrator.tasks self') = od_get k (Orchestrator.tasks self))
  /\ match dependencies with
     | None => r = Raise (TypeError "'NoneType' object is not iterable")
     | Some deps =>
         r = Ok tt /\ forall dep, In dep deps -> is_dependent self' dep task_id
     end.
Proof.
  unfold add_task. destruct dependencies as [deps |]; simpl.
  - split; [apply od_get_set_eq |]. split; [apply lookup_insert_eq |].
    split; [intros k Hk; apply od_get_set_ne; congruence |].
    split; [reflexivity |]. intros dep Hdep. unfold is_dependent. simpl.
    apply fold_add_reverse_adds, Hdep.
  - split; [apply od_get_set_eq |]. split; [apply lookup_insert_eq |].
    split; [intros k Hk; apply od_get_set_ne; congruence | reflexivity].
Qed.

(** X10. [request_agent_task] never returns the "requested" dictionary:
    for an unknown target agent it raises [AgentError] and changes
    nothing; for a registered one it calls [add_task] without
    dependencies, so the new task is stored, pending, under its "inter-"
    id and the call ends with [TypeError]. *)
Theorem request_agent_task_never_returns (self : Orchestrator.t)
    (requesting_agent_id target_agent_id task_type description : string)
    (md : option metadata_t) :
  let '(self', r) :=
    request_agent_task self requesting_agent_id target_agent_id task_type
      description md in
  (forall id target, r <> Requested id target)
  /\ (agent_known self target_agent_id = false ->
      r = UnknownTargetAgent target_agent_id /\ self' = self)
  /\ (agent_known self target_agent_id = true ->
      r = RequestRaised (TypeError "'NoneType' object is not iterable")
      /\ od_get (inter_task_id self requesting_agent_id target_agent_id)
           (Orchestrator.tasks self')
         = Some (TaskDependency.init
                   (inter_task_id self requesting_agent_id target_agent_id)
                   target_agent_id description [] (default empty_metadata md))).
Proof.
  unfold request_agent_task.
  destruct (agent_known self target_agent_id); simpl.
  - split; [discriminate |]. split; [discriminate |]. intros _.
    split; [reflexivity | apply od_get_set_eq].
  - split; [discriminate |]. split; [auto | discriminate].
Qed.

Lemma add_task_stores_task_witness :
  od_get "D"
    (Orchestrator.tasks
       (fst (add_task state_AB "D" "backend" "build" "task D" (Some ["A"]) None)))
  = Some (TaskDependency.init "D" "backend" "task D" ["A"] empty_metadata).
Proof.
  pose proof (add_task_stores_task state_AB "D" "backend" "build" "task D"
                (Some ["A"]) None) as H.
  destruct (add_task state_AB "D" "backend" "build" "task D" (Some ["A"]) None)
    as [self' r].
  apply H.
Defined.

Lemma request_agent_task_never_returns_witness :
  snd (request_agent_task state_AB "frontend" "backend" "build" "an endpoint" None)
  = RequestRaised (TypeError "'NoneType' object is not iterable").
Proof.
  pose proof (request_agent_task_never_returns state_AB "frontend" "backend"
                "build" "an endpoint" None) as H.
  destruct (request_agent_task state_AB "frontend" "backend" "build"
              "an endpoint" None) as [self' r].
  destruct H as (_ & _ & H). apply H. vm_compute. reflexivity.
Defined.

(** ** [create_task] and [get_task_status] *)

Lemma count_completed_incomplete (l : list milestone_task) :
  Forall incomplete_entry l -> count_completed l = Ok 0.
Proof.
  induction 1 as [| x l Hx _ IH]; [reflexivity |].
  simpl. destruct x as [id | id d c]; [contradiction |].
  simpl in Hx. subst c. simpl. rewrite IH. reflexivity.
Qed.

(** X11. [create_task] raises [ValueError] and changes nothing when the
    agent is not registered. Otherwise the task is stored, pending, in
    [self.tasks], so that [get_task_status] returns it, whether or not
    the milestone update that may follow raises. *)
Theorem create_task_then_status (env : Env) (self : Orchestrator.t)
    (task_id agent_id description : string)
    (depends_on : option (list string)) (md : option metadata_t) :
  (agent_known self agent_id = false ->
   exists msg,
     create_task env self task_id agent_id description depends_on md
     = (self, [], Raise (ValueError msg)))
  /\ (agent_known self agent_id = true ->
      get_task_status
        (fst (fst (create_task env self task_id agent_id description
                     depends_on md))) task_id
      = Ok (TaskDependency.init task_id agent_id description
              (default [] depends_on) (default empty_metadata md))).
Proof.
  split; intros Hknown; unfold create_task; rewrite Hknown; cbn [negb].
  - eauto.
  - set (task := TaskDependency.init _ _ _ _ _).
    set (s1 := Orchestrator.set_tasks _ self).
    assert (Hs1 : get_task_status s1 task_id = Ok task)
      by (unfold get_task_status, s1; simpl; rewrite od_get_set_eq; reflexivity).
    destruct (md_milestone_id _) as [mid |]; [| exact Hs1].
    destruct (truthy_str _); [| exact Hs1].
    destruct (Orchestrator.milestones s1 !! mid) as [m |]; [| exact Hs1].
    set (s2 := store_milestone mid _ s1).
    pose proof (update_milestone_progress_frame env s2 mid) as (Hts & _).
    destruct (_update_milestone_progress env s2 mid) as [[s3 ev] [[] | e]];
      cbn [fst] in *; unfold get_task_status in *; rewrite Hts; exact Hs1.
Qed.

Lemma create_task_then_status_witness :
  get_task_status
    (fst (fst (create_task env_working state_AB "D" "backend" "task D" None None)))
    "D"
  = Ok (TaskDependency.init "D" "backend" "task D" [] empty_metadata).
Proof.
  apply (create_task_then_status env_working state_AB "D" "backend" "task D"
           None None).
  vm_compute. reflexivity.
Defined.

Lemma progress_percent_zero (total : Z) : (progress_percent 0 total == 0)%Q.
Proof.
  unfold progress_percent. destruct (0 <? total); [| reflexivity].
  unfold Qdiv. change (inject_Z 0) with 0%Q. ring.
Qed.

Lemma status_from_progress_zero (env : Env) (p : Q) (m : MilestoneStatus.t) :
  (p == 0)%Q ->
  MilestoneStatus.status (status_from_progress env p m) = "pending"
  /\ MilestoneStatus.tasks (status_from_progress env p m) = MilestoneStatus.tasks m
  /\ MilestoneStatus.progress (status_from_progress env p m) = p.
Proof.
  intros Hp. unfold status_from_progress.
  destruct (Qeq_bool p 100) eqn:H100.
  - apply Qeq_bool_iff in H100. rewrite Hp in H100. discriminate H100.
  - unfold Qltb. destruct (Qlt_le_dec 0 p) as [Hlt | _].
    + rewrite Hp in Hlt. discriminate Hlt.
    + repeat split; reflexivity.
Qed.

Lemma update_milestone_progress_zero (env : Env) (self : Orchestrator.t)
    (milestone_id : string) (m : MilestoneStatus.t) :
  Orchestrator.milestones self !! milestone_id = Some m ->
  count_completed (MilestoneStatus.tasks m) = Ok 0 ->
  snd (_update_milestone_progress env self milestone_id) = Ok tt ->
  exists m',
    Orchestrator.milestones
      (fst (fst (_update_milestone_progress env self milestone_id)))
      !! milestone_id = Some m'
    /\ MilestoneStatus.tasks m' = MilestoneStatus.tasks m
    /\ MilestoneStatus.status m' = "pending"
    /\ (MilestoneStatus.progress m' == 0)%Q.
Proof.
  intros Hm Hcount. unfold _update_milestone_progress. rewrite Hm, Hcount.
  destruct (fromisoformat _) as [t | e]; [| discriminate].
  set (p := progress_percent 0 _).
  assert (Hp : (p == 0)%Q) by apply progress_percent_zero.
  cbv zeta.
  destruct (Qltb p 50 && (t <? now env)).
  - unfold _handle_milestone_delay.
    destruct (write_milestones env "_handle_milestone_delay") as [[] | e1];
      [| discriminate].
    destruct (status_from_progress_zero env p
                (MilestoneStatus.set_status "delayed" m) Hp) as (Hs & Ht & Hpr).
    destruct (write_milestones env "_update_milestone_progress");
      [| discriminate].
    intros _. cbn [fst]. eexists. split; [apply lookup_store_milestone |].
    split; [exact Ht |]. split; [exact Hs |]. rewrite Hpr. exact Hp.
  - destruct (status_from_progress_zero env p m Hp) as (Hs & Ht & Hpr).
    destruct (write_milestones env "_update_milestone_progress");
      [| discriminate].
    intros _. cbn [fst]. eexists. split; [apply lookup_store_milestone |].
    split; [exact Ht |]. split; [exact Hs |]. rewrite Hpr. exact Hp.
Qed.

(** X12. A milestone that has only received its tasks through
    [create_task] (every entry carries "completed": False) makes no
    progress: a [create_task] for it that returns has appended one more
    incomplete entry and left the milestone with progress 0 and status
    "pending". *)
Theorem create_task_milestone_stays_pending (env : Env)
    (self : Orchestrator.t) (task_id agent_id description milestone_id : string)
    (depends_on : option (list string)) (md : metadata_t)
    (m : MilestoneStatus.t) (task : TaskDependency.t)
    (self' : Orchestrator.t) (ev : list event) :
  agent_known self agent_id = true ->
  md_milestone_id md = Some milestone_id ->
  milestone_id <> "" ->
  Orchestrator.milestones self !! milestone_id = Some m ->
  Forall incomplete_entry (MilestoneStatus.tasks m) ->
  create_task env self task_id agent_id description depends_on (Some md)
  = (self', ev, Ok task) ->
  exists m',
    Orchestrator.milestones self' !! milestone_id = Some m'
    /\ MilestoneStatus.tasks m'
       = MilestoneStatus.tasks m ++ [MTaskDict task_id description false]
    /\ MilestoneStatus.status m' = "pending"
    /\ (MilestoneStatus.progress m' == 0)%Q.
Proof.
  intros Hknown Hmd Hne Hm Hall Hcreate.
  unfold create_task in Hcreate. rewrite Hknown in Hcreate.
  cbn [negb] in Hcreate.
  change (default empty_metadata (Some md)) with md in Hcreate.
  rewrite Hmd in Hcreate.
  assert (Htruthy : truthy_str (Some milestone_id) = true).
  { simpl. destruct (String.eqb_spec milestone_id ""); [contradiction | reflexivity]. }
  rewrite Htruthy in Hcreate. simpl Orchestrator.milestones in Hcreate.
  rewrite Hm in Hcreate.
  set (m1 := milestone_append_task task_id description m) in *.
  set (s1 := store_milestone milestone_id m1 _) in *.
  assert (Hall1 : Forall incomplete_entry (MilestoneStatus.tasks m1)).
  { unfold m1. simpl. apply Forall_app. split; [exact Hall |].
    constructor; [reflexivity | constructor]. }
  pose proof (update_milestone_progress_zero env s1 milestone_id m1
                (lookup_store_milestone _ _ _)
                (count_completed_incomplete _ Hall1)) as Hupd.
  destruct (_update_milestone_progress env s1 milestone_id)
    as [[s2 ev2] [[] | e]]; [| discriminate Hcreate].
  injection Hcreate as <- _ _.
  apply Hupd. reflexivity.
Qed.

Lemma create_task_milestone_stays_pending_witness :
  exists m',
    Orchestrator.milestones
      (fst (fst (create_task env_working state_m2 "t2" "backend" "second"
                   None (Some (md_with_milestone "m2"))))) !! "m2" = Some m'
    /\ MilestoneStatus.tasks m'
       = MilestoneStatus.tasks milestone_m2 ++ [MTaskDict "t2" "second" false]
    /\ MilestoneStatus.status m' = "pending"
    /\ (MilestoneStatus.progress m' == 0)%Q.
Proof.
  destruct (create_task env_working state_m2 "t2" "backend" "second" None
              (Some (md_with_milestone "m2"))) as [[self' ev] r] eqn:Hc.
  assert (Hr : exists t, r = Ok t)
    by (apply (f_equal snd) in Hc; vm_compute in Hc; subst r; eauto).
  destruct Hr as [t ->].
  apply (create_task_milestone_stays_pending env_working state_m2 "t2" "backend"
           "second" "m2" None (md_with_milestone "m2") milestone_m2 t self' ev).
  - vm_compute. reflexivity.
  - reflexivity.
  - discriminate.
  - reflexivity.
  - repeat constructor.
  - exact Hc.
Defined.

(** ** Finished tasks and the status queries *)

Lemma od_set_keys {V} (k : string) (v : V) (d : odict V) :
  od_mem k d = true -> List.map fst (od_set k v d) = List.map fst d.
Proof.
  unfold od_mem, od_get. induction d as [| [k' v'] d IH]; simpl; [discriminate |].
  destruct (String.eqb_spec k' k) as [-> | Hne]; simpl; [reflexivity |].
  intros H. rewrite IH by exact H. reflexivity.
Qed.

Lemma od_get_none_not_key {V} (k : string) (d : odict V) :
  ~ In k (List.map fst d) -> od_get k d = None.
Proof.
  unfold od_get. induction d as [| [k' v'] d IH]; simpl; [reflexivity |].
  intros Hnot. destruct (String.eqb_spec k' k) as [-> | Hne].
  - exfalso. apply Hnot. left. reflexivity.
  - apply IH. intros Hin. apply Hnot. right. exact Hin.
Qed.

Lemma od_pop_removes {V} (k : string) (d d' : odict V) :
  List.NoDup (List.map fst d) ->
  od_pop k d = Some d' ->
  od_get k d' = None /\ S (length d') = length d.
Proof.
  revert d'. induction d as [| [k' v'] d IH]; simpl; intros d' Hnd Hpop;
    [discriminate |].
  inversion Hnd as [| ? ? Hnotin Hnd']. subst.
  destruct (String.eqb_spec k' k) as [-> | Hne].
  - injection Hpop as <-. split; [apply od_get_none_not_key, Hnotin | reflexivity].
  - destruct (od_pop k d) as [r |] eqn:Hr; [| discriminate].
    injection Hpop as <-. destruct (IH r Hnd' eq_refl) as [Hget Hlen].
    split; [| simpl; rewrite Hlen; reflexivity].
    unfold od_get in *. simpl.
    destruct (String.eqb_spec k' k); [contradiction | exact Hget].
Qed.

(** X13. Once the [except] branch of [process_tasks] has finished a
    task, the task can no longer be queried: [get_task_status] raises
    [ValueError] for its id, and [get_project_metrics] counts one task
    less, because both only look at [self.tasks], while the task is now
    in [completed_tasks]. *)
Theorem finished_task_not_found (env : Env) (self : Orchestrator.t)
    (task : TaskDependency.t) (e : exn) :
  distinct_keys self ->
  od_mem (TaskDependency.task_id task) (Orchestrator.tasks self) = true ->
  let self' := fst (fst (process_tasks_except env false self task e)) in
  (exists msg,
     get_task_status self' (TaskDependency.task_id task)
     = Raise (ValueError msg))
  /\ S (tm_total (pm_tasks (get_project_metrics env self')))
     = tm_total (pm_tasks (get_project_metrics env self))
  /\ gm_mem (TaskDependency.task_id task) (Orchestrator.completed_tasks self')
     = true.
Proof.
  intros Hnd Hmem.
  destruct (process_tasks_except_state env self task e Hmem)
    as (ts & ev & r & Hpop & Heq & _).
  cbv zeta. rewrite Heq. cbn [fst].
  assert (Hnd' : List.NoDup
                   (List.map fst
                      (od_set (TaskDependency.task_id task)
                         (failed_task env task e) (Orchestrator.tasks self))))
    by (rewrite od_set_keys by exact Hmem; exact Hnd).
  destruct (od_pop_removes _ _ _ Hnd' Hpop) as [Hget Hlen].
  split; [| split].
  - unfold get_task_status. simpl. rewrite Hget. eauto.
  - unfold get_project_metrics, task_metrics_of, od_values. simpl.
    rewrite !length_map. rewrite Hlen.
    rewrite <- (length_map fst (od_set _ _ _)), od_set_keys by exact Hmem.
    apply length_map.
  - unfold gm_mem. simpl. rewrite lookup_insert_eq. reflexivity.
Qed.

Lemma finished_task_not_found_witness :
  exists msg,
    get_task_status
      (fst (fst (process_tasks_except env_always_transient false state_AB dep_A
                   (AttributeError "_get_retry_strategy")))) "A"
    = Raise (ValueError msg).
Proof.
  assert (Hnd : distinct_keys state_AB).
  { unfold distinct_keys. simpl. repeat constructor; simpl; intuition discriminate. }
  apply (finished_task_not_found env_always_transient state_AB dep_A
           (AttributeError "_get_retry_strategy") Hnd).
  reflexivity.
Defined.

(** ** [get_project_metrics] *)

Lemma count_status_le (s : string) (l : list TaskDependency.t) :
  (count_status s l <= length l)%nat.
Proof. unfold count_status. apply filter_length_le. Qed.

Lemma four_counts (l : list TaskDependency.t) :
  (count_status "completed" l + count_status "failed" l
   + count_status "running" l + count_status "pending" l <= length l)%nat
  /\ (Forall counted_status l ->
      (count_status "completed" l + count_status "failed" l
       + count_status "running" l + count_status "pending" l = length l)%nat).
Proof.
  unfold count_status. induction l as [| t l [IHle IHeq]]; simpl.
  - split; [lia | reflexivity].
  - split.
    + destruct (String.eqb_spec (TaskDependency.status t) "completed") as [-> | _];
        [simpl; lia |].
      destruct (String.eqb_spec (TaskDependency.status t) "failed") as [-> | _];
        [simpl; lia |].
      destruct (String.eqb_spec (TaskDependency.status t) "running") as [-> | _];
        [simpl; lia |].
      destruct (String.eqb (TaskDependency.status t) "pending"); simpl; lia.
    + intros Hall. inversion Hall as [| ? ? Ht Hl]. subst.
      specialize (IHeq Hl).
      destruct Ht as [-> | [-> | [-> | ->]]]; simpl; lia.
Qed.

(** X14. In the metrics of [get_project_metrics] the four task counts
    ("completed", "failed", "in_progress", "pending") never add up to
    more than "total", and add up to it exactly when every task of
    [self.tasks] has one of the statuses "completed", "failed", "running"
    or "pending"; every agent's "success_rate" lies between 0 and 100,
    and is 0 for an agent without tasks. *)
Theorem project_metrics_consistent (env : Env) (self : Orchestrator.t) :
  let tm := pm_tasks (get_project_metrics env self) in
  (tm_completed tm + tm_failed tm + tm_in_progress tm + tm_pending tm
   <= tm_total tm)%nat
  /\ (Forall counted_status (od_values (Orchestrator.tasks self)) ->
      (tm_completed tm + tm_failed tm + tm_in_progress tm + tm_pending tm
       = tm_total tm)%nat)
  /\ (forall agent_id am,
        pm_agents (get_project_metrics env self) !! agent_id = Some am ->
        (0 <= am_success_rate am)%Q /\ (am_success_rate am <= 100)%Q
        /\ (am_total_tasks am = 0%nat -> am_success_rate am = 0%Q)).
Proof.
  cbv zeta. unfold get_project_metrics, task_metrics_of; simpl.
  split; [apply four_counts |]. split; [apply four_counts |].
  intros agent_id am Ham.
  apply lookup_set_to_map in Ham; [| intros y y' _ _ Hyy; exact Hyy].
  destruct Ham as (a & _ & Heq). injection Heq as _ <-.
  unfold agent_metrics_of. simpl.
  set (l := List.filter _ _).
  destruct l as [| t l'] eqn:Hl; [split; [discriminate |]; split; [discriminate | reflexivity] |].
  pose proof (count_status_le "completed" (t :: l')) as Hle.
  set (c := count_status "completed" (t :: l')) in *.
  set (n := length (t :: l')) in *.
  assert (Hn : (0 < n)%nat) by (unfold n; simpl; lia).
  assert (Hnq : (0 < inject_Z (Z.of_nat n))%Q)
    by (unfold Qlt, inject_Z; simpl; lia).
  assert (Hcq : (0 <= inject_Z (Z.of_nat c))%Q)
    by (unfold Qle, inject_Z; simpl; lia).
  assert (Hcn : (inject_Z (Z.of_nat c) <= inject_Z (Z.of_nat n))%Q)
    by (unfold Qle, inject_Z; simpl; lia).
  split; [| split].
  - apply Qmult_le_0_compat; [| discriminate].
    apply Qle_shift_div_l; [exact Hnq |]. rewrite Qmult_0_l. exact Hcq.
  - assert (Hdiv : (inject_Z (Z.of_nat c) / inject_Z (Z.of_nat n) <= 1)%Q)
      by (apply Qle_shift_div_r; [exact Hnq |]; rewrite Qmult_1_l; exact Hcn).
    apply Qle_trans with (1 * 100)%Q;
      [apply Qmult_le_compat_r; [exact Hdiv | discriminate] | discriminate].
  - simpl. discriminate.
Qed.

Lemma project_metrics_consistent_witness :
  (tm_completed (pm_tasks (get_project_metrics env_working state_AB))
   + tm_failed (pm_tasks (get_project_metrics env_working state_AB))
   + tm_in_progress (pm_tasks (get_project_metrics env_working state_AB))
   + tm_pending (pm_tasks (get_project_metrics env_working state_AB))
   = tm_total (pm_tasks (get_project_metrics env_working state_AB)))%nat.
Proof.
  destruct (project_metrics_consistent env_working state_AB) as (_ & Heq & _).
  apply Heq. repeat constructor; right; right; right; reflexivity.
Defined.

(** ** [register_agent] *)

(** X15. [register_agent] adds the agent to the registry and then raises
    [AttributeError], because [self.logger] is never assigned. The
    registration has taken effect all the same: agents registered before
    stay registered, the tasks are untouched, and a task of that agent,
    which the loop of [process_tasks] skipped with an error in the log
    as long as the agent was unknown, now reaches [Task(...)], whose
    exception leaves [process_tasks]. *)
Theorem register_agent_then_dispatch (fuel : nat) (h : retry_helpers)
    (env : Env) (self : Orchestrator.t) (task : TaskDependency.t) :
  let registered :=
    register_agent (AgentOrchestrator h) self (TaskDependency.agent_id task) in
  snd registered = Raise (AttributeError "logger")
  /\ agent_known (fst registered) (TaskDependency.agent_id task) = true
  /\ (forall a, agent_known self a = true -> agent_known (fst registered) a = true)
  /\ Orchestrator.tasks (fst registered) = Orchestrator.tasks self
  /\ Orchestrator.completed_tasks (fst registered)
     = Orchestrator.completed_tasks self
  /\ _get_ready_tasks (fst registered) = _get_ready_tasks self
  /\ (agent_known self (TaskDependency.agent_id task) = false ->
      process_ready_task fuel (AgentOrchestrator h) env self task
      = Some (self,
              [EvLogError ("Unknown agent: " ++ TaskDependency.agent_id task)%string],
              Ok tt))
  /\ process_ready_task fuel (AgentOrchestrator h) env (fst registered) task
     = Some (fst registered, [], Raise (ValidationError "Task")).
Proof.
  cbv zeta. unfold register_agent.
  change (getattr (AgentOrchestrator h) "logger" tt)
    with (Raise (A:=unit) (AttributeError "logger")).
  cbn [fst snd].
  set (s1 := Orchestrator.make _ _ _ _ _ _).
  assert (Hk : agent_known s1 (TaskDependency.agent_id task) = true).
  { unfold agent_known, s1. simpl. apply bool_decide_eq_true. set_solver. }
  split; [reflexivity |]. split; [exact Hk |]. split.
  { intros a Ha. unfold agent_known, s1 in *. simpl.
    apply bool_decide_eq_true in Ha. apply bool_decide_eq_true. set_solver. }
  split; [reflexivity |]. split; [reflexivity |]. split; [reflexivity |].
  split.
  - intros Hunknown. apply process_ready_task_unknown, Hunknown.
  - apply process_ready_task_known, Hk.
Qed.

Lemma register_agent_then_dispatch_witness :
  process_ready_task 1 (AgentOrchestrator default_helpers) env_always_transient
    state_ghost ghost_task
  = Some (state_ghost, [EvLogError "Unknown agent: ghost"], Ok tt)
  /\ process_ready_task 1 (AgentOrchestrator default_helpers)
       env_always_transient
       (fst (register_agent (AgentOrchestrator default_helpers) state_ghost
               "ghost"))
       ghost_task
     = Some (fst (register_agent (AgentOrchestrator default_helpers) state_ghost
                    "ghost"),
             [], Raise (ValidationError "Task")).
Proof.
  destruct (register_agent_then_dispatch 1 default_helpers env_always_transient
              state_ghost ghost_task) as (_ & _ & _ & _ & _ & _ & Hskip & Hraise).
  split; [apply Hskip; vm_compute; reflexivity | exact Hraise].
Defined.

(** ** C1: dependents of a failed task *)

Lemma update_milestone_progress_trace (env : Env) (self : Orchestrator.t)
    (milestone_id : string) :
  attempts_in (snd (fst (_update_milestone_progress env self milestone_id)))
  = 0%nat.
Proof.
  unfold _update_milestone_progress, _handle_milestone_delay.
  destruct (Orchestrator.milestones self !! milestone_id) as [m |];
    [| reflexivity].
  destruct (count_completed _); [| reflexivity].
  destruct (fromisoformat _); [| reflexivity]. cbv zeta.
  rewrite !send_notification_nothing.
  destruct (Qltb _ 50 && _).
  - destruct (write_milestones env "_handle_milestone_delay"); [| reflexivity].
    rewrite send_notification_nothing.
    destruct (write_milestones env "_update_milestone_progress"); reflexivity.
  - rewrite send_notification_nothing.
    destruct (write_milestones env "_update_milestone_progress"); reflexivity.
Qed.

Lemma create_task_frame (env : Env) (self : Orchestrator.t)
    (task_id agent_id description : string)
    (depends_on : option (list string)) (md : option metadata_t) :
  Orchestrator.completed_tasks
    (fst (fst (create_task env self task_id agent_id description depends_on md)))
  = Orchestrator.completed_tasks self
  /\ attempts_in
       (snd (fst (create_task env self task_id agent_id description depends_on md)))
     = 0%nat.
Proof.
  unfold create_task.
  destruct (agent_known self agent_id); cbn [negb]; [| split; reflexivity].
  destruct (md_milestone_id _) as [mid |]; [| split; reflexivity].
  destruct (truthy_str _); [| split; reflexivity].
  cbv zeta. cbn [Orchestrator.milestones Orchestrator.set_tasks].
  destruct (Orchestrator.milestones self !! mid) as [m |]; [| split; reflexivity].
  set (s1 := store_milestone _ _ _).
  pose proof (update_milestone_progress_frame env s1 mid) as (_ & Hc & _).
  pose proof (update_milestone_progress_trace env s1 mid) as Hev.
  destruct (_update_milestone_progress env s1 mid) as [[s2 ev] [[] | e]];
    cbn [fst snd] in *; split; assumption.
Qed.

(** No call of the orchestrator's methods writes [completed_tasks], and
    none runs an agent. *)
Lemma perform_frame (cls : orchestrator_class) (env : Env)
    (self self' : Orchestrator.t) (op : operation) (ev : list event) :
  perform cls env self op = Some (self', ev) ->
  Orchestrator.completed_tasks self' = Orchestrator.completed_tasks self
  /\ attempts_in ev = 0%nat.
Proof.
  destruct op as [task_id agent_id task_type description dependencies md
                 | requesting target task_type description md
                 | agent_id
                 | task_id agent_id description depends_on md
                 | task_id
                 | rounds fuel]; cbn [perform].
  - intros [= <- <-]. split; [| reflexivity].
    unfold add_task. destruct dependencies; reflexivity.
  - intros [= <- <-]. split; [| reflexivity].
    unfold request_agent_task. destruct (agent_known self target); reflexivity.
  - intros [= <- <-]. split; [| reflexivity].
    unfold register_agent. destruct (getattr cls "logger" tt); reflexivity.
  - pose proof (create_task_frame env self task_id agent_id description
                  depends_on md) as [Hc Hev].
    destruct (create_task env self task_id agent_id description depends_on md)
      as [[s1 ev1] r1].
    intros [= <- <-]. split; assumption.
  - pose proof (execute_task_shape env self task_id) as (Hc & _).
    destruct (execute_task_raises env self task_id)
      as (s1 & ev1 & e1 & Heq & Hev).
    cbv zeta in Hc. rewrite Heq in Hc |- *. cbn [fst] in Hc.
    intros [= <- <-]. split; assumption.
  - destruct (process_tasks rounds fuel cls env self) as [[[s1 ev1] r1] |] eqn:Hp;
      [| discriminate].
    intros [= <- <-].
    destruct (process_tasks_state _ _ _ _ _ _ _ _ Hp) as [-> Hev].
    split; [reflexivity | exact Hev].
Qed.

Lemma perform_all_frame (cls : orchestrator_class)
    (calls : list (Env * operation)) :
  forall (self self' : Orchestrator.t) (ev : list event),
    perform_all cls self calls = Some (self', ev) ->
    Orchestrator.completed_tasks self' = Orchestrator.completed_tasks self
    /\ attempts_in ev = 0%nat.
Proof.
  induction calls as [| [env op] calls IH]; intros self self' ev;
    cbn [perform_all].
  - intros [= <- <-]. split; reflexivity.
  - destruct (perform cls env self op) as [[s1 ev1] |] eqn:Hop; [| discriminate].
    destruct (perform_all cls s1 calls) as [[s2 ev2] |] eqn:Hrest; [| discriminate].
    intros [= <- <-].
    destruct (perform_frame _ _ _ _ _ _ Hop) as [Hc1 Hev1].
    destruct (IH _ _ _ Hrest) as [Hc2 Hev2].
    split; [congruence |]. rewrite attempts_in_app, Hev1, Hev2. reflexivity.
Qed.

(** A task with a dependency that is not in [completed_tasks] is not
    ready. *)
Lemma not_ready_without_dependency (self : Orchestrator.t)
    (task : TaskDependency.t) (dep : string) :
  Orchestrator.completed_tasks self !! dep = None ->
  In task (_get_ready_tasks self) ->
  ~ In dep (TaskDependency.depends_on task).
Proof.
  intros Hnone Hready Hdep. apply ready_task_is_ready in Hready as [_ Hready].
  destruct (ready_needs_dependency _ _ _ Hready Hdep) as [d Hd]. congruence.
Qed.

Lemma od_get_touch_ne (k k' : string) (t : TaskDependency.t)
    (ts : odict TaskDependency.t) :
  k <> k' -> od_get k' (touch k t ts) = od_get k' ts.
Proof.
  intros Hne. unfold touch. destruct (od_mem k ts); [| reflexivity].
  apply od_get_set_ne, Hne.
Qed.

(** C1 (as stated, refuted). B depends on A, and A's agent is
    registered. [execute_task] on A marks A as failed: A stays in
    [self.tasks] with status "failed". B's entry is what it was: its
    status is "pending", not "blocked". *)
Lemma C1_dependent_is_not_blocked :
  exists self' ev e failed_A,
    execute_task env_always_transient state_AB "A" = (self', ev, Raise e)
    /\ od_get "A" (Orchestrator.tasks self') = Some failed_A
    /\ TaskDependency.status failed_A = "failed"
    /\ od_get "B" (Orchestrator.tasks self') = Some dep_B
    /\ In "A" (TaskDependency.depends_on dep_B)
    /\ TaskDependency.status dep_B = "pending"
    /\ TaskDependency.status dep_B <> "blocked".
Proof.
  do 4 eexists. split; [vm_compute; reflexivity |].
  split; [vm_compute; reflexivity |].
  split; [reflexivity |]. split; [reflexivity |].
  split; [left; reflexivity |]. split; [reflexivity | discriminate].
Qed.

(** C1 (amended). For tasks A and B of the task table where B's
    [depends_on] contains A and A has no entry in [completed_tasks]:
    when A is marked failed ([execute_task] on A, its checks passed, is
    what marks a task failed), A stays in [self.tasks] with status
    "failed" and B's entry, and so its status, is left as it was (the
    orchestrator has no Blocked status). From then on B is never again
    returned by [_get_ready_tasks]: after every sequence of calls of
    [add_task], [request_agent_task], [register_agent], [create_task],
    [execute_task] and [process_tasks] that has ended, no task whose
    [depends_on] contains A is in the list, and no agent has been run. *)
Theorem C1_failed_dependency (cls : orchestrator_class) (env : Env)
    (self : Orchestrator.t) (A B : TaskDependency.t)
    (calls : list (Env * operation)) :
  od_get (TaskDependency.task_id A) (Orchestrator.tasks self) = Some A ->
  od_get (TaskDependency.task_id B) (Orchestrator.tasks self) = Some B ->
  In (TaskDependency.task_id A) (TaskDependency.depends_on B) ->
  TaskDependency.task_id A <> TaskDependency.task_id B ->
  Orchestrator.completed_tasks self !! TaskDependency.task_id A = None ->
  check_dependencies self (TaskDependency.depends_on A) = Ok tt ->
  agent_known self (TaskDependency.agent_id A) = true ->
  exists failed ev e A',
    execute_task env self (TaskDependency.task_id A) = (failed, ev, Raise e)
    /\ od_get (TaskDependency.task_id A) (Orchestrator.tasks failed) = Some A'
    /\ TaskDependency.status A' = "failed"
    /\ od_get (TaskDependency.task_id B) (Orchestrator.tasks failed) = Some B
    /\ attempts_in ev = 0%nat
    /\ ~ In B (_get_ready_tasks failed)
    /\ forall (self' : Orchestrator.t) (ev' : list event),
         perform_all cls failed calls = Some (self', ev') ->
         ~ In B (_get_ready_tasks self')
         /\ (forall t, In t (_get_ready_tasks self') ->
                       ~ In (TaskDependency.task_id A) (TaskDependency.depends_on t))
         /\ Orchestrator.completed_tasks self' !! TaskDependency.task_id A = None
         /\ attempts_in ev' = 0%nat.
Proof.
  intros HA HB Hdep Hne Hnone Hdeps Hknown.
  assert (Hmem : od_mem (TaskDependency.task_id A) (Orchestrator.tasks self) = true)
    by (unfold od_mem; rewrite HA; reflexivity).
  rewrite (execute_task_started env self _ A HA Hdeps Hknown).
  destruct (execute_task_except_shape env
              (write_back false (started_by_execute env A) self)
              (started_by_execute env A) (ValidationError "Task"))
    as (ev & e & Heq & Hev).
  rewrite Heq. fold (failed_by_execute env A).
  set (s1 := write_back false (started_by_execute env A) self).
  set (failed := write_back false (failed_by_execute env A) s1).
  pose proof (write_back_false_tasks (started_by_execute env A) self)
    as (Ht1 & Hc1 & _).
  pose proof (write_back_false_tasks (failed_by_execute env A) s1)
    as (Ht2 & Hc2 & _).
  fold s1 in Ht1, Hc1. fold failed in Ht2, Hc2.
  assert (Hts : Orchestrator.tasks failed
                = touch (TaskDependency.task_id A) (failed_by_execute env A)
                    (Orchestrator.tasks self)).
  { rewrite Ht2, Ht1.
    change (TaskDependency.task_id (failed_by_execute env A))
      with (TaskDependency.task_id A).
    change (TaskDependency.task_id (started_by_execute env A))
      with (TaskDependency.task_id A).
    apply touch_touch. }
  assert (Hcf : Orchestrator.completed_tasks failed !! TaskDependency.task_id A
                = None) by (rewrite Hc2, Hc1; exact Hnone).
  exists failed, ev, e, (failed_by_execute env A).
  split; [reflexivity |].
  split; [rewrite Hts; apply od_get_touch, Hmem |].
  split; [reflexivity |].
  split; [rewrite Hts, (od_get_touch_ne _ _ _ _ Hne); exact HB |].
  split; [exact Hev |].
  split.
  { intros Hin. exact (not_ready_without_dependency failed B _ Hcf Hin Hdep). }
  intros self' ev' Hcalls.
  destruct (perform_all_frame cls calls failed self' ev' Hcalls) as [Hc Hev'].
  assert (Hnone' : Orchestrator.completed_tasks self' !! TaskDependency.task_id A
                   = None) by (rewrite Hc; exact Hcf).
  split.
  { intros Hin. exact (not_ready_without_dependency self' B _ Hnone' Hin Hdep). }
  split; [| split; [exact Hnone' | exact Hev']].
  intros t Hin. exact (not_ready_without_dependency self' t _ Hnone' Hin).
Qed.

Lemma C1_failed_dependency_witness :
  (exists failed ev e A',
     execute_task env_always_transient state_AB "A" = (failed, ev, Raise e)
     /\ od_get "A" (Orchestrator.tasks failed) = Some A'
     /\ TaskDependency.status A' = "failed"
     /\ od_get "B" (Orchestrator.tasks failed) = Some dep_B
     /\ attempts_in ev = 0%nat
     /\ ~ In dep_B (_get_ready_tasks failed)
     /\ forall (self' : Orchestrator.t) (ev' : list event),
          perform_all (AgentOrchestrator default_helpers) failed calls_after_A
          = Some (self', ev') ->
          ~ In dep_B (_get_ready_tasks self')
          /\ (forall t, In t (_get_ready_tasks self') ->
                        ~ In "A" (TaskDependency.depends_on t))
          /\ Orchestrator.completed_tasks self' !! "A" = None
          /\ attempts_in ev' = 0%nat)
  /\ is_Some
       (perform_all (AgentOrchestrator default_helpers)
          (fst (fst (execute_task env_always_transient state_AB "A")))
          calls_after_A).
Proof.
  split.
  - apply (C1_failed_dependency (AgentOrchestrator default_helpers)
             env_always_transient state_AB dep_A dep_B calls_after_A).
    + reflexivity.
    + reflexivity.
    + left. reflexivity.
    + discriminate.
    + reflexivity.
    + reflexivity.
    + vm_compute. reflexivity.
  - vm_compute. eexists. reflexivity.
Defined.

(** ** [_update_milestone_progress] in general *)

(** X16. For every milestone, progress and clock:
    [_update_milestone_progress] never assigns [delay_reason], and a call
    that returns never leaves the status "delayed" (the status set by
    [_handle_milestone_delay] is overwritten from the progress); a
    milestone is only left "delayed" when the call raises. *)
Theorem update_milestone_progress_drops_delay (env : Env)
    (self : Orchestrator.t) (milestone_id : string) (m : MilestoneStatus.t) :
  Orchestrator.milestones self !! milestone_id = Some m ->
  exists m',
    Orchestrator.milestones
      (fst (fst (_update_milestone_progress env self milestone_id)))
      !! milestone_id = Some m'
    /\ MilestoneStatus.delay_reason m' = MilestoneStatus.delay_reason m
    /\ (MilestoneStatus.status m' = "delayed" ->
        is_raise (snd (_update_milestone_progress env self milestone_id)) = true).
Proof.
  intros Hm.
  destruct (update_milestone_progress_never_delayed env self milestone_id m Hm)
    as (m' & Hlook & Hreason & Hnot).
  exists m'. split; [exact Hlook |]. split; [exact Hreason |].
  intros Hdelayed.
  destruct (snd (_update_milestone_progress env self milestone_id))
    as [[] | e]; [| reflexivity].
  exfalso. apply Hnot; [reflexivity | exact Hdelayed].
Qed.

Lemma update_milestone_progress_drops_delay_witness :
  exists m',
    Orchestrator.milestones
      (fst (fst (_update_milestone_progress env_working state_milestone "m1")))
      !! "m1" = Some m'
    /\ MilestoneStatus.delay_reason m' = MilestoneStatus.delay_reason milestone_m1
    /\ (MilestoneStatus.status m' = "delayed" ->
        is_raise (snd (_update_milestone_progress env_working state_milestone
                         "m1")) = true).
Proof.
  apply (update_milestone_progress_drops_delay env_working state_milestone
           "m1" milestone_m1).
  reflexivity.
Defined.

Lemma count_completed_bounds (l : list milestone_task) (c : Z) :
  count_completed l = Ok c ->
  0 <= c <= Z.of_nat (length l)
  /\ (c = Z.of_nat (length l) <-> Forall complete_entry l).
Proof.
  revert c. induction l as [| x l IH]; simpl; intros c Hc.
  - injection Hc as <-. split; [lia |]. split; [constructor | reflexivity].
  - destruct x as [id | id d b]; [discriminate |]. simpl in Hc.
    destruct (count_completed l) as [n |]; [| discriminate]. simpl in Hc.
    destruct (IH n eq_refl) as [Hb Hiff].
    destruct b; injection Hc as <-.
    + split; [lia |]. split.
      * intros Heq. constructor; [reflexivity |]. apply Hiff. lia.
      * intros Hall. inversion Hall as [| ? ? _ Hl]. apply Hiff in Hl. lia.
    + split; [lia |]. split; [lia |].
      intros Hall. inversion Hall as [| ? ? Hx _]. discriminate Hx.
Qed.

Lemma progress_percent_bounds (c n : Z) :
  0 <= c <= n ->
  (0 <= progress_percent c n)%Q /\ (progress_percent c n <= 100)%Q
  /\ (Qeq_bool (progress_percent c n) 100 = true <-> c = n /\ 0 < n).
Proof.
  intros [Hc Hcn]. unfold progress_percent.
  destruct (Z.ltb_spec 0 n) as [Hn | Hn].
  - assert (Hnq : (0 < inject_Z n)%Q) by (unfold Qlt, inject_Z; simpl; lia).
    assert (Hcq : (0 <= inject_Z c)%Q) by (unfold Qle, inject_Z; simpl; lia).
    assert (Hle : (inject_Z c <= inject_Z n)%Q) by (unfold Qle, inject_Z; simpl; lia).
    assert (Hdiv : (inject_Z c / inject_Z n <= 1)%Q)
      by (apply Qle_shift_div_r; [exact Hnq |]; rewrite Qmult_1_l; exact Hle).
    split; [| split].
    + apply Qmult_le_0_compat; [| discriminate].
      apply Qle_shift_div_l; [exact Hnq |]. rewrite Qmult_0_l. exact Hcq.
    + apply Qle_trans with (1 * 100)%Q;
        [apply Qmult_le_compat_r; [exact Hdiv | discriminate] | discriminate].
    + rewrite Qeq_bool_iff. split.
      * intros Heq. split; [| exact Hn].
        assert (Hq : (inject_Z c == inject_Z n)%Q).
        { assert (Hnz : ~ (inject_Z n == 0)%Q) by (intros Hz; rewrite Hz in Hnq; discriminate Hnq).
          assert (H1 : (inject_Z c / inject_Z n == 1)%Q) by lra.
          rewrite <- (Qmult_1_l (inject_Z n)), <- H1. field. exact Hnz. }
        unfold Qeq, inject_Z in Hq. simpl in Hq. lia.
      * intros [-> _]. field. intros Hz. rewrite Hz in Hnq. discriminate Hnq.
  - split; [discriminate |]. split; [discriminate |].
    split; [discriminate | lia].
Qed.

(** X17. When [_update_milestone_progress] returns for a known
    milestone, the stored progress is the percentage of completed
    entries, between 0 and 100, and the status is "completed" (with
    [actual_completion] set to the current time) exactly when the
    milestone has at least one task and all its tasks are completed. *)
Theorem update_milestone_progress_completion (env : Env)
    (self : Orchestrator.t) (milestone_id : string) (m : MilestoneStatus.t) :
  Orchestrator.milestones self !! milestone_id = Some m ->
  snd (_update_milestone_progress env self milestone_id) = Ok tt ->
  exists m',
    Orchestrator.milestones
      (fst (fst (_update_milestone_progress env self milestone_id)))
      !! milestone_id = Some m'
    /\ (0 <= MilestoneStatus.progress m')%Q
    /\ (MilestoneStatus.progress m' <= 100)%Q
    /\ (MilestoneStatus.status m' = "completed"
        <-> MilestoneStatus.tasks m <> []
            /\ Forall complete_entry (MilestoneStatus.tasks m))
    /\ (MilestoneStatus.status m' = "completed" ->
        MilestoneStatus.actual_completion m' = Some (now env)).
Proof.
  intros Hm. unfold _update_milestone_progress. rewrite Hm.
  destruct (count_completed (MilestoneStatus.tasks m)) as [c | e] eqn:Hc;
    [| discriminate].
  destruct (fromisoformat _) as [t | e]; [| discriminate].
  destruct (count_completed_bounds _ _ Hc) as [Hb Hall].
  set (n := Z.of_nat (length (MilestoneStatus.tasks m))) in *.
  destruct (progress_percent_bounds c n Hb) as (H0 & H100 & Hfull).
  set (p := progress_percent c n) in *.
  assert (Hstat : forall mm,
             MilestoneStatus.progress (status_from_progress env p mm) = p
             /\ (MilestoneStatus.status (status_from_progress env p mm) = "completed"
                 <-> Qeq_bool p 100 = true)
             /\ (Qeq_bool p 100 = true ->
                 MilestoneStatus.actual_completion (status_from_progress env p mm)
                 = Some (now env))).
  { intros mm. unfold status_from_progress.
    destruct (Qeq_bool p 100); [repeat split; auto |].
    destruct (Qltb 0 p); (split; [reflexivity |]; split;
      [split; discriminate | discriminate]). }
  assert (Hne : c = n /\ 0 < n
                <-> MilestoneStatus.tasks m <> []
                    /\ Forall complete_entry (MilestoneStatus.tasks m)).
  { rewrite <- Hall. unfold n. split.
    - intros [Heq Hpos]. split; [| exact Heq].
      intros Hnil. rewrite Hnil in Hpos. simpl in Hpos. lia.
    - intros [Hnil Heq]. split; [exact Heq |].
      destruct (MilestoneStatus.tasks m); [contradiction | simpl; lia]. }
  assert (Hgoal : forall mm s,
             Orchestrator.milestones s !! milestone_id
             = Some (status_from_progress env p mm) ->
             exists m',
               Orchestrator.milestones s !! milestone_id = Some m'
               /\ (0 <= MilestoneStatus.progress m')%Q
               /\ (MilestoneStatus.progress m' <= 100)%Q
               /\ (MilestoneStatus.status m' = "completed"
                   <-> MilestoneStatus.tasks m <> []
                       /\ Forall complete_entry (MilestoneStatus.tasks m))
               /\ (MilestoneStatus.status m' = "completed" ->
                   MilestoneStatus.actual_completion m' = Some (now env))).
  { intros mm s Hs. destruct (Hstat mm) as (Hp & Hst & Hac).
    eexists. split; [exact Hs |]. rewrite Hp.
    split; [exact H0 |]. split; [exact H100 |]. split.
    - rewrite Hst, Hfull. exact Hne.
    - intros Hs'. apply Hac, Hst, Hs'. }
  cbv zeta.
  destruct (Qltb p 50 && (t <? now env)).
  - unfold _handle_milestone_delay.
    destruct (write_milestones env "_handle_milestone_delay") as [[] | e1];
      [| discriminate].
    destruct (write_milestones env "_update_milestone_progress");
      [| discriminate].
    intros _. cbn [fst]. eapply Hgoal. apply lookup_store_milestone.
  - destruct (write_milestones env "_update_milestone_progress");
      [| discriminate].
    intros _. cbn [fst]. eapply Hgoal. apply lookup_store_milestone.
Qed.

Lemma update_milestone_progress_completion_witness :
  exists m',
    Orchestrator.milestones
      (fst (fst (_update_milestone_progress env_working state_m3 "m3")))
      !! "m3" = Some m'
    /\ (0 <= MilestoneStatus.progress m')%Q
    /\ (MilestoneStatus.progress m' <= 100)%Q
    /\ (MilestoneStatus.status m' = "completed"
        <-> MilestoneStatus.tasks milestone_done <> []
            /\ Forall complete_entry (MilestoneStatus.tasks milestone_done))
    /\ (MilestoneStatus.status m' = "completed" ->
        MilestoneStatus.actual_completion m' = Some (now env_working)).
Proof.
  apply (update_milestone_progress_completion env_working state_m3 "m3"
           milestone_done).
  - reflexivity.
  - vm_compute. reflexivity.
Defined.

(** ** More on [calculate_delay] *)


(** X18. Under the exponential strategy with a base delay that is not
    negative: up to attempt 1024 the delay exists; it doubles from
    attempt [n] to [n + 1] as long as [base_delay * 2 ** n] does not
    exceed [max_delay]; once an attempt's delay has reached [max_delay],
    every later attempt that gets a delay waits exactly [max_delay].
    With a [float] base delay no attempt from 1025 on gets a delay
    ([OverflowError]); with an [int] base delay every attempt does. *)
Theorem exponential_delay_doubles_until_cap (self : RetryStrategy.t) (n : Z) :
  (0 <= RetryStrategy.value (RetryStrategy.base_delay self))%Q ->
  RetryStrategy.strategy self = "exponential" ->
  1 <= n ->
  (n <= 1024 -> exists d, RetryStrategy.calculate_delay self n = Ok d)
  /\ (n < 1024 ->
      (RetryStrategy.value (RetryStrategy.base_delay self) * inject_Z (2 ^ n)
       <= RetryStrategy.max_delay self)%Q ->
      exists d d',
        RetryStrategy.calculate_delay self n = Ok d
        /\ RetryStrategy.calculate_delay self (n + 1) = Ok d'
        /\ (d' == 2 * d)%Q)
  /\ (forall d : Q,
        RetryStrategy.calculate_delay self n = Ok d ->
        (d == RetryStrategy.max_delay self)%Q ->
        forall (m : Z) (d' : Q),
          n <= m ->
          RetryStrategy.calculate_delay self m = Ok d' ->
          (d' == RetryStrategy.max_delay self)%Q)
  /\ ((exists q, RetryStrategy.base_delay self = RetryStrategy.Float q) ->
      forall m : Z, 1025 <= m ->
        RetryStrategy.calculate_delay self m = Raise OverflowError)
  /\ ((exists z, RetryStrategy.base_delay self = RetryStrategy.Int z) ->
      exists d, RetryStrategy.calculate_delay self n = Ok d).
Proof.
  intros Hbase Hs Hn.
  assert (Hfixed : RetryStrategy.strategy self <> "fixed")
    by (rewrite Hs; discriminate).
  split; [intros Hle; apply calculate_delay_defined; lia |].
  split; [| split; [| split]].
  - intros Hsmall Hbelow.
    destruct (calculate_delay_defined self n ltac:(lia)) as [d Hd].
    destruct (calculate_delay_defined self (n + 1) ltac:(lia)) as [d' Hd'].
    exists d, d'. split; [exact Hd |]. split; [exact Hd' |].
    rewrite (calculate_delay_value self n d Hn Hfixed Hd).
    rewrite (calculate_delay_value self (n + 1) d' ltac:(lia) Hfixed Hd').
    rewrite Hs. cbn [String.eqb Ascii.eqb Bool.eqb].
    replace (n + 1 - 1) with n by lia.
    assert (Hpow : (inject_Z (2 ^ n) == 2 * inject_Z (2 ^ (n - 1)))%Q).
    { replace n with (Z.succ (n - 1)) at 1 by lia.
      rewrite Z.pow_succ_r by lia. rewrite inject_Z_mult. reflexivity. }
    assert (Hn0 : (RetryStrategy.value (RetryStrategy.base_delay self)
                   * inject_Z (2 ^ (n - 1))
                   <= RetryStrategy.max_delay self)%Q).
    { eapply Qle_trans; [| exact Hbelow].
      rewrite !(Qmult_comm (RetryStrategy.value (RetryStrategy.base_delay self))).
      apply Qmult_le_compat_r; [| exact Hbase].
      rewrite <- Zle_Qle. apply Z.pow_le_mono_r; lia. }
    rewrite (py_min_below _ _ Hbelow), (py_min_below _ _ Hn0), Hpow. ring.
  - intros d Hd Hcap m d' Hm Hd'.
    destruct (exponential_delay_monotone self n m d d' Hbase Hs ltac:(lia) Hd Hd')
      as [Hle Hmax].
    apply Qle_antisym; [exact Hmax |]. rewrite <- Hcap. exact Hle.
  - intros [q Hq] m Hm. apply (calculate_delay_overflow self m q Hs Hq Hm).
  - intros [z Hz]. unfold RetryStrategy.calculate_delay, RetryStrategy.times_pow2.
    rewrite Hs, Hz. cbn [String.eqb Ascii.eqb Bool.eqb].
    destruct (Z.leb_spec 0 (n - 1)) as [_ | Hneg]; [| lia].
    simpl. eauto.
Qed.

Lemma exponential_delay_doubles_until_cap_witness :
  exists d d',
    RetryStrategy.calculate_delay slow_strategy 2 = Ok d
    /\ RetryStrategy.calculate_delay slow_strategy (2 + 1) = Ok d'
    /\ (d' == 2 * d)%Q.
Proof.
  destruct (exponential_delay_doubles_until_cap slow_strategy 2)
    as (_ & Hdouble & _).
  - discriminate.
  - reflexivity.
  - lia.
  - apply Hdouble; [lia | discriminate].
Defined.

(** ** [_execute_task_with_retry] with the helpers defined *)






(** ** The feedback system's estimates *)

Lemma analyze_completion_fields (self : FeedbackSystem.t)
    (completion : TaskCompletion.t) (a : FeedbackSystem.analysis) :
  FeedbackSystem._analyze_completion self completion = Ok a ->
  ~ (TaskCompletion.estimated_duration completion == 0)%Q
  /\ FeedbackSystem.time_difference a
     = (TaskCompletion.actual_duration completion
        - TaskCompletion.estimated_duration completion)%Q
  /\ FeedbackSystem.accuracy_percentage a
     = (1 - Qabs (TaskCompletion.actual_duration completion
                  - TaskCompletion.estimated_duration completion)
            / TaskCompletion.estimated_duration completion)%Q.
Proof.
  unfold FeedbackSystem._analyze_completion.
  destruct (Qeq_bool (TaskCompletion.estimated_duration completion) 0) eqn:Hz;
    [discriminate |].
  destruct (FeedbackSystem._analyze_patterns self completion); [| discriminate].
  destruct (FeedbackSystem._generate_recommendations self completion);
    [| discriminate].
  simpl. intros [= <-]. simpl. split; [| split; reflexivity].
  intros Heq. apply Qeq_bool_iff in Heq. congruence.
Qed.

Lemma Qabs_zero_iff (x : Q) : (Qabs x == 0)%Q <-> (x == 0)%Q.
Proof.
  split; intros H.
  - apply Qle_antisym.
    + rewrite <- H. apply Qle_Qabs.
    + assert (Hneg : (- x <= 0)%Q)
        by (rewrite <- H, <- Qabs_opp; apply Qle_Qabs).
      lra.
  - rewrite H. reflexivity.
Qed.

(** X21. Whenever [_analyze_completion] returns, the estimate is not
    zero, [time_difference] is [actual - estimated] and the accuracy is
    [1 - |actual - estimated| / estimated]. For a positive estimate the
    accuracy is at most 1, it is 1 exactly when the actual duration
    equals the estimate, and it is negative exactly when the task is off
    by more than the whole estimate; for a negative estimate the
    accuracy is at least 1. *)
Theorem analyze_completion_accuracy (self : FeedbackSystem.t)
    (completion : TaskCompletion.t) (a : FeedbackSystem.analysis) :
  FeedbackSystem._analyze_completion self completion = Ok a ->
  let estimated := TaskCompletion.estimated_duration completion in
  let actual := TaskCompletion.actual_duration completion in
  FeedbackSystem.time_difference a = (actual - estimated)%Q
  /\ ((0 < estimated)%Q ->
      (FeedbackSystem.accuracy_percentage a <= 1)%Q
      /\ ((FeedbackSystem.accuracy_percentage a == 1)%Q <-> (actual == estimated)%Q)
      /\ ((FeedbackSystem.accuracy_percentage a < 0)%Q
          <-> (estimated < Qabs (actual - estimated))%Q))
  /\ ((estimated < 0)%Q -> (1 <= FeedbackSystem.accuracy_percentage a)%Q).
Proof.
  intros Hrun estimated actual.
  destruct (analyze_completion_fields self completion a Hrun) as (Hnz & Htd & Hacc).
  fold estimated actual in Hnz, Htd, Hacc.
  split; [exact Htd |]. rewrite Hacc.
  clear Hrun Htd Hacc.
  assert (Hx : (0 <= Qabs (actual - estimated))%Q) by apply Qabs_nonneg.
  assert (Hx0 : (Qabs (actual - estimated) == 0)%Q <-> (actual - estimated == 0)%Q)
    by apply Qabs_zero_iff.
  assert (Hq : (Qabs (actual - estimated) / estimated * estimated
                == Qabs (actual - estimated))%Q) by (field; exact Hnz).
  generalize dependent (Qabs (actual - estimated)). intros x Hx Hx0 Hq.
  generalize dependent (x / estimated)%Q. intros q Hq.
  clearbody estimated actual.
  split.
  - intros Hpos.
    assert (Hq0 : (0 <= q)%Q).
    { destruct (Qlt_le_dec q 0) as [Hqneg | Hqle]; [| exact Hqle].
      exfalso. nra. }
    split; [lra |]. split.
    + split.
      * intros H1. assert (Hq1 : (q == 0)%Q) by lra.
        assert (Hxz : (x == 0)%Q) by (rewrite <- Hq, Hq1; ring).
        apply Hx0 in Hxz. lra.
      * intros Heq. assert (Hxz : (x == 0)%Q) by (apply Hx0; lra).
        assert (Hq1 : (q * estimated == 0)%Q) by (rewrite Hq; exact Hxz).
        nra.
    + split.
      * intros Hneg. rewrite <- Hq. nra.
      * intros Hlt. rewrite <- Hq in Hlt. nra.
  - intros Hneg.
    assert (Hq0 : (q <= 0)%Q).
    { destruct (Qlt_le_dec 0 q) as [Hqpos | Hqle]; [| exact Hqle].
      exfalso. nra. }
    lra.
Qed.

Lemma analyze_completion_accuracy_witness :
  exists a,
    FeedbackSystem._analyze_completion feedback_with_llm
      (completion_of_execute env_working estimated_task true "done") = Ok a
    /\ FeedbackSystem.time_difference a
       = (TaskCompletion.actual_duration
            (completion_of_execute env_working estimated_task true "done")
          - TaskCompletion.estimated_duration
              (completion_of_execute env_working estimated_task true "done"))%Q.
Proof.
  eexists. split; [vm_compute; reflexivity |].
  apply (analyze_completion_accuracy feedback_with_llm
           (completion_of_execute env_working estimated_task true "done")).
  vm_compute. reflexivity.
Defined.

(** ** The agent metrics files *)

Lemma metrics_of_initial : metrics_of initial_metrics [].
Proof.
  split; [reflexivity |]. split; [reflexivity |]. constructor.
Qed.

Lemma update_agent_metrics_step (now : Z) (files : gmap string agent_metrics)
    (agent_id : string) (accuracy : Q) (items : list (string * string))
    (accuracies : list Q) :
  metrics_of (default initial_metrics (files !! agent_id)) accuracies ->
  exists metrics,
    _update_agent_metrics now files agent_id accuracy (PatternsDict items)
    = (<[agent_id := metrics]> files, Ok tt)
    /\ metrics_of metrics (accuracies ++ [accuracy]).
Proof.
  intros (Htotal & Hrec & Hdur). unfold _update_agent_metrics.
  set (metrics := default initial_metrics (files !! agent_id)) in *.
  rewrite Htotal.
  destruct (Z.eqb_spec (Z.of_nat (length accuracies) + 1) 0) as [Hz | Hnz];
    [lia |].
  eexists. split; [reflexivity |].
  assert (Hlen : Z.of_nat (length (accuracies ++ [accuracy]))
                 = Z.of_nat (length accuracies) + 1)
    by (rewrite length_app; simpl; lia).
  split; [simpl; symmetry; exact Hlen |]. split.
  - unfold recorded_accuracies in *. simpl.
    rewrite !List.map_app, Hrec. reflexivity.
  - unfold without_durations in *. simpl.
    apply Forall_app. split; [exact Hdur |].
    constructor; [reflexivity | constructor].
Qed.

Lemma update_agent_metrics_frame (now : Z) (files : gmap string agent_metrics)
    (agent_id other : string) (accuracy : Q) (patterns : llm_patterns) :
  other <> agent_id ->
  fst (_update_agent_metrics now files agent_id accuracy patterns) !! other
  = files !! other.
Proof.
  intros Hne. unfold _update_agent_metrics.
  destruct (_ =? 0); [reflexivity |].
  destruct patterns; [| reflexivity].
  simpl. apply lookup_insert_ne. congruence.
Qed.

Lemma update_agent_metrics_other (now : Z) (files : gmap string agent_metrics)
    (agent_id : string) (accuracy : Q) :
  fst (_update_agent_metrics now files agent_id accuracy PatternsOther) = files.
Proof.
  unfold _update_agent_metrics. destruct (_ =? 0); reflexivity.
Qed.

Lemma accuracies_for_cons (agent_id : string) (u : metrics_update)
    (updates : list metrics_update) :
  accuracies_for agent_id (u :: updates)
  = if records_for agent_id u
    then mu_accuracy u :: accuracies_for agent_id updates
    else accuracies_for agent_id updates.
Proof.
  unfold accuracies_for. simpl. destruct (records_for agent_id u); reflexivity.
Qed.

Lemma metrics_after_invariant (agent_id : string) (updates : list metrics_update) :
  forall (files : gmap string agent_metrics) (accuracies : list Q),
    metrics_of (default initial_metrics (files !! agent_id)) accuracies ->
    metrics_of (default initial_metrics (metrics_after updates files !! agent_id))
      (accuracies ++ accuracies_for agent_id updates)
    /\ (is_Some (files !! agent_id) \/ accuracies_for agent_id updates <> [] ->
        is_Some (metrics_after updates files !! agent_id)).
Proof.
  induction updates as [| u updates IH]; intros files accuracies Hm.
  - unfold accuracies_for. simpl. rewrite app_nil_r. split; [exact Hm |].
    intros [Hsome | Hne]; [exact Hsome | congruence].
  - change (metrics_after (u :: updates) files)
      with (metrics_after updates
              (fst (_update_agent_metrics (mu_now u) files (mu_agent_id u)
                      (mu_accuracy u) (mu_patterns u)))).
    rewrite accuracies_for_cons. unfold records_for.
    destruct (String.eqb_spec (mu_agent_id u) agent_id) as [Heq | Hne].
    + destruct (mu_patterns u) as [items |] eqn:Hpat.
      * cbn [andb]. rewrite Heq.
        destruct (update_agent_metrics_step (mu_now u) files agent_id
                    (mu_accuracy u) items accuracies Hm) as (m & Hrun & Hm').
        rewrite Hrun. cbn [fst].
        destruct (IH (<[agent_id := m]> files) (accuracies ++ [mu_accuracy u]))
          as [Hinv Hsome].
        { rewrite lookup_insert_eq. exact Hm'. }
        rewrite <- app_assoc in Hinv. split; [exact Hinv |].
        intros _. apply Hsome. left. rewrite lookup_insert_eq. eauto.
      * cbn [andb]. rewrite update_agent_metrics_other. apply IH. exact Hm.
    + cbn [andb].
      destruct (IH (fst (_update_agent_metrics (mu_now u) files (mu_agent_id u)
                           (mu_accuracy u) (mu_patterns u))) accuracies)
        as [Hinv Hsome].
      { rewrite update_agent_metrics_frame by congruence. exact Hm. }
      split; [exact Hinv |].
      rewrite update_agent_metrics_frame in Hsome by congruence. exact Hsome.
Qed.

(** X22. What [_update_agent_metrics] records. For an agent without a
    metrics file and every sequence of calls of [_update_agent_metrics]
    (for any agents, in any order, some of them raising) that records at
    least one completion for the agent, the agent's file exists
    afterwards, its [total_tasks] is the number of the agent's recorded
    completions, and ["completion_times"] has one entry per completion,
    with its accuracy as it was passed in, in the order of the calls,
    and without a ["duration"] key. *)
Theorem update_agent_metrics_records (files : gmap string agent_metrics)
    (agent_id : string) (updates : list metrics_update) :
  files !! agent_id = None ->
  accuracies_for agent_id updates <> [] ->
  exists metrics,
    metrics_after updates files !! agent_id = Some metrics
    /\ mf_total_tasks metrics = Z.of_nat (length (accuracies_for agent_id updates))
    /\ List.map ct_accuracy (mf_completion_times metrics)
       = List.map Some (accuracies_for agent_id updates)
    /\ Forall (fun t => ct_duration t = None) (mf_completion_times metrics).
Proof.
  intros Hnone Hrec.
  destruct (metrics_after_invariant agent_id updates files []) as [Hinv Hsome].
  { rewrite Hnone. exact metrics_of_initial. }
  destruct (Hsome (or_intror Hrec)) as [metrics Hlook].
  rewrite Hlook in Hinv. simpl in Hinv.
  destruct Hinv as (Htotal & Hacc & Hdur).
  exists metrics. split; [exact Hlook |].
  split; [exact Htotal |]. split; [exact Hacc | exact Hdur].
Qed.

Lemma update_agent_metrics_records_witness :
  exists metrics,
    metrics_after
      [update_of "backend" 1; update_of "frontend" 0; update_of "backend" (1 # 2)]
      ∅ !! "backend" = Some metrics
    /\ mf_total_tasks metrics = 2
    /\ List.map ct_accuracy (mf_completion_times metrics)
       = [Some 1%Q; Some (1 # 2)%Q].
Proof.
  destruct (update_agent_metrics_records ∅ "backend"
              [update_of "backend" 1; update_of "frontend" 0;
               update_of "backend" (1 # 2)])
    as (metrics & Hlook & Htotal & Hacc & _).
  - reflexivity.
  - discriminate.
  - exists metrics. split; [exact Hlook |]. split; [exact Htotal | exact Hacc].
Defined.

(** ** Loading the history into the timeline estimator *)

Lemma update_agent_metrics_without_durations (now : Z)
    (files : gmap string agent_metrics) (agent_id : string) (accuracy : Q)
    (patterns : llm_patterns) :
  store_without_durations files ->
  store_without_durations
    (fst (_update_agent_metrics now files agent_id accuracy patterns)).
Proof.
  intros Hstore. unfold _update_agent_metrics.
  destruct (_ =? 0); [exact Hstore |].
  destruct patterns as [items |]; [| exact Hstore].
  cbn [fst]. intros a m Hlook.
  destruct (decide (a = agent_id)) as [-> | Hne].
  - rewrite lookup_insert_eq in Hlook. injection Hlook as <-.
    unfold without_durations. simpl. apply Forall_app. split.
    + destruct (files !! agent_id) as [m0 |] eqn:Hfile; simpl.
      * apply (Hstore agent_id m0 Hfile).
      * constructor.
    + constructor; [reflexivity | constructor].
  - rewrite lookup_insert_ne in Hlook by congruence.
    apply (Hstore a m Hlook).
Qed.

Lemma metrics_after_without_durations (updates : list metrics_update) :
  forall files : gmap string agent_metrics,
    store_without_durations files ->
    store_without_durations (metrics_after updates files).
Proof.
  induction updates as [| u updates IH]; intros files Hstore; [exact Hstore |].
  apply IH. apply update_agent_metrics_without_durations. exact Hstore.
Qed.

Lemma durations_of_without (completion_times : list completion_time_entry) :
  Forall (fun t => ct_duration t = None) completion_times ->
  TimelineEstimatorAgent.durations_of completion_times = Ok []
  \/ is_raise (TimelineEstimatorAgent.durations_of completion_times) = true.
Proof.
  intros Hall. destruct Hall as [| t rest Ht _]; [left; reflexivity |].
  right. simpl. rewrite Ht. reflexivity.
Qed.

Lemma load_without_durations (now : Z) (files : gmap string agent_metrics)
    (agent_ids : list string) :
  store_without_durations files ->
  forall agent_throughput : gmap string AgentThroughput.t,
    TimelineEstimatorAgent._load_historical_throughput now files
      agent_throughput agent_ids
    = agent_throughput.
Proof.
  intros Hstore. induction agent_ids as [| a rest IH]; intros tp; [reflexivity |].
  simpl. unfold TimelineEstimatorAgent.load_agent.
  destruct (files !! a) as [m |] eqn:Hfile; [| apply IH].
  destruct (durations_of_without _ (Hstore a m Hfile)) as [Hnil | Hraise].
  - rewrite Hnil. apply IH.
  - destruct (TimelineEstimatorAgent.durations_of (mf_completion_times m));
      [discriminate | reflexivity].
Qed.

Lemma empty_store_without_durations : store_without_durations ∅.
Proof. intros a m Hlook. rewrite lookup_empty in Hlook. discriminate. Qed.

(** X23. The metrics files written by [_update_agent_metrics] carry no
    ["duration"] key, and [_load_historical_throughput] reads exactly
    that key. So for every sequence of recorded completions, starting
    without metrics files, and every list of agent ids, loading the
    history leaves [agent_throughput] as it was: the [KeyError] is
    logged and nothing is loaded. *)
Theorem load_historical_throughput_loads_nothing (now : Z)
    (updates : list metrics_update)
    (agent_throughput : gmap string AgentThroughput.t)
    (agent_ids : list string) :
  TimelineEstimatorAgent._load_historical_throughput now
    (metrics_after updates ∅) agent_throughput agent_ids
  = agent_throughput.
Proof.
  apply load_without_durations, metrics_after_without_durations,
    empty_store_without_durations.
Qed.


(** ** Loading a history that has durations *)

Lemma fold_plus_pos (l : list Q) :
  forall a : Q, (0 < a)%Q -> Forall (fun x => (0 < x)%Q) l ->
                (0 < fold_left Qplus l a)%Q.
Proof.
  induction l as [| x l IH]; intros a Ha Hl; [exact Ha |].
  inversion Hl as [| ? ? Hx Hrest]; subst. simpl. apply IH; [| exact Hrest].
  rewrite <- (Qplus_0_r 0). apply Qplus_lt_le_compat; [exact Ha |].
  apply Qlt_le_weak, Hx.
Qed.

Lemma mean_of_positive_durations (d : Q) (ds : list Q) :
  Forall (fun x => (0 < x)%Q) (d :: ds) ->
  (0 < Qsum (d :: ds) / inject_Z (Z.of_nat (length (d :: ds))))%Q.
Proof.
  intros Hall. inversion Hall as [| ? ? Hd Hds]; subst.
  apply Qlt_shift_div_l.
  - rewrite <- (Zlt_Qlt 0). simpl. lia.
  - rewrite Qmult_0_l. unfold Qsum. simpl. apply fold_plus_pos; [| exact Hds].
    rewrite Qplus_0_l. exact Hd.
Qed.

(** Loading one agent touches the entry of that agent only. *)
Lemma load_agent_frame (now : Z) (files : gmap string agent_metrics)
    (agent_throughput : gmap string AgentThroughput.t) (a agent_id : string) :
  a <> agent_id ->
  fst (TimelineEstimatorAgent.load_agent now files agent_throughput a)
    !! agent_id
  = agent_throughput !! agent_id.
Proof.
  intros Hne. unfold TimelineEstimatorAgent.load_agent, throughput_getitem.
  destruct (files !! a) as [m |]; [| reflexivity].
  destruct (TimelineEstimatorAgent.durations_of _) as [[| d ds] | e];
    [reflexivity | | reflexivity].
  destruct (agent_throughput !! a); destruct (Qeq_bool _ 0); cbn [fst];
    rewrite ?lookup_insert_ne by exact Hne; reflexivity.
Qed.

Lemma load_historical_throughput_frame (now : Z)
    (files : gmap string agent_metrics) (agent_id : string)
    (agent_ids : list string) :
  ~ In agent_id agent_ids ->
  forall agent_throughput : gmap string AgentThroughput.t,
    TimelineEstimatorAgent._load_historical_throughput now files
      agent_throughput agent_ids !! agent_id
    = agent_throughput !! agent_id.
Proof.
  induction agent_ids as [| a rest IH]; intros Hnot tp; [reflexivity |].
  assert (Hne : a <> agent_id) by (intros ->; apply Hnot; left; reflexivity).
  assert (Hrest : ~ In agent_id rest)
    by (intros Hin; apply Hnot; right; exact Hin).
  cbn [TimelineEstimatorAgent._load_historical_throughput].
  pose proof (load_agent_frame now files tp a agent_id Hne) as Hframe.
  destruct (TimelineEstimatorAgent.load_agent now files tp a) as [tp' [[] | e]];
    cbn [fst] in Hframe.
  - rewrite (IH Hrest tp'). exact Hframe.
  - exact Hframe.
Qed.

(** X25. A metrics file whose entries all have a ["duration"] is loaded,
    provided the load gets to it. If the agent ids listed before the
    agent have no metrics file, the agent is not listed again, and its
    file holds the positive durations [d :: ds], whose sum stays below
    [2 ** 1000] (far from the largest [float]), then after
    [_load_historical_throughput] the agent's entry has [total_tasks]
    equal to the number of durations, [last_update] set to the time of
    the load, and a positive [average_duration] and [tasks_per_minute].
    But a file listed before it whose entries lack the key stops the
    whole load: [agent_throughput] is left as it was. *)
Theorem load_historical_throughput_loads_durations (now : Z)
    (files : gmap string agent_metrics)
    (agent_throughput : gmap string AgentThroughput.t)
    (before rest : list string) (agent_id : string)
    (metrics : agent_metrics) (d : Q) (ds : list Q) :
  Forall (fun a => files !! a = None) before ->
  ~ In agent_id rest ->
  files !! agent_id = Some metrics ->
  TimelineEstimatorAgent.durations_of (mf_completion_times metrics)
  = Ok (d :: ds) ->
  Forall (fun x => (0 < x)%Q) (d :: ds) ->
  (Qsum (d :: ds) <= inject_Z (2 ^ 1000))%Q ->
  (exists entry,
     TimelineEstimatorAgent._load_historical_throughput now files
       agent_throughput (before ++ agent_id :: rest) !! agent_id
     = Some entry
     /\ AgentThroughput.total_tasks entry = Z.of_nat (length (d :: ds))
     /\ AgentThroughput.last_update entry = Some now
     /\ (0 < AgentThroughput.average_duration entry)%Q
     /\ (0 < AgentThroughput.tasks_per_minute entry)%Q)
  /\ (forall (bad : string) (m : agent_metrics) (e : exn),
        files !! bad = Some m ->
        TimelineEstimatorAgent.durations_of (mf_completion_times m) = Raise e ->
        TimelineEstimatorAgent._load_historical_throughput now files
          agent_throughput (bad :: agent_id :: rest)
        = agent_throughput).
Proof.
  intros Hbefore Hrest Hfile Hdur Hpos _. split.
  - induction Hbefore as [| a before Ha _ IH].
    + cbn [app TimelineEstimatorAgent._load_historical_throughput].
      pose proof (mean_of_positive_durations d ds Hpos) as Hmean.
      unfold TimelineEstimatorAgent.load_agent. rewrite Hfile, Hdur.
      set (mean := (Qsum (d :: ds) / inject_Z (Z.of_nat (length (d :: ds))))%Q)
        in *.
      destruct (throughput_getitem agent_throughput agent_id) as [th tp'].
      destruct (Qeq_bool mean 0) eqn:Hz.
      { apply Qeq_bool_iff in Hz. rewrite Hz in Hmean.
        exfalso. apply (Qlt_irrefl 0), Hmean. }
      rewrite (load_historical_throughput_frame now files agent_id rest Hrest).
      rewrite lookup_insert_eq. eexists. split; [reflexivity |].
      cbn [AgentThroughput.total_tasks AgentThroughput.last_update
           AgentThroughput.average_duration AgentThroughput.tasks_per_minute].
      split; [reflexivity |]. split; [reflexivity |]. split; [exact Hmean |].
      apply Qlt_shift_div_l; [exact Hmean |]. rewrite Qmult_0_l. reflexivity.
    + cbn [app TimelineEstimatorAgent._load_historical_throughput].
      unfold TimelineEstimatorAgent.load_agent at 1. rewrite Ha. exact IH.
  - intros bad m e Hbad Hraise.
    cbn [TimelineEstimatorAgent._load_historical_throughput].
    unfold TimelineEstimatorAgent.load_agent at 1. rewrite Hbad, Hraise.
    reflexivity.
Qed.

Lemma load_historical_throughput_loads_durations_witness :
  exists entry,
    TimelineEstimatorAgent._load_historical_throughput 20
      {["backend" := measured_file [4; 8]%Q]} ∅ ["frontend"; "backend"]
      !! "backend"
    = Some entry
    /\ AgentThroughput.total_tasks entry = 2
    /\ AgentThroughput.last_update entry = Some 20
    /\ (0 < AgentThroughput.average_duration entry)%Q
    /\ (0 < AgentThroughput.tasks_per_minute entry)%Q.
Proof.
  apply (load_historical_throughput_loads_durations 20
           {["backend" := measured_file [4; 8]%Q]} ∅ ["frontend"] [] "backend"
           (measured_file [4; 8]%Q) 4 [8%Q]).
  - repeat constructor.
  - intros [].
  - reflexivity.
  - reflexivity.
  - repeat constructor.
  - vm_compute. discriminate.
Defined.

(** ** Expected progress of a milestone *)

Lemma clamp_cases (r : Q) :
  (r <= 0 /\ py_min 1 (py_max 0 r) = 0)%Q
  \/ (0 < r /\ r < 1 /\ py_min 1 (py_max 0 r) = r)%Q
  \/ (1 <= r /\ py_min 1 (py_max 0 r) = 1)%Q.
Proof.
  unfold py_min, py_max, Qltb.
  destruct (Qlt_le_dec 0 r) as [Hpos | Hle].
  - destruct (Qlt_le_dec r 1) as [Hlt | Hge].
    + right. left. split; [exact Hpos |]. split; [exact Hlt | reflexivity].
    + right. right. split; [exact Hge | reflexivity].
  - left. split; [exact Hle |].
    destruct (Qlt_le_dec 0 1) as [_ | Habs]; [reflexivity | lra].
Qed.

(** X26. [_calculate_expected_progress] for a milestone whose estimated
    completion lies after its start: the result is a fraction between 0
    and 1 that does not decrease as time passes, it is 0 up to the start
    time and 1 from the estimated completion on. (With equal time
    stamps the division raises [ZeroDivisionError].) *)
Theorem expected_progress_monotone (now later start_time estimated_completion : Z) :
  start_time < estimated_completion ->
  now <= later ->
  exists p p' : Q,
    _calculate_expected_progress now start_time estimated_completion = Ok p
    /\ _calculate_expected_progress later start_time estimated_completion = Ok p'
    /\ (0 <= p)%Q /\ (p <= p')%Q /\ (p' <= 1)%Q
    /\ (now <= start_time -> (p == 0)%Q)
    /\ (estimated_completion <= later -> (p' == 1)%Q).
Proof.
  intros Horder Hlater. unfold _calculate_expected_progress.
  destruct (Z.eqb_spec (estimated_completion - start_time) 0) as [Hz | Hnz];
    [lia |].
  eexists. eexists. split; [reflexivity |]. split; [reflexivity |].
  assert (HT : (0 < inject_Z (estimated_completion - start_time))%Q)
    by (rewrite <- (Zlt_Qlt 0); lia).
  assert (Hr : (inject_Z (now - start_time)
                  / inject_Z (estimated_completion - start_time)
                * inject_Z (estimated_completion - start_time)
                == inject_Z (now - start_time))%Q) by (field; lra).
  assert (Hr' : (inject_Z (later - start_time)
                   / inject_Z (estimated_completion - start_time)
                 * inject_Z (estimated_completion - start_time)
                 == inject_Z (later - start_time))%Q) by (field; lra).
  assert (Hle : (inject_Z (now - start_time) <= inject_Z (later - start_time))%Q)
    by (rewrite <- Zle_Qle; lia).
  assert (Hstart : now <= start_time -> (inject_Z (now - start_time) <= 0)%Q)
    by (intros H; rewrite <- (Zle_Qle _ 0); lia).
  assert (Hend : estimated_completion <= later ->
                 (inject_Z (estimated_completion - start_time)
                  <= inject_Z (later - start_time))%Q)
    by (intros H; rewrite <- Zle_Qle; lia).
  set (r := (inject_Z (now - start_time)
             / inject_Z (estimated_completion - start_time))%Q) in *.
  set (r' := (inject_Z (later - start_time)
              / inject_Z (estimated_completion - start_time))%Q) in *.
  set (e := inject_Z (now - start_time)) in *.
  set (e' := inject_Z (later - start_time)) in *.
  set (T := inject_Z (estimated_completion - start_time)) in *.
  clearbody r r' e e' T.
  assert (Hrr : (r <= r')%Q).
  { destruct (Qlt_le_dec r' r) as [Hlt | Hok]; [| exact Hok]. exfalso. nra. }
  destruct (clamp_cases r) as [[H0 ->] | [(H0 & H1 & ->) | [H1 ->]]];
    destruct (clamp_cases r') as [[H0' ->] | [(H0' & H1' & ->) | [H1' ->]]];
    (split; [lra |]); (split; [lra |]); (split; [lra |]); split;
    try (intros Hs; specialize (Hstart Hs));
    try (intros He; specialize (Hend He));
    try reflexivity; try lra; try nra.
Qed.

Lemma expected_progress_monotone_witness :
  exists p p' : Q,
    _calculate_expected_progress 30 0 100 = Ok p
    /\ _calculate_expected_progress 150 0 100 = Ok p'
    /\ (0 <= p)%Q /\ (p <= p')%Q /\ (p' <= 1)%Q
    /\ (30 <= 0 -> (p == 0)%Q)
    /\ (100 <= 150 -> (p' == 1)%Q).
Proof.
  apply (expected_progress_monotone 30 150 0 100); lia.
Defined.

(** ** The critical path, for every queue *)









(** ** The simulation of the timeline estimator *)

Lemma simulation_loop_never_ends (completed_attr : TimelineEstimatorAgent.completed_attribute)
    (task_queue : list TaskDependency.t) (new_ready : list TaskDependency.t)
    (fuel : nat) :
  TimelineEstimatorAgent._get_ready_tasks completed_attr task_queue = Ok new_ready ->
  forall s : TimelineEstimatorAgent.sim_state,
    TimelineEstimatorAgent.agent_states s = [] ->
    TimelineEstimatorAgent.ready_tasks s <> [] ->
    TimelineEstimatorAgent.simulation_loop fuel completed_attr task_queue s = None.
Proof.
  intros Hready. induction fuel as [| fuel IH]; intros s Hstates Hne.
  - simpl. unfold TimelineEstimatorAgent.simulation_continues.
    destruct (TimelineEstimatorAgent.ready_tasks s); [congruence | reflexivity].
  - cbn [TimelineEstimatorAgent.simulation_loop].
    unfold TimelineEstimatorAgent.simulation_continues,
      TimelineEstimatorAgent.simulation_step.
    rewrite Hstates, Hready.
    destruct (TimelineEstimatorAgent.ready_tasks s) as [| t ready] eqn:Hr;
      [congruence |].
    cbn [TimelineEstimatorAgent.update_agent_states
           TimelineEstimatorAgent.assign_tasks obind].
    apply IH; [reflexivity | discriminate].
Qed.

(** X28. [_simulate_execution] never simulates a task. Its
    [agent_states] is an empty [defaultdict] that is only iterated,
    never subscripted, so no agent ever takes a task from [ready_tasks].
    If the first [_get_ready_tasks] raises, so does the simulation; if it
    returns no task, the simulation returns at once with
    [total_duration] 0, no completion time and no utilization; and if it
    returns at least one task, the [while] loop never ends: no number of
    passes suffices. Whenever the call ends, [agent_throughput] is left
    as it was. *)
Theorem simulate_execution_never_runs_a_task
    (completed_attr : TimelineEstimatorAgent.completed_attribute)
    (agent_throughput : gmap string AgentThroughput.t)
    (task_queue : list TaskDependency.t) :
  match TimelineEstimatorAgent._get_ready_tasks completed_attr task_queue with
  | Raise e =>
      forall fuel,
        TimelineEstimatorAgent._simulate_execution fuel completed_attr
          agent_throughput task_queue
        = Some (Raise e, agent_throughput)
  | Ok [] =>
      forall fuel,
        TimelineEstimatorAgent._simulate_execution fuel completed_attr
          agent_throughput task_queue
        = Some (Ok empty_simulation, agent_throughput)
  | Ok (_ :: _) =>
      forall fuel,
        TimelineEstimatorAgent._simulate_execution fuel completed_attr
          agent_throughput task_queue
        = None
  end.
Proof.
  destruct (TimelineEstimatorAgent._get_ready_tasks completed_attr task_queue)
    as [[| t ready] | e] eqn:Hready; intros fuel;
    unfold TimelineEstimatorAgent._simulate_execution; rewrite Hready.
  - destruct fuel; reflexivity.
  - rewrite (simulation_loop_never_ends completed_attr task_queue (t :: ready)
               fuel Hready); [reflexivity | reflexivity | discriminate].
  - reflexivity.
Qed.

Lemma get_ready_tasks_without_dependencies
    (completed_attr : TimelineEstimatorAgent.completed_attribute)
    (task_queue : list TaskDependency.t) :
  Forall (fun task => TaskDependency.depends_on task = []) task_queue ->
  TimelineEstimatorAgent._get_ready_tasks completed_attr task_queue
  = Ok task_queue.
Proof.
  induction 1 as [| t rest Ht _ IH]; [reflexivity |].
  simpl. rewrite Ht, IH. reflexivity.
Qed.

Lemma all_completed_without_attribute (depends_on : list string) :
  depends_on <> [] ->
  TimelineEstimatorAgent.all_completed None depends_on
  = Raise (AttributeError "completed_tasks").
Proof. destruct depends_on; [congruence | reflexivity]. Qed.

(** X29. [_get_ready_tasks] of the timeline estimator reads
    [self.completed_tasks], which no class assigns. On an instance as
    the classes build it the call returns the whole queue when no task
    has a dependency, and raises [AttributeError] as soon as one task
    has one; so a queue with a dependency cannot be simulated, and a
    non-empty queue without dependencies makes [_simulate_execution]
    loop for ever. *)
Theorem timeline_ready_tasks_without_attribute
    (agent_throughput : gmap string AgentThroughput.t)
    (task_queue : list TaskDependency.t) :
  (Forall (fun task => TaskDependency.depends_on task = []) task_queue ->
   TimelineEstimatorAgent._get_ready_tasks None task_queue = Ok task_queue
   /\ (task_queue <> [] ->
       forall fuel,
         TimelineEstimatorAgent._simulate_execution fuel None agent_throughput
           task_queue = None))
  /\ (Exists (fun task => TaskDependency.depends_on task <> []) task_queue ->
      TimelineEstimatorAgent._get_ready_tasks None task_queue
      = Raise (AttributeError "completed_tasks")
      /\ forall fuel,
           TimelineEstimatorAgent._simulate_execution fuel None agent_throughput
             task_queue
           = Some (Raise (AttributeError "completed_tasks"), agent_throughput)).
Proof.
  split.
  - intros Hall.
    pose proof (get_ready_tasks_without_dependencies None task_queue Hall) as Hr.
    split; [exact Hr |]. intros Hne fuel.
    unfold TimelineEstimatorAgent._simulate_execution. rewrite Hr.
    rewrite (simulation_loop_never_ends None task_queue task_queue fuel Hr);
      [reflexivity | reflexivity | exact Hne].
  - intros Hex.
    assert (Hr : TimelineEstimatorAgent._get_ready_tasks None task_queue
                 = Raise (AttributeError "completed_tasks")).
    { induction Hex as [t rest Ht | t rest _ IH]; simpl.
      - rewrite (all_completed_without_attribute _ Ht). reflexivity.
      - destruct (TaskDependency.depends_on t) as [| d ds]; simpl;
          [rewrite IH; reflexivity | reflexivity]. }
    split; [exact Hr |]. intros fuel.
    unfold TimelineEstimatorAgent._simulate_execution. rewrite Hr. reflexivity.
Qed.

Lemma timeline_ready_tasks_without_attribute_witness :
  TimelineEstimatorAgent._get_ready_tasks None [task_A] = Ok [task_A]
  /\ TimelineEstimatorAgent._get_ready_tasks None queue_ABC
     = Raise (AttributeError "completed_tasks").
Proof.
  split.
  - apply (timeline_ready_tasks_without_attribute ∅ [task_A]).
    repeat constructor.
  - apply (timeline_ready_tasks_without_attribute ∅ queue_ABC).
    right. left. discriminate.
Defined.

(** ** The order of priorities in [_find_suitable_task] *)

Lemma ascii_compare_refl (c : Ascii.ascii) : Ascii.compare c c = Eq.
Proof. unfold Ascii.compare. apply N.compare_refl. Qed.

Lemma ascii_compare_lt_trans (a b c : Ascii.ascii) :
  Ascii.compare a b = Lt -> Ascii.compare b c = Lt -> Ascii.compare a c = Lt.
Proof.
  unfold Ascii.compare. rewrite !N.compare_lt_iff. apply N.lt_trans.
Qed.

Lemma string_compare_refl (s : string) : String.compare s s = Eq.
Proof.
  induction s as [| c s IH]; simpl; [reflexivity |].
  rewrite ascii_compare_refl. exact IH.
Qed.

Lemma string_compare_lt_trans (a : string) :
  forall b c : string,
    String.compare a b = Lt -> String.compare b c = Lt ->
    String.compare a c = Lt.
Proof.
  induction a as [| x a IH]; intros [| y b] [| z c]; simpl;
    try discriminate; try reflexivity.
  destruct (Ascii.compare x y) eqn:Hxy; try discriminate;
    destruct (Ascii.compare y z) eqn:Hyz; try discriminate; intros Hab Hbc.
  - apply Ascii.compare_eq_iff in Hxy, Hyz. subst.
    rewrite ascii_compare_refl. apply (IH b c Hab Hbc).
  - apply Ascii.compare_eq_iff in Hxy. subst. rewrite Hyz. reflexivity.
  - apply Ascii.compare_eq_iff in Hyz. subst. rewrite Hxy. reflexivity.
  - rewrite (ascii_compare_lt_trans x y z Hxy Hyz). reflexivity.
Qed.

Lemma string_ltb_irrefl (s : string) : String.ltb s s = false.
Proof. unfold String.ltb. rewrite string_compare_refl. reflexivity. Qed.

(** [a <= b <= c] gives [a <= c], with [x <= y] written [ltb y x = false]. *)
Lemma string_not_ltb_trans (a b c : string) :
  String.ltb b a = false -> String.ltb c b = false -> String.ltb c a = false.
Proof.
  unfold String.ltb. intros Hba Hcb.
  destruct (String.compare c a) eqn:Hca; try reflexivity. exfalso.
  destruct (String.compare b a) eqn:Hb; try discriminate.
  - apply String.compare_eq_iff in Hb. subst. rewrite Hca in Hcb. discriminate.
  - destruct (String.compare c b) eqn:Hc; try discriminate.
    + apply String.compare_eq_iff in Hc. subst. congruence.
    + (* a < b and b < c and c < a *)
      assert (Hab : String.compare a b = Lt)
        by (rewrite String.compare_antisym, Hb; reflexivity).
      assert (Hbc : String.compare b c = Lt)
        by (rewrite String.compare_antisym, Hc; reflexivity).
      pose proof (string_compare_lt_trans a b c Hab Hbc) as Hac.
      rewrite String.compare_antisym, Hca in Hac. discriminate.
Qed.

Lemma key_gt_strings (t best : TaskDependency.t) (s sb : string) :
  priority_string t = Some s ->
  priority_string best = Some sb ->
  exists greater,
    TimelineEstimatorAgent.key_gt t best = Ok greater
    /\ String.ltb (if greater then s else sb) s = false
    /\ String.ltb (if greater then s else sb) sb = false.
Proof.
  unfold priority_string, TimelineEstimatorAgent.key_gt.
  destruct (TimelineEstimatorAgent.priority_key t) as [q | ps]; [discriminate |].
  destruct (TimelineEstimatorAgent.priority_key best) as [q | pb]; [discriminate |].
  intros [= ->] [= ->]. simpl.
  destruct (String.eqb_spec s sb) as [-> | Hne].
  - eexists. split; [reflexivity |].
    destruct (Qltb _ _); split; apply string_ltb_irrefl.
  - eexists. split; [reflexivity |].
    destruct (String.ltb sb s) eqn:Hlt.
    + split; [apply string_ltb_irrefl |].
      unfold String.ltb in *. rewrite String.compare_antisym.
      destruct (String.compare sb s) eqn:Hc; try discriminate.
      reflexivity.
    + split; [exact Hlt | apply string_ltb_irrefl].
Qed.

Lemma max_by_key_strings (rest : list TaskDependency.t) :
  forall best : TaskDependency.t,
    (forall t, In t (best :: rest) -> exists s, priority_string t = Some s) ->
    exists chosen sc,
      TimelineEstimatorAgent.max_by_key best rest = Ok chosen
      /\ In chosen (best :: rest)
      /\ priority_string chosen = Some sc
      /\ forall t s, In t (best :: rest) -> priority_string t = Some s ->
                     String.ltb sc s = false.
Proof.
  induction rest as [| t rest IH]; intros best Hall.
  - destruct (Hall best (or_introl eq_refl)) as [sb Hsb].
    exists best, sb. split; [reflexivity |]. split; [left; reflexivity |].
    split; [exact Hsb |].
    intros t s [<- | []] Hs. rewrite Hsb in Hs. injection Hs as <-.
    apply string_ltb_irrefl.
  - destruct (Hall best (or_introl eq_refl)) as [sb Hsb].
    destruct (Hall t (or_intror (or_introl eq_refl))) as [st Hst].
    destruct (key_gt_strings t best st sb Hst Hsb) as (greater & Hgt & Ht & Hb).
    cbn [TimelineEstimatorAgent.max_by_key]. rewrite Hgt. cbn [obind].
    set (next := if greater then t else best) in *.
    assert (Hnext : priority_string next = Some (if greater then st else sb))
      by (unfold next; destruct greater; assumption).
    destruct (IH next) as (chosen & sc & Hrun & Hin & Hsc & Hmax).
    { intros x [<- | Hx]; [eauto |]. apply Hall. right. right. exact Hx. }
    exists chosen, sc. split; [exact Hrun |]. split.
    + destruct Hin as [<- | Hin]; [| right; right; exact Hin].
      unfold next. destruct greater; [right; left | left]; reflexivity.
    + split; [exact Hsc |].
      pose proof (Hmax next _ (or_introl eq_refl) Hnext) as Hcn.
      intros x s [<- | [<- | Hx]] Hs.
      * rewrite Hsb in Hs. injection Hs as <-.
        apply (string_not_ltb_trans _ _ _ Hb Hcn).
      * rewrite Hst in Hs. injection Hs as <-.
        apply (string_not_ltb_trans _ _ _ Ht Hcn).
      * apply (Hmax x s); [right; exact Hx | exact Hs].
Qed.

(** X30. [_find_suitable_task] compares priorities as strings. When the
    priorities of the agent's ready tasks are strings (an absent
    priority counts as "MEDIUM") and the agent has a ready task, the
    call returns one of the agent's ready tasks whose priority string is
    lexicographically the largest: no ready task of the agent has a
    priority string that is greater. In this order "CRITICAL" is below
    "HIGH", "HIGH" below "LOW" and "LOW" below "MEDIUM". Without a ready
    task of the agent the call returns [None]. *)
Theorem find_suitable_task_string_order (ready_tasks : list TaskDependency.t)
    (agent_id : string) :
  (forall t, In t ready_tasks -> TaskDependency.agent_id t = agent_id ->
             exists s, priority_string t = Some s) ->
  ((forall t, In t ready_tasks -> TaskDependency.agent_id t <> agent_id) ->
   TimelineEstimatorAgent._find_suitable_task ready_tasks agent_id = Ok None)
  /\ ((exists t, In t ready_tasks /\ TaskDependency.agent_id t = agent_id) ->
      exists chosen sc,
        TimelineEstimatorAgent._find_suitable_task ready_tasks agent_id
        = Ok (Some chosen)
        /\ In chosen ready_tasks
        /\ TaskDependency.agent_id chosen = agent_id
        /\ priority_string chosen = Some sc
        /\ forall t s, In t ready_tasks ->
                       TaskDependency.agent_id t = agent_id ->
                       priority_string t = Some s ->
                       String.ltb sc s = false)
  /\ String.ltb "CRITICAL" "HIGH" && String.ltb "HIGH" "LOW"
     && String.ltb "LOW" "MEDIUM" = true.
Proof.
  intros Hstrings. unfold TimelineEstimatorAgent._find_suitable_task.
  set (suitable :=
         List.filter
           (fun task => String.eqb (TaskDependency.agent_id task) agent_id)
           ready_tasks).
  assert (Hsuit : forall t, In t suitable
                            <-> In t ready_tasks
                                /\ TaskDependency.agent_id t = agent_id).
  { intros t. unfold suitable. rewrite List.filter_In.
    split; intros [H1 H2]; (split; [exact H1 |]).
    - apply String.eqb_eq. exact H2.
    - apply String.eqb_eq. exact H2. }
  clearbody suitable. split; [| split; [| reflexivity]].
  - intros Hnone. destruct suitable as [| t rest]; [reflexivity |].
    exfalso. destruct (proj1 (Hsuit t) (or_introl eq_refl)) as [Hin Hag].
    apply (Hnone t Hin Hag).
  - intros (t0 & Hin0 & Hag0).
    destruct suitable as [| t rest].
    { exfalso. apply (proj2 (Hsuit t0)). split; assumption. }
    destruct (max_by_key_strings rest t) as (chosen & sc & Hrun & Hin & Hsc & Hmax).
    { intros x Hx. apply Hsuit in Hx. destruct Hx as [Hx1 Hx2].
      apply (Hstrings x Hx1 Hx2). }
    exists chosen, sc. rewrite Hrun. split; [reflexivity |].
    apply Hsuit in Hin. destruct Hin as [Hin Hag].
    split; [exact Hin |]. split; [exact Hag |]. split; [exact Hsc |].
    intros x s Hx Hxa Hs. apply (Hmax x s); [| exact Hs].
    apply Hsuit. split; assumption.
Qed.

Lemma find_suitable_task_string_order_witness :
  exists chosen sc,
    TimelineEstimatorAgent._find_suitable_task
      [critical_task; high_task; task_A] "backend" = Ok (Some chosen)
    /\ In chosen [critical_task; high_task; task_A]
    /\ TaskDependency.agent_id chosen = "backend"
    /\ priority_string chosen = Some sc
    /\ forall t s, In t [critical_task; high_task; task_A] ->
                   TaskDependency.agent_id t = "backend" ->
                   priority_string t = Some s ->
                   String.ltb sc s = false.
Proof.
  destruct (find_suitable_task_string_order
              [critical_task; high_task; task_A] "backend") as (_ & Hsome & _).
  - intros t [<- | [<- | [<- | []]]] _; eexists; reflexivity.
  - apply Hsome. exists task_A.
    split; [right; right; left; reflexivity | reflexivity].
Defined.
